(** * School attendance dashboard: attendance state and reconciliation model

    A shallow embedding of the core of the application:
    - the status transition engine ([handleToggleStatus],
      [handleBulkStatusUpdate] of [App.tsx]);
    - the lesson configuration lookups of the grid, the reports, the
      student detail modal and the lesson diary;
    - the pending-change queue and its flush ([handleSaveChanges]);
    - the statistics of [ReportsDashboard] and [StudentDetailModal];
    - the wire conversions of [services/api.ts];
    - the delete handlers of [App.tsx].

    JavaScript objects used as dictionaries are finite maps ([gmap]) keyed
    by strings, arrays are lists, numbers that hold slot indices and
    counters are [nat], and the percentage, a JavaScript double, is a
    binary64 [float]. *)

From Stdlib Require Import ZArith Floats Uint63 Ascii String.
From stdpp Require Import gmap strings list fin_maps.

Open Scope string_scope.

(** ** Data model *)

(** Modelled from the spec: [types.ts] is not part of the sources.  The
    attendance status is a closed enumeration of four members
    (PRESENT, ABSENT, EXCUSED, UNDEFINED); [STATUS_LABELS] of
    [constants.ts] and the wire examples show them as non-empty strings,
    so every member is truthy in a JavaScript condition. *)
Inductive AttendanceStatus : Type :=
  | PRESENT
  | ABSENT
  | EXCUSED
  | UNDEFINED.

(** Modelled from the spec: the enrollment status of [types.ts], a closed
    enumeration of four members. *)
Inductive EnrollmentStatus : Type :=
  | ACTIVE
  | DROPOUT
  | TRANSFERRED
  | OTHER.

#[global] Instance AttendanceStatus_eq_dec : EqDecision AttendanceStatus.
Proof. solve_decision. Defined.

#[global] Instance EnrollmentStatus_eq_dec : EqDecision EnrollmentStatus.
Proof. solve_decision. Defined.

(** Modelled from the spec: [Student] of [types.ts],
    [{id, name, status, classId}]. *)
Record Student : Type := mkStudent {
  st_id : string;
  st_name : string;
  st_status : EnrollmentStatus;
  st_classId : string
}.

(** Modelled from the spec: [ClassGroup] of [types.ts], [{id, name}]. *)
Record ClassGroup : Type := mkClass {
  cl_id : string;
  cl_name : string
}.

(** Modelled from the spec: [PendingChange] of [types.ts].  The handlers
    always fill [subject] and [topic] (with the empty string when there is
    none). *)
Record PendingChange : Type := mkChange {
  studentId : string;
  date : string;
  lessonIndex : nat;
  status : AttendanceStatus;
  subject : string;
  topic : string
}.

#[global] Instance PendingChange_eq_dec : EqDecision PendingChange.
Proof. solve_decision. Defined.

(** [ClassAttendance]: student id, then ISO date, then the array of
    statuses indexed by lesson slot.  A lesson slot is an array index, a
    natural number. *)
Abbreviation AttendanceRecord := (gmap string (list AttendanceStatus)).
Abbreviation ClassAttendance := (gmap string (gmap string (list AttendanceStatus))).

(** [LessonSubjectMap] and [LessonTopicMap]: configuration key, then lesson
    slot, then free text. *)
Abbreviation LessonTextMap := (gmap string (gmap nat string)).

(** ** JavaScript idioms *)

(** [x || y] where [x] is a dictionary read whose values are arrays or
    objects: those are always truthy, so only an absent key falls through. *)
Definition jsOr {A : Type} (x : option A) (y : A) : A :=
  match x with
  | Some v => v
  | None => y
  end.

(** [!s] for a string: only the empty string is falsy. *)
Definition isEmptyString (s : string) : bool :=
  match s with
  | EmptyString => true
  | String _ _ => false
  end.

(** [x || y] where [x] is a dictionary read whose values are strings: an
    absent key and the empty string both fall through. *)
Definition jsOrStr (x : option string) (y : string) : string :=
  match x with
  | Some v => if isEmptyString v then y else v
  | None => y
  end.

(** [`${classId}_${date}`] *)
Definition configKey (classId dateStr : string) : string :=
  classId ++ "_" ++ dateStr.

(** [Math.max(...activeLessons, lessonIndex)] *)
Definition maxIndexOf (activeLessons : list nat) (idx : nat) : nat :=
  foldr Nat.max idx activeLessons.

(** ** Lesson configuration registry *)

Record LessonConfig : Type := mkConfig {
  dailyLessonConfig : gmap string (list nat);
  lessonSubjects : LessonTextMap;
  lessonTopics : LessonTextMap
}.

(** The resolution rule in the words of the specification: the composite
    key first, the bare date second, the caller's default third. *)
Definition resolve {V : Type} (m : gmap string V) (classId dateStr : string)
    (dflt : V) : V :=
  match m !! configKey classId dateStr with
  | Some v => v
  | None =>
      match m !! dateStr with
      | Some v => v
      | None => dflt
      end
  end.

(** *** The lookups, site by site *)

(** [handleToggleStatus]:
    [dailyLessonConfig[configKey] || dailyLessonConfig[date] || [0]] *)
Definition toggle_activeLessons (cfg : LessonConfig) (selectedClassId dateStr : string)
    : list nat :=
  jsOr (dailyLessonConfig cfg !! configKey selectedClassId dateStr)
       (jsOr (dailyLessonConfig cfg !! dateStr) [0]).

(** [handleToggleStatus]:
    [lessonSubjects[configKey] || lessonSubjects[date] || {}] *)
Definition toggle_subjectsMap (cfg : LessonConfig) (selectedClassId dateStr : string)
    : gmap nat string :=
  jsOr (lessonSubjects cfg !! configKey selectedClassId dateStr)
       (jsOr (lessonSubjects cfg !! dateStr) ∅).

(** [handleToggleStatus]:
    [lessonTopics[configKey] || lessonTopics[date] || {}] *)
Definition toggle_topicsMap (cfg : LessonConfig) (selectedClassId dateStr : string)
    : gmap nat string :=
  jsOr (lessonTopics cfg !! configKey selectedClassId dateStr)
       (jsOr (lessonTopics cfg !! dateStr) ∅).

(** [AttendanceGrid], header, cells and [calculateStats]. *)
Definition grid_activeIndices (cfg : LessonConfig) (classId dateStr : string)
    : list nat :=
  jsOr (dailyLessonConfig cfg !! configKey classId dateStr)
       (jsOr (dailyLessonConfig cfg !! dateStr) [0]).

Definition grid_subjects (cfg : LessonConfig) (classId dateStr : string)
    : gmap nat string :=
  jsOr (lessonSubjects cfg !! configKey classId dateStr)
       (jsOr (lessonSubjects cfg !! dateStr) ∅).

Definition grid_topics (cfg : LessonConfig) (classId dateStr : string)
    : gmap nat string :=
  jsOr (lessonTopics cfg !! configKey classId dateStr)
       (jsOr (lessonTopics cfg !! dateStr) ∅).

(** [ReportsDashboard], subject statistics. *)
Definition reports_daySubjects (subjects : LessonTextMap) (classId dateStr : string)
    : gmap nat string :=
  jsOr (subjects !! configKey classId dateStr) (jsOr (subjects !! dateStr) ∅).

(** [StudentDetailModal], subject statistics. *)
Definition detail_daySubjects (subjects : LessonTextMap) (classId dateStr : string)
    : gmap nat string :=
  jsOr (subjects !! configKey classId dateStr) (jsOr (subjects !! dateStr) ∅).

(** The sentinel subject of the reports and of the diary. *)
Definition unspecified : string := "Não informada".

(** *** The lesson diary *)

Record DiaryLesson : Type := mkLesson {
  dl_index : nat;
  dl_subject : string;
  dl_topic : string
}.

Record DiaryDay : Type := mkDay {
  dd_date : string;
  dd_lessons : list DiaryLesson
}.

(** [LessonDiary.rawMonthData], the active indices of a day: the composite
    key only, and the day is skipped ([continue]) when the key is absent or
    its list is empty. *)
Definition diary_activeIndices (cfg : LessonConfig) (selectedClassId dateStr : string)
    : option (list nat) :=
  match dailyLessonConfig cfg !! configKey selectedClassId dateStr with
  | None => None
  | Some [] => None
  | Some activeIndices => Some activeIndices
  end.

Definition diary_daySubjects (cfg : LessonConfig) (selectedClassId dateStr : string)
    : gmap nat string :=
  jsOr (lessonSubjects cfg !! configKey selectedClassId dateStr)
       (jsOr (lessonSubjects cfg !! dateStr) ∅).

Definition diary_dayTopics (cfg : LessonConfig) (selectedClassId dateStr : string)
    : gmap nat string :=
  jsOr (lessonTopics cfg !! configKey selectedClassId dateStr)
       (jsOr (lessonTopics cfg !! dateStr) ∅).

(** The body of the loop of [rawMonthData] for one day. *)
Definition diaryDay (cfg : LessonConfig) (selectedClassId dateStr : string)
    : option DiaryDay :=
  match diary_activeIndices cfg selectedClassId dateStr with
  | None => None
  | Some activeIndices =>
      let daySubjects := diary_daySubjects cfg selectedClassId dateStr in
      let dayTopics := diary_dayTopics cfg selectedClassId dateStr in
      Some (mkDay dateStr
              (map (fun idx =>
                      mkLesson idx
                        (jsOrStr (daySubjects !! idx) unspecified)
                        (jsOrStr (dayTopics !! idx) ""))
                   activeIndices))
  end.

(** [rawMonthData]: [monthDates] are the dates of the displayed month, the
    newest first, as the loop from [daysInMonth] down to 1 builds them. *)
Definition rawMonthData (cfg : LessonConfig) (selectedClassId : string)
    (monthDates : list string) : list DiaryDay :=
  if isEmptyString selectedClassId then []
  else omap (diaryDay cfg selectedClassId) monthDates.

(** ** Status transition engine *)

(** The state the toggle handlers write: the attendance store and the
    queue of pending changes. *)
Record Store : Type := mkStore {
  attendance : ClassAttendance;
  pendingChanges : list PendingChange
}.

(** The status the grid shows for a cell:
    [(attendance[studentId] || {})[date] || []] read at the slot, with
    [|| AttendanceStatus.UNDEFINED] for an unset slot. *)
Definition cellStatus (att : ClassAttendance) (sid dateStr : string) (idx : nat)
    : AttendanceStatus :=
  let studentRecord := jsOr (att !! sid) ∅ in
  let statuses := jsOr (studentRecord !! dateStr) [] in
  jsOr (statuses !! idx) UNDEFINED.

(** [while (arr.length <= lessonIndex) arr.push(UNDEFINED)] *)
Definition padStatuses (arr : list AttendanceStatus) (idx : nat)
    : list AttendanceStatus :=
  arr ++ replicate (S idx - length arr) UNDEFINED.

(** [currentDailyStatuses] of [handleToggleStatus]: a copy of the stored
    array, or a fresh array of [maxIndex + 1] undefined slots, padded up to
    the slot that is toggled. *)
Definition currentDailyStatuses (cfg : LessonConfig) (selectedClassId : string)
    (att : ClassAttendance) (sid dateStr : string) (idx : nat)
    : list AttendanceStatus :=
  let activeLessons := toggle_activeLessons cfg selectedClassId dateStr in
  let maxIndex := maxIndexOf activeLessons idx in
  let studentRecord := jsOr (att !! sid) ∅ in
  let arr :=
    match studentRecord !! dateStr with
    | Some stored => stored
    | None => replicate (maxIndex + 1) UNDEFINED
    end in
  padStatuses arr idx.

(** The fixed cycle of an unforced toggle. *)
Definition cycleStatus (currentStatus : AttendanceStatus) : AttendanceStatus :=
  match currentStatus with
  | UNDEFINED => PRESENT
  | PRESENT => ABSENT
  | ABSENT => EXCUSED
  | EXCUSED => UNDEFINED
  end.

(** [nextStatus] of [handleToggleStatus]: the forced status when one is
    given, the cycle otherwise. *)
Definition nextStatusOf (forcedStatus : option AttendanceStatus)
    (current : list AttendanceStatus) (idx : nat) : AttendanceStatus :=
  match forcedStatus with
  | Some forced => forced
  | None => cycleStatus (jsOr (current !! idx) UNDEFINED)
  end.

(** Two pending changes address the same cell. *)
Definition sameCell (sid dateStr : string) (idx : nat) (c : PendingChange) : bool :=
  bool_decide (studentId c = sid) && bool_decide (date c = dateStr)
  && bool_decide (lessonIndex c = idx).

(** The updater passed to [setPendingChanges]: drop the pending change of
    the same cell, if any, and append the new one. *)
Definition enqueue (prev : list PendingChange) (change : PendingChange)
    : list PendingChange :=
  List.filter (fun c => negb (sameCell (studentId change) (date change) (lessonIndex change) c)) prev
  ++ [change].

(** The updater passed to [setAttendance]. *)
Definition writeStatuses (prev : ClassAttendance) (sid dateStr : string)
    (updated : list AttendanceStatus) : ClassAttendance :=
  <[sid := <[dateStr := updated]> (jsOr (prev !! sid) ∅)]> prev.

(** [handleToggleStatus].  [att] is the attendance store the handler closes
    over (the one of the last render); the two updaters run on [st], the
    state at the time they are applied. *)
Definition handleToggleStatus (cfg : LessonConfig) (selectedClassId : string)
    (att : ClassAttendance) (st : Store)
    (sid dateStr : string) (idx : nat) (forcedStatus : option AttendanceStatus)
    : Store :=
  let current := currentDailyStatuses cfg selectedClassId att sid dateStr idx in
  let nextStatus := nextStatusOf forcedStatus current idx in
  if decide (current !! idx = Some nextStatus) then st
  else
    let updatedDailyStatuses := <[idx := nextStatus]> current in
    let subjectsMap := toggle_subjectsMap cfg selectedClassId dateStr in
    let topicsMap := toggle_topicsMap cfg selectedClassId dateStr in
    let subject := jsOrStr (subjectsMap !! idx) "" in
    let topic := jsOrStr (topicsMap !! idx) "" in
    mkStore
      (writeStatuses (attendance st) sid dateStr updatedDailyStatuses)
      (enqueue (pendingChanges st)
         (mkChange sid dateStr idx nextStatus subject topic)).

(** A click on a cell of the rendered grid: the handler closes over the
    store that is displayed. *)
Definition toggle (cfg : LessonConfig) (selectedClassId : string) (st : Store)
    (sid dateStr : string) (idx : nat) : Store :=
  handleToggleStatus cfg selectedClassId (attendance st) st sid dateStr idx None.

(** The body of the [forEach] of [handleBulkStatusUpdate] for one student. *)
Definition bulkStep (cfg : LessonConfig) (selectedClassId : string)
    (att : ClassAttendance) (dateStr : string) (idx : nat)
    (forced : AttendanceStatus) (st : Store) (student : Student) : Store :=
  if decide (st_status student = ACTIVE) then
    let studentRecord := jsOr (att !! st_id student) ∅ in
    let currentStatus :=
      jsOr (studentRecord !! dateStr ≫= fun arr => arr !! idx) UNDEFINED in
    if decide (currentStatus = UNDEFINED) then
      handleToggleStatus cfg selectedClassId att st (st_id student) dateStr idx
        (Some forced)
    else st
  else st.

(** [handleBulkStatusUpdate]: every call of the loop closes over the same
    rendered store, and the updaters are applied one after the other. *)
Definition handleBulkStatusUpdate (cfg : LessonConfig) (selectedClassId : string)
    (classStudents : list Student) (st : Store)
    (dateStr : string) (idx : nat) (forced : AttendanceStatus) : Store :=
  foldl (bulkStep cfg selectedClassId (attendance st) dateStr idx forced)
        st classStudents.

(** ** Pending-change queue *)

(** The key of a pending change. *)
Definition cellKey (c : PendingChange) : string * string * nat :=
  (studentId c, date c, lessonIndex c).



(** ** Wire conversions ([services/api.ts]) *)

(** Strings are sequences of ASCII characters; [\d] is an ASCII digit and
    the white space that [trim] and [parseInt] skip is the ASCII white
    space. *)
Definition isDigit (c : ascii) : bool :=
  let n := nat_of_ascii c in (48 <=? n)%nat && (n <=? 57)%nat.

Definition isSpace (c : ascii) : bool :=
  let n := nat_of_ascii c in
  (n =? 32)%nat || ((9 <=? n)%nat && (n <=? 13)%nat).

Definition isDash (c : ascii) : bool := bool_decide (c = "-"%char).

(** The character class [[-/]]. *)
Definition isDashOrSlash (c : ascii) : bool :=
  bool_decide (c = "-"%char) || bool_decide (c = "/"%char).

(** [s.split(sep)] for a separator of one character (or a class of single
    characters): the pieces between the separators, empty pieces
    included. *)
Fixpoint splitOn (isSep : ascii -> bool) (s : string) : list string :=
  match s with
  | EmptyString => [""]
  | String c rest =>
      if isSep c then "" :: splitOn isSep rest
      else
        match splitOn isSep rest with
        | [] => [String c ""]
        | piece :: pieces => String c piece :: pieces
        end
  end.

Fixpoint trimStart (s : string) : string :=
  match s with
  | EmptyString => ""
  | String c rest => if isSpace c then trimStart rest else s
  end.

Fixpoint trimEnd (s : string) : string :=
  match s with
  | EmptyString => ""
  | String c rest =>
      match trimEnd rest with
      | EmptyString => if isSpace c then "" else String c ""
      | kept => String c kept
      end
  end.

(** [s.trim()] on an ASCII string.  The host also strips the white space
    outside ASCII (the no-break space, the byte order mark), which the
    strings of this model do not hold. *)
Definition trim (s : string) : string := trimEnd (trimStart s).

(** A regular expression that is a fixed sequence of character classes,
    anchored at both ends. *)
Fixpoint matchesClasses (classes : list (ascii -> bool)) (s : string) : bool :=
  match classes, s with
  | [], EmptyString => true
  | cls :: more, String c rest => cls c && matchesClasses more rest
  | _, _ => false
  end.

(** [/^\d{4}-\d{2}-\d{2}$/] *)
Definition isoDatePattern : list (ascii -> bool) :=
  [isDigit; isDigit; isDigit; isDigit; isDash;
   isDigit; isDigit; isDash; isDigit; isDigit].

(** [/^\d{2}[-/]\d{2}[-/]\d{4}$/] *)
Definition brDatePattern : list (ascii -> bool) :=
  [isDigit; isDigit; isDashOrSlash; isDigit; isDigit; isDashOrSlash;
   isDigit; isDigit; isDigit; isDigit].

(** [parts[i]] inside a template literal. *)
Definition part (parts : list string) (i : nat) : string :=
  jsOr (parts !! i) "undefined".

(** [toBrDate]: ISO to DD-MM-YYYY. *)
Definition toBrDate (isoDate : string) : string :=
  if isEmptyString isoDate then ""
  else
    let parts := splitOn isDash isoDate in
    if negb (length parts =? 3)%nat then isoDate
    else part parts 2 ++ "-" ++ part parts 1 ++ "-" ++ part parts 0.

(** [toIsoDate]: DD-MM-YYYY or DD/MM/YYYY (or ISO already) to ISO. *)
Definition toIsoDate (dateStr : string) : string :=
  if isEmptyString dateStr then ""
  else
    let cleanStr := String.substring 0 10 (trim dateStr) in
    if matchesClasses isoDatePattern cleanStr then cleanStr
    else if matchesClasses brDatePattern cleanStr then
      let parts := splitOn isDashOrSlash cleanStr in
      part parts 2 ++ "-" ++ part parts 1 ++ "-" ++ part parts 0
    else cleanStr.

(** The [lessonIndex] field of a raw record, of type [any]: a number (an
    integer, which [parseInt] reads back from its decimal digits), a
    string, or something that is neither ([null], absent). *)
Inductive JsIndex : Type :=
  | IdxNumber (n : Z)
  | IdxString (s : string)
  | IdxMissing.

(** The value of a run of decimal digits at the head of a string, and
    whether there was at least one digit. *)
Fixpoint leadingDigits (acc : Z) (seen : bool) (s : string) : option Z :=
  match s with
  | String c rest =>
      if isDigit c
      then leadingDigits (10 * acc + (Z.of_nat (nat_of_ascii c) - 48))%Z true rest
      else if seen then Some acc else None
  | EmptyString => if seen then Some acc else None
  end.

(** [parseInt(s, 10)] on a string: white space, an optional sign, digits;
    [None] is [NaN]. *)
Definition parseIntStr (s : string) : option Z :=
  match trimStart s with
  | String "-" rest => Z.opp <$> leadingDigits 0%Z false rest
  | String "+" rest => leadingDigits 0%Z false rest
  | body => leadingDigits 0%Z false body
  end.

(** [parseInt(lessonIndex as string, 10)].  [IdxNumber n] is a number that
    is the integer [n] and prints in decimal notation, as the integers
    below 1e21 in absolute value do ([decimalIndex] below); [parseInt] reads
    that print. *)
Definition parseIndex (v : JsIndex) : option Z :=
  match v with
  | IdxNumber n => Some n
  | IdxString s => parseIntStr s
  | IdxMissing => None
  end.

(** A raw attendance record of the remote data source.  [r_date] is [None]
    when the field is not a string. *)
Record RawRecord : Type := mkRaw {
  r_studentId : string;
  r_date : option string;
  r_lessonIndex : JsIndex;
  r_status : AttendanceStatus
}.

(** [rawIdx]: [parseInt(...) || 1], then the clamp of what is outside
    1..20. *)
Definition rawIdxOf (v : JsIndex) : Z :=
  let rawIdx :=
    match parseIndex v with
    | Some n => if decide (n = 0%Z) then 1%Z else n
    | None => 1%Z
    end in
  if decide (rawIdx > 20 ∨ rawIdx < 1)%Z then 1%Z else rawIdx.

(** [idx = Math.max(0, rawIdx - 1)] *)
Definition slotOf (v : JsIndex) : nat :=
  Z.to_nat (Z.max 0 (rawIdxOf v - 1))%Z.

(** The body of the [forEach] of [transformAttendanceFromApi].  The store
    is the set of own properties of [attendance] and of the student
    records; it is all that the body reads and writes when neither key of
    the record names a property that a plain object inherits
    ([plainRecord] below). *)
Definition ingestRecord (att : ClassAttendance) (rec : RawRecord) : ClassAttendance :=
  let dateStrRaw := jsOr (r_date rec) "" in
  let dateStr := toIsoDate dateStrRaw in
  if isEmptyString dateStr then att
  else
    let studentRecord := jsOr (att !! r_studentId rec) ∅ in
    let currentArr := jsOr (studentRecord !! dateStr) [] in
    let idx := slotOf (r_lessonIndex rec) in
    let filled := <[idx := r_status rec]> (padStatuses currentArr idx) in
    <[r_studentId rec := <[dateStr := filled]> studentRecord]> att.

Definition transformAttendanceFromApi (rawRecords : list RawRecord) : ClassAttendance :=
  foldl ingestRecord ∅ rawRecords.

(** The names of the properties that a plain object inherits from
    [Object.prototype] (ECMAScript, with its Annex B).  Under one of these
    names a lookup in [attendance] or in a student record finds the
    inherited property and not an entry of the store. *)
Definition objectPrototypeKeys : list string :=
  ["constructor"; "hasOwnProperty"; "isPrototypeOf"; "propertyIsEnumerable";
   "toLocaleString"; "toString"; "valueOf"; "__proto__";
   "__defineGetter__"; "__defineSetter__"; "__lookupGetter__"; "__lookupSetter__"].

Definition inheritedKey (key : string) : bool :=
  bool_decide (key ∈ objectPrototypeKeys).

(** A lesson index that is a string, is missing, or is an integer below
    1e21 in absolute value. *)
Definition decimalIndex (v : JsIndex) : bool :=
  match v with
  | IdxNumber n => (Z.abs n <? 10 ^ 21)%Z
  | IdxString _ => true
  | IdxMissing => true
  end.

(** A record that the ingest skips for its date, or whose student id and
    normalised date name no inherited property and whose lesson index
    prints in decimal notation.  On a run of such records the ingest
    touches the own properties of the store only. *)
Definition plainRecord (rec : RawRecord) : bool :=
  let dateStr := toIsoDate (jsOr (r_date rec) "") in
  isEmptyString dateStr
  || (negb (inheritedKey (r_studentId rec))
      && negb (inheritedKey dateStr)
      && decimalIndex (r_lessonIndex rec)).

(** A record of the batch sent to the remote data source. *)
Record WireRecord : Type := mkWire {
  w_studentId : string;
  w_date : string;
  w_lessonIndex : nat;
  w_status : AttendanceStatus;
  w_subject : string;
  w_notes : string
}.

(** The mapping of [api.saveAttendanceBatch]. *)
Definition toWire (c : PendingChange) : WireRecord :=
  mkWire (studentId c) (toBrDate (date c)) (lessonIndex c + 1) (status c)
         (jsOrStr (Some (subject c)) "") (jsOrStr (Some (topic c)) "").

(** ** Flush of the queue *)

Inductive RemoteResult : Type :=
  | RemoteOk
  | RemoteError.

(** [api.saveAttendanceBatch]: one request that carries every record. *)
Definition saveAttendanceBatch (fetchGas : list WireRecord -> RemoteResult)
    (changes : list PendingChange) : RemoteResult :=
  fetchGas (map toWire changes).

(** What the user and the remote data source see of a flush. *)
Inductive FlushEvent : Type :=
  | AlertOffline
  | BatchRequest (records : list WireRecord)
  | AlertSyncError.

(** [handleSaveChanges]: the queue after the flush and what happened. *)
Definition handleSaveChanges (isOnline : bool)
    (fetchGas : list WireRecord -> RemoteResult)
    (pending : list PendingChange) : list PendingChange * list FlushEvent :=
  if decide (length pending = 0) then (pending, [])
  else if negb isOnline then (pending, [AlertOffline])
  else
    match saveAttendanceBatch fetchGas pending with
    | RemoteOk => ([], [BatchRequest (map toWire pending)])
    | RemoteError => (pending, [BatchRequest (map toWire pending); AlertSyncError])
    end.

(** ** Statistics aggregator *)

(** Modelled from the spec: [BimesterConfig] of [types.ts],
    [{id, name, start, end}]. *)
Record BimesterConfig : Type := mkBimester {
  b_id : nat;
  b_name : string;
  b_start : string;
  b_end : string
}.

Record Counts : Type := mkCounts {
  present : nat;
  excused : nat;
  absent : nat;
  total : nat
}.

Definition zeroCounts : Counts := mkCounts 0 0 0 0.

(** The body of [statuses.forEach] in [ReportsDashboard]: four independent
    tests. *)
Definition reports_countStep (c : Counts) (s : AttendanceStatus) : Counts :=
  let c1 := if decide (s = PRESENT)
            then mkCounts (present c + 1) (excused c) (absent c) (total c) else c in
  let c2 := if decide (s = EXCUSED)
            then mkCounts (present c1) (excused c1 + 1) (absent c1) (total c1) else c1 in
  let c3 := if decide (s = ABSENT)
            then mkCounts (present c2) (excused c2) (absent c2 + 1) (total c2) else c2 in
  if decide (s ≠ UNDEFINED)
  then mkCounts (present c3) (excused c3) (absent c3) (total c3 + 1) else c3.

(** The body of [statuses.forEach] in [StudentDetailModal.bimesterStats]:
    an if / else-if chain, then the test for the total. *)
Definition detail_countStep (c : Counts) (s : AttendanceStatus) : Counts :=
  let c1 :=
    if decide (s = PRESENT)
    then mkCounts (present c + 1) (excused c) (absent c) (total c)
    else if decide (s = ABSENT)
    then mkCounts (present c) (excused c) (absent c + 1) (total c)
    else if decide (s = EXCUSED)
    then mkCounts (present c) (excused c + 1) (absent c) (total c)
    else c in
  if decide (s ≠ UNDEFINED)
  then mkCounts (present c1) (excused c1) (absent c1) (total c1 + 1) else c1.

(** A counter as a JavaScript number (exact below 2^53). *)
Definition toNumber (n : nat) : float :=
  PrimFloat.of_uint63 (Uint63.of_Z (Z.of_nat n)).

(** [total > 0 ? ((present + excused) / total) * 100 : 0] *)
Definition percentageOf (c : Counts) : float :=
  if decide (0 < total c)
  then PrimFloat.mul
         (PrimFloat.div (toNumber (present c + excused c)) (toNumber (total c)))
         100%float
  else 0%float.

Inductive Level : Type :=
  | EXCELLENT
  | REGULAR
  | CRITICAL.

#[global] Instance Level_eq_dec : EqDecision Level.
Proof. solve_decision. Defined.

(** [level] of [ReportsDashboard]: [>= 90], else [>= 75], else critical. *)
Definition levelOf (percentage : float) : Level :=
  if PrimFloat.leb 90%float percentage then EXCELLENT
  else if PrimFloat.leb 75%float percentage then REGULAR
  else CRITICAL.

(** A JavaScript [Date]: its time value, or [None] for an invalid date.
    Every comparison with an invalid date is false. *)
Definition dateLt (a b : option Z) : bool :=
  match a, b with Some x, Some y => (x <? y)%Z | _, _ => false end.

Definition dateLe (a b : option Z) : bool :=
  match a, b with Some x, Some y => (x <=? y)%Z | _, _ => false end.

(** The counts of a list of statuses, in the words of the specification:
    how many are present, excused and absent, and how many are not
    undefined. *)
Definition countsOfStatuses (l : list AttendanceStatus) : Counts :=
  mkCounts (length (List.filter (fun s => bool_decide (s = PRESENT)) l))
           (length (List.filter (fun s => bool_decide (s = EXCUSED)) l))
           (length (List.filter (fun s => bool_decide (s = ABSENT)) l))
           (length (List.filter (fun s => bool_decide (s ≠ UNDEFINED)) l)).

(** The statuses of the dates of a record that a period keeps. *)
Definition statusesWhere (keep : string -> bool) (record : AttendanceRecord)
    : list AttendanceStatus :=
  flat_map snd (List.filter (fun e => keep (fst e)) (map_to_list record)).

Section Statistics.

(** [new Date(s)]: the parser of the host, which depends on its time
    zone. *)
Variable newDate : string -> option Z.

(** [new Date(dateStr + 'T12:00:00')] *)
Definition noonOf (dateStr : string) : option Z :=
  newDate (dateStr ++ "T12:00:00").

(** [ReportsDashboard]: [startDate] and [endDate], both [null] for the
    annual view and for a bimester that is not configured. *)
Definition reports_range (bimesters : list BimesterConfig)
    (selectedBimester : option nat) : option (option Z * option Z) :=
  match selectedBimester with
  | None => None
  | Some wanted =>
      match List.find (fun b => bool_decide (b_id b = wanted)) bimesters with
      | Some bim => Some (newDate (b_start bim), newDate (b_end bim))
      | None => None
      end
  end.

(** The dates [ReportsDashboard] keeps: a date is left out when a range
    is set and [date < startDate || date > endDate]. *)
Definition reports_keeps (range : option (option Z * option Z))
    (dateStr : string) : bool :=
  match range with
  | Some (startDate, endDate) =>
      negb (dateLt (noonOf dateStr) startDate || dateLt endDate (noonOf dateStr))
  | None => true
  end.

(** The counters of one student in [ReportsDashboard.processedData]. *)
Definition reports_counts (range : option (option Z * option Z))
    (record : AttendanceRecord) : Counts :=
  foldl (fun acc entry =>
           if reports_keeps range (fst entry)
           then foldl reports_countStep acc (snd entry)
           else acc)
        zeroCounts (map_to_list record).

(** One element of [studentStats]: [None] when a filter drops the
    student. *)
Definition reports_studentStats (att : ClassAttendance)
    (bimesters : list BimesterConfig)
    (selectedClass : option string) (selectedStatus : option EnrollmentStatus)
    (selectedLevel : option Level) (selectedBimester : option nat)
    (student : Student) : option (Counts * float * Level) :=
  if decide (is_Some selectedClass ∧ selectedClass ≠ Some (st_classId student))
  then None
  else if decide (is_Some selectedStatus ∧ selectedStatus ≠ Some (st_status student))
  then None
  else
    let record := jsOr (att !! st_id student) ∅ in
    let c := reports_counts (reports_range bimesters selectedBimester) record in
    let percentage := percentageOf c in
    let level := levelOf percentage in
    if decide (is_Some selectedLevel ∧ selectedLevel ≠ Some level) then None
    else Some (c, percentage, level).

(** The dates [StudentDetailModal.bimesterStats] keeps:
    [date >= start && date <= end]. *)
Definition detail_keeps (bimester : BimesterConfig) (dateStr : string) : bool :=
  dateLe (newDate (b_start bimester)) (noonOf dateStr)
  && dateLe (noonOf dateStr) (newDate (b_end bimester)).

Definition detail_counts (bimester : BimesterConfig)
    (attendanceRecord : AttendanceRecord) : Counts :=
  foldl (fun acc entry =>
           if detail_keeps bimester (fst entry)
           then foldl detail_countStep acc (snd entry)
           else acc)
        zeroCounts (map_to_list attendanceRecord).

(** [StudentDetailModal.bimesterStats]: per bimester, the counters and
    the percentage. *)
Definition bimesterStats (bimesters : list BimesterConfig)
    (attendanceRecord : AttendanceRecord) : list (BimesterConfig * Counts * float) :=
  map (fun bimester =>
         let c := detail_counts bimester attendanceRecord in
         (bimester, c, percentageOf c))
      bimesters.

End Statistics.

(** ** Roster handlers *)

Inductive ViewMode : Type :=
  | CLASS
  | DASHBOARD
  | STUDENTS
  | REPORTS
  | DIARY.

(** The part of the application state that the delete handlers and the
    reload write. *)
Record AppState : Type := mkApp {
  classes : list ClassGroup;
  allStudents : list Student;
  app_attendance : ClassAttendance;
  selectedClassId : string;
  viewMode : ViewMode;
  classToDelete : option ClassGroup;
  isSettingsOpen : bool
}.

(** The payload of [api.getData] (or of the local cache), reduced to the
    fields that land in [AppState]. *)
Record ApiData : Type := mkData {
  d_classes : option (list ClassGroup);
  d_students : option (list Student);
  d_attendance : option (list RawRecord)
}.

(** How [loadData] ends: with a payload, from the remote source or from
    the cache, or with nothing (no cache, or a cache that does not
    parse). *)
Inductive LoadOutcome : Type :=
  | Loaded (data : ApiData)
  | NoCache
  | CacheCorrupted.

(** [handleDeleteStudent], the synchronous part: the local removal. *)
Definition removeStudentLocally (id : string) (st : AppState) : AppState :=
  mkApp (classes st)
        (List.filter (fun s => negb (bool_decide (st_id s = id))) (allStudents st))
        (delete id (app_attendance st))
        (selectedClassId st) (viewMode st) (classToDelete st) (isSettingsOpen st).

(** [handleDeleteStudent]: the state once the local removal is applied,
    and the state once the handler has finished.  [remote] is the outcome
    of [api.deleteStudent], which is called only when online. *)
Definition handleDeleteStudent (isOnline : bool) (remote : RemoteResult)
    (id : string) (st : AppState) : AppState * AppState :=
  let previousStudents := allStudents st in
  let previousAttendance := app_attendance st in
  let removed := removeStudentLocally id st in
  if isOnline then
    match remote with
    | RemoteOk => (removed, removed)
    | RemoteError =>
        (removed,
         mkApp (classes removed) previousStudents previousAttendance
               (selectedClassId removed) (viewMode removed)
               (classToDelete removed) (isSettingsOpen removed))
    end
  else (removed, removed).

Section Reload.

(** [a.name.localeCompare(b.name, undefined, {numeric: true, ...}) <= 0],
    the collation of the host. *)
Variable nameLe : string -> string -> bool.

Fixpoint insertClass (c : ClassGroup) (sorted : list ClassGroup) : list ClassGroup :=
  match sorted with
  | [] => [c]
  | d :: rest =>
      if nameLe (cl_name c) (cl_name d) then c :: sorted
      else d :: insertClass c rest
  end.

(** [sortClasses]: a stable sort of a copy of the list. *)
Definition sortClasses (l : list ClassGroup) : list ClassGroup :=
  foldr insertClass [] l.

(** [processApiData], on the fields of [AppState]. *)
Definition processApiData (data : ApiData) (st : AppState) : AppState :=
  mkApp (match d_classes data with
         | Some cs => sortClasses cs
         | None => classes st
         end)
        (jsOr (d_students data) (allStudents st))
        (match d_attendance data with
         | Some raw => transformAttendanceFromApi raw
         | None => app_attendance st
         end)
        (selectedClassId st) (viewMode st) (classToDelete st) (isSettingsOpen st).

(** The initial selection of [loadData]; [closedOver] is the
    [selectedClassId] of the render that created the handler. *)
Definition initialSelection (closedOver : string) (data : ApiData)
    (st : AppState) : AppState :=
  match d_classes data with
  | Some (c :: cs) =>
      if isEmptyString closedOver then
        match sortClasses (c :: cs) with
        | first :: _ =>
            mkApp (classes st) (allStudents st) (app_attendance st)
                  (cl_id first) (viewMode st) (classToDelete st)
                  (isSettingsOpen st)
        | [] => st
        end
      else st
  | _ => st
  end.

(** [loadData], with the URL of the script configured. *)
Definition loadData (closedOver : string) (outcome : LoadOutcome)
    (st : AppState) : AppState :=
  match outcome with
  | Loaded data => initialSelection closedOver data (processApiData data st)
  | NoCache =>
      mkApp (classes st) (allStudents st) (app_attendance st)
            (selectedClassId st) (viewMode st) (classToDelete st) true
  | CacheCorrupted => st
  end.

(** [executeDeleteClass], the synchronous part: the local removal of the
    class, of its students and of their attendance. *)
Definition removeClassLocally (id : string) (st : AppState) : AppState :=
  let studentsInClass :=
    List.filter (fun s => bool_decide (st_classId s = id)) (allStudents st) in
  let studentIdsToRemove := map st_id studentsInClass in
  let viewed := bool_decide (selectedClassId st = id) in
  mkApp (List.filter (fun c => negb (bool_decide (cl_id c = id))) (classes st))
        (List.filter (fun s => negb (bool_decide (st_classId s = id))) (allStudents st))
        (foldl (fun newAtt sid => delete sid newAtt) (app_attendance st)
               studentIdsToRemove)
        (if viewed then "" else selectedClassId st)
        (if viewed then DASHBOARD else viewMode st)
        None (isSettingsOpen st).

(** [executeDeleteClass]: the state once the local removal is applied,
    and the state once the handler has finished.  [remote] is the
    outcome of [api.deleteClass] and [reload] the outcome of the
    [loadData] that a failure triggers. *)
Definition executeDeleteClass (isOnline : bool) (remote : RemoteResult)
    (reload : LoadOutcome) (st : AppState) : AppState * AppState :=
  match classToDelete st with
  | None => (st, st)
  | Some cls =>
      let removed := removeClassLocally (cl_id cls) st in
      if isOnline then
        match remote with
        | RemoteOk => (removed, removed)
        | RemoteError => (removed, loadData (selectedClassId st) reload removed)
        end
      else (removed, removed)
  end.

End Reload.

(** ** Notions used in the statements *)

(** [DD-MM-YYYY], written with dashes. *)
Definition brDashPattern : list (ascii -> bool) :=
  [isDigit; isDigit; isDash; isDigit; isDigit; isDash;
   isDigit; isDigit; isDigit; isDigit].

(** A slot that exists in the store: its date has an array that reaches
    it. *)
Definition slotExists (att : ClassAttendance) (sid dateStr : string) (i : nat) : Prop :=
  ∃ arr, att !! sid ≫= (fun studentRecord => studentRecord !! dateStr) = Some arr
         ∧ i < length arr.

(** The sum of two records of counters. *)
Definition addCounts (a b : Counts) : Counts :=
  mkCounts (present a + present b) (excused a + excused b)
           (absent a + absent b) (total a + total b).

(** What the loop maintains, relative to the store [att] it closes over:
    a cell that differs from [att] is the cell of the bulk update, was
    undefined, and belongs to an active student of the view. *)
Definition bulkCellsInv (att : ClassAttendance) (view : list Student)
    (dateStr : string) (idx : nat) (st : Store) : Prop :=
  forall sid d i,
    cellStatus (attendance st) sid d i ≠ cellStatus att sid d i ->
    d = dateStr ∧ i = idx ∧ cellStatus att sid d i = UNDEFINED
    ∧ ∃ s, s ∈ view ∧ st_id s = sid ∧ st_status s = ACTIVE.

(** A student id that no active student of the view carries keeps its
    attendance record and its pending changes. *)
Definition bulkFrameInv (st0 : Store) (view : list Student) (st : Store) : Prop :=
  forall sid,
    (forall s, s ∈ view -> st_id s = sid -> st_status s ≠ ACTIVE) ->
    attendance st !! sid = attendance st0 !! sid
    ∧ List.filter (fun c => bool_decide (studentId c = sid)) (pendingChanges st)
      = List.filter (fun c => bool_decide (studentId c = sid)) (pendingChanges st0).

(** * Further components *)

(** ** The grid's view of the queue *)

(** [isPending] of [AttendanceGrid]: some pending change addresses the
    cell. *)
Definition isPending (pending : list PendingChange) (sid dateStr : string)
    (idx : nat) : bool :=
  existsb (sameCell sid dateStr idx) pending.

(** Every pending change carries the status that the store shows for its
    cell. *)
Definition queueAgrees (st : Store) : Prop :=
  forall c, In c (pendingChanges st) ->
    status c = cellStatus (attendance st) (studentId c) (date c) (lessonIndex c).

(** ** Day configuration *)

(** [handleUpdateLessonConfig]: the three maps after the update, each with
    the entry of the composite key of the selected class and the date
    replaced.  (When online, the three maps are then sent to the remote
    source.) *)
Definition handleUpdateLessonConfig (cfg : LessonConfig) (selectedClassId dateStr : string)
    (activeIndices : list nat) (subjects topics : gmap nat string) : LessonConfig :=
  let key := configKey selectedClassId dateStr in
  mkConfig (<[key := activeIndices]> (dailyLessonConfig cfg))
           (<[key := subjects]> (lessonSubjects cfg))
           (<[key := topics]> (lessonTopics cfg)).

(** A value of the [dailyLessonCounts] row of the remote configuration: a
    number (the old format, a count of lessons), an array of slot indices,
    or anything else. *)
Inductive RawLessonCount : Type :=
  | CountNumber (n : Z)
  | CountArray (l : list nat)
  | CountOther.

(** The body of the loop of [processApiData] over the keys of
    [rawConfig]: [Array.from({ length: val }, (_, i) => i)] for a number,
    the array itself for an array, nothing otherwise. *)
Definition normalizeStep (normalizedConfig : gmap string (list nat))
    (entry : string * RawLessonCount) : gmap string (list nat) :=
  match snd entry with
  | CountNumber n => <[fst entry := seq 0 (Z.to_nat n)]> normalizedConfig
  | CountArray l => <[fst entry := l]> normalizedConfig
  | CountOther => normalizedConfig
  end.

(** [normalizedConfig] of [processApiData]. *)
Definition normalizeLessonCounts (rawConfig : gmap string RawLessonCount)
    : gmap string (list nat) :=
  foldl normalizeStep ∅ (map_to_list rawConfig).

(** What one raw value becomes. *)
Definition normalizedCount (val : RawLessonCount) : option (list nat) :=
  match val with
  | CountNumber n => Some (seq 0 (Z.to_nat n))
  | CountArray l => Some l
  | CountOther => None
  end.

(** ** Wire dates and the records of the remote source *)

(** A date with every slash written as a dash. *)
Fixpoint withDashes (s : string) : string :=
  match s with
  | EmptyString => ""
  | String c rest =>
      String (if bool_decide (c = "/"%char) then "-"%char else c) (withDashes rest)
  end.

(** The cell on which [transformAttendanceFromApi] writes a raw record:
    none when the record is skipped for its date. *)
Definition landingCell (rec : RawRecord) : option (string * string * nat) :=
  let dateStr := toIsoDate (jsOr (r_date rec) "") in
  if isEmptyString dateStr then None
  else Some (r_studentId rec, dateStr, slotOf (r_lessonIndex rec)).

(** The stored array of a student and a date, if any. *)
Definition storedStatuses (att : ClassAttendance) (sid dateStr : string)
    : option (list AttendanceStatus) :=
  att !! sid ≫= fun studentRecord => studentRecord !! dateStr.

(** The raw record that the remote source gives back for a record it was
    sent, by the data contract: the same student, date, lesson index and
    status. *)
Definition storedAsRaw (w : WireRecord) : RawRecord :=
  mkRaw (w_studentId w) (Some (w_date w)) (IdxNumber (Z.of_nat (w_lessonIndex w)))
        (w_status w).

(** The arrays of a store are never empty nor longer than twenty slots,
    and its dates are never the empty string. *)
Definition ingestShape (att : ClassAttendance) : Prop :=
  forall sid dateStr arr,
    storedStatuses att sid dateStr = Some arr ->
    1 <= length arr <= 20 ∧ isEmptyString dateStr = false.

(** ** The month summary of the grid *)

(** The body of the inner loop of [AttendanceGrid.calculateStats]; the
    status is [statuses[idx]], [None] when the array does not reach the
    slot. *)
Definition grid_countStep (c : Counts) (slotStatus : option AttendanceStatus) : Counts :=
  let c1 :=
    match slotStatus with
    | Some PRESENT => mkCounts (present c + 1) (excused c) (absent c) (total c)
    | Some ABSENT => mkCounts (present c) (excused c) (absent c + 1) (total c)
    | Some EXCUSED => mkCounts (present c) (excused c + 1) (absent c) (total c)
    | _ => c
    end in
  match slotStatus with
  | Some s =>
      if decide (s ≠ UNDEFINED)
      then mkCounts (present c1) (excused c1) (absent c1) (total c1 + 1)
      else c1
  | None => c1
  end.

(** The counters of [calculateStats] over the dates of the displayed
    month; [total] is [lessonsCounted]. *)
Definition grid_counts (cfg : LessonConfig) (classId : string) (dates : list string)
    (att : ClassAttendance) (sid : string) : Counts :=
  let record := jsOr (att !! sid) ∅ in
  foldl (fun acc dateStr =>
           let statuses := jsOr (record !! dateStr) [] in
           let activeIndices := grid_activeIndices cfg classId dateStr in
           foldl (fun acc' idx => grid_countStep acc' (statuses !! idx))
                 acc activeIndices)
        zeroCounts dates.

(** [calculateStats]: the counters and the percentage, whose denominator
    is 1 when no lesson is counted. *)
Definition calculateStats (cfg : LessonConfig) (classId : string) (dates : list string)
    (att : ClassAttendance) (sid : string) : Counts * float :=
  let c := grid_counts cfg classId dates att sid in
  let totalConsidered := if decide (total c = 0) then 1 else total c in
  (c, PrimFloat.mul
        (PrimFloat.div (toNumber (present c + excused c)) (toNumber totalConsidered))
        100%float).

(** The cells of a student that the grid displays for the dates of the
    month: the active lessons of every date. *)
Definition displayedCells (cfg : LessonConfig) (classId : string) (dates : list string)
    (att : ClassAttendance) (sid : string) : list AttendanceStatus :=
  flat_map (fun dateStr =>
              map (fun idx => cellStatus att sid dateStr idx)
                  (grid_activeIndices cfg classId dateStr))
           dates.

(** ** The dates of the displayed month *)

From Stdlib Require Import DecimalString.
From Stdlib Require DecimalPos DecimalZ.

(** [String(n)] for an integer. *)
Definition numberToString (n : Z) : string :=
  NilZero.string_of_int (Z.to_int n).

(** [s.padStart(2, '0')] *)
Definition padStart2 (s : string) : string :=
  match String.length s with
  | 0 => "00" ++ s
  | 1 => "0" ++ s
  | _ => s
  end.

Definition isLeapYear (year : Z) : bool :=
  ((year mod 4 =? 0) && (negb (year mod 100 =? 0) || (year mod 400 =? 0)))%Z.

(** [new Date(year, month + 1, 0).getDate()]: the number of days of the
    month, [month] counted from 0, in the Gregorian calendar (the host
    reads a year from 0 to 99 as 1900 and later, which is not modelled). *)
Definition daysInMonth (year : Z) (month : nat) : nat :=
  match month with
  | 1 => if isLeapYear year then 29 else 28
  | 3 | 5 | 8 | 10 => 30
  | _ => 31
  end.

(** One element of [dateList]:
    [`${year}-${String(month + 1).padStart(2, '0')}-${String(i).padStart(2, '0')}`] *)
Definition dateOfDay (year : Z) (month : nat) (i : nat) : string :=
  numberToString year ++ "-"
  ++ padStart2 (numberToString (Z.of_nat (month + 1))) ++ "-"
  ++ padStart2 (numberToString (Z.of_nat i)).

(** [dateList] of [App]: the days 1 to [daysInMonth]. *)
Definition dateList (year : Z) (month : nat) : list string :=
  map (dateOfDay year month) (seq 1 (daysInMonth year month)).

(** The button of the previous month. *)
Definition previousMonth (view : Z * nat) : Z * nat :=
  let (year, month) := view in
  if (month =? 0)%nat then ((year - 1)%Z, 11) else (year, month - 1).

(** The button of the next month. *)
Definition followingMonth (view : Z * nat) : Z * nat :=
  let (year, month) := view in
  if (month =? 11)%nat then ((year + 1)%Z, 0) else (year, month + 1).

(** ** The filters of the lesson diary *)

(** [c.toLowerCase()] on an ASCII character: the letters A to Z.  The
    host also folds the letters outside ASCII, which the strings of this
    model do not hold. *)
Definition lowerChar (c : ascii) : ascii :=
  let n := nat_of_ascii c in
  if (65 <=? n)%nat && (n <=? 90)%nat then ascii_of_nat (n + 32) else c.

(** [s.toLowerCase()] *)
Fixpoint toLowerCase (s : string) : string :=
  match s with
  | EmptyString => ""
  | String c rest => String (lowerChar c) (toLowerCase rest)
  end.

(** [s.includes(term)] *)
Fixpoint includes (s term : string) : bool :=
  String.prefix term s
  || match s with
     | EmptyString => false
     | String _ rest => includes rest term
     end.

(** A date for which the configuration holds a non-empty list of lessons
    under the composite key of the class. *)
Definition hasCompositeLessons (cfg : LessonConfig) (classId dateStr : string) : bool :=
  match dailyLessonConfig cfg !! configKey classId dateStr with
  | Some (_ :: _) => true
  | _ => false
  end.

(** The predicate of the inner [filter] of [filteredDiaryData]. *)
Definition diaryKeeps (selectedSubject searchTerm : string) (l : DiaryLesson) : bool :=
  if negb (bool_decide (selectedSubject = "ALL"))
     && negb (bool_decide (dl_subject l = selectedSubject))
  then false
  else if negb (isEmptyString searchTerm) then
    let term := toLowerCase searchTerm in
    includes (toLowerCase (dl_subject l)) term
    || includes (toLowerCase (dl_topic l)) term
  else true.

(** [LessonDiary.filteredDiaryData] *)
Definition filteredDiaryData (rawData : list DiaryDay)
    (selectedSubject searchTerm : string) : list DiaryDay :=
  List.filter
    (fun dayRecord => (0 <? length (dd_lessons dayRecord))%nat)
    (map (fun dayRecord =>
            mkDay (dd_date dayRecord)
                  (List.filter (diaryKeeps selectedSubject searchTerm)
                     (dd_lessons dayRecord)))
         rawData).

(** ** Subject statistics of the reports *)









(** ** The roster and the class view *)

(** [handleUpdateStudent]: the functional update of [allStudents]. *)
Definition handleUpdateStudent (updatedStudent : Student) (prev : list Student)
    : list Student :=
  map (fun s => if decide (st_id s = st_id updatedStudent) then updatedStudent else s)
      prev.

(** [handleUpdateStudentStatus]: the student is looked up in the rendered
    list [rendered]; the update acts on the current list [prev]. *)
Definition handleUpdateStudentStatus (rendered : list Student) (studentId : string)
    (newStatus : EnrollmentStatus) (prev : list Student) : list Student :=
  match List.find (fun s => bool_decide (st_id s = studentId)) rendered with
  | None => prev
  | Some student =>
      handleUpdateStudent
        (mkStudent (st_id student) (st_name student) newStatus (st_classId student))
        prev
  end.

(** [classStudents] of [App]: the students of the current class, filtered
    by status ([None] is the filter [ALL]), sorted by name.  [sortByName]
    is the sort of the host with the comparison [localeCompare]. *)
Definition classStudents (sortByName : list Student -> list Student)
    (classes : list ClassGroup) (selectedClassId : string)
    (allStudents : list Student) (statusFilter : option EnrollmentStatus)
    : list Student :=
  match List.find (fun c => bool_decide (cl_id c = selectedClassId)) classes with
  | None => []
  | Some currentClass =>
      let filtered :=
        List.filter (fun s => bool_decide (st_classId s = cl_id currentClass))
                    allStudents in
      let filtered :=
        match statusFilter with
        | None => filtered
        | Some wanted =>
            List.filter (fun s => bool_decide (st_status s = wanted)) filtered
        end in
      sortByName filtered
  end.

(** ** The global dashboard *)

(** [filteredStudents] of [GlobalDashboard]; [None] is the filter [ALL]. *)
Definition dashboard_filteredStudents (classFilter : option string)
    (students : list Student) : list Student :=
  match classFilter with
  | None => students
  | Some wanted =>
      List.filter (fun s => bool_decide (st_classId s = wanted)) students
  end.

(** The body of [statuses.forEach] in [studentsAtRisk]: four independent
    tests. *)
Definition dashboard_countStep (c : Counts) (s : AttendanceStatus) : Counts :=
  let c1 := if decide (s = PRESENT)
            then mkCounts (present c + 1) (excused c) (absent c) (total c) else c in
  let c2 := if decide (s = EXCUSED)
            then mkCounts (present c1) (excused c1 + 1) (absent c1) (total c1) else c1 in
  let c3 := if decide (s = ABSENT)
            then mkCounts (present c2) (excused c2) (absent c2 + 1) (total c2) else c2 in
  if decide (s ≠ UNDEFINED)
  then mkCounts (present c3) (excused c3) (absent c3) (total c3 + 1) else c3.

(** The counters of one student over [Object.values(record)]: every date
    counts. *)
Definition dashboard_counts (record : AttendanceRecord) : Counts :=
  foldl (fun acc statuses => foldl dashboard_countStep acc statuses)
        zeroCounts (map snd (map_to_list record)).

(** [sTotal > 0 ? ((sPresent + sExcused) / sTotal) * 100 : 100] *)
Definition dashboard_percentage (c : Counts) : float :=
  if decide (0 < total c)
  then PrimFloat.mul
         (PrimFloat.div (toNumber (present c + excused c)) (toNumber (total c)))
         100%float
  else 100%float.

(** An element of [studentsAtRisk]: the student and its [stats]. *)
Record RiskEntry : Type := mkRisk {
  risk_student : Student;
  risk_percentage : float;
  risk_absent : nat;
  risk_total : nat
}.

Definition riskEntryOf (att : ClassAttendance) (student : Student) : RiskEntry :=
  let record := jsOr (att !! st_id student) ∅ in
  let c := dashboard_counts record in
  mkRisk student (dashboard_percentage c) (absent c) (total c).

(** [studentsAtRisk] of [GlobalDashboard]: map, filter, sort.
    [sortByPercentage] is the sort of the host with the comparison
    [a.stats.percentage - b.stats.percentage]. *)
Definition studentsAtRisk (sortByPercentage : list RiskEntry -> list RiskEntry)
    (att : ClassAttendance) (filteredStudents : list Student) : list RiskEntry :=
  sortByPercentage
    (List.filter
       (fun s => PrimFloat.ltb (risk_percentage s) 75%float
                 && bool_decide (0 < risk_total s)
                 && bool_decide (st_status (risk_student s) = ACTIVE))
       (map (riskEntryOf att) filteredStudents)).

(** ** The school configuration dialog *)

(** [Holiday] as [SchoolConfigModal] builds it: [{date, name}]. *)
Record Holiday : Type := mkHoliday {
  h_date : string;
  h_name : string
}.

(** [handleAddSubject]: the list passed to [onSaveSubjects], or [None] when
    the guard fails and nothing happens.  [sortStrings] is the default sort
    of the host. *)
Definition handleAddSubject (sortStrings : list string -> list string)
    (localSubjects : list string) (newSubject : string) : option (list string) :=
  if negb (isEmptyString (trim newSubject))
     && negb (bool_decide (trim newSubject ∈ localSubjects))
  then Some (sortStrings (localSubjects ++ [trim newSubject])%list)
  else None.

(** [handleRemoveSubject]: the list passed to [onSaveSubjects]. *)
Definition handleRemoveSubject (localSubjects : list string) (subj : string)
    : list string :=
  List.filter (fun s => negb (bool_decide (s = subj))) localSubjects.

(** [handleSaveHoliday]: the list passed to [onSaveHolidays], or [None]
    when the guard fails and nothing happens.  [sortByDate] is the sort of
    the host with the comparison [a.date.localeCompare(b.date)];
    [editingHolidayOriginalDate] is [None] for [null]. *)
Definition handleSaveHoliday (sortByDate : list Holiday -> list Holiday)
    (localHolidays : list Holiday) (holidayDate holidayName : string)
    (editingHolidayOriginalDate : option string) : option (list Holiday) :=
  if negb (isEmptyString holidayDate) && negb (isEmptyString (trim holidayName))
  then
    let updatedHolidays :=
      match editingHolidayOriginalDate with
      | Some original =>
          if isEmptyString original
          then List.filter (fun h => negb (bool_decide (h_date h = holidayDate)))
                           localHolidays
          else List.filter (fun h => negb (bool_decide (h_date h = original)))
                           localHolidays
      | None =>
          List.filter (fun h => negb (bool_decide (h_date h = holidayDate)))
                      localHolidays
      end in
    Some (sortByDate (updatedHolidays ++ [mkHoliday holidayDate (trim holidayName)])%list)
  else None.

(** [handleRemoveHoliday], once the user has confirmed. *)
Definition handleRemoveHoliday (localHolidays : list Holiday) (date : string)
    : list Holiday :=
  List.filter (fun h => negb (bool_decide (h_date h = date))) localHolidays.

(** The original date of the holiday in edit, when there is one. *)
Definition editedDate (editingHolidayOriginalDate : option string) : option string :=
  match editingHolidayOriginalDate with
  | Some original => if isEmptyString original then None else Some original
  | None => None
  end.

(** ** Adding students in a batch *)






(** ** The subject filter of the diary *)

(** [set.add(x)] on a [Set] kept in insertion order. *)
Definition setAdd (x : string) (s : list string) : list string :=
  if bool_decide (x ∈ s) then s else (s ++ [x])%list.

(** [Array.from(new Set(l))] *)
Definition setOf (l : list string) : list string :=
  foldl (fun acc x => setAdd x acc) [] l.

(** [subjectsInView] of [LessonDiary.availableSubjects]. *)
Definition subjectsInView (rawData : list DiaryDay) : list string :=
  foldl (fun acc day =>
           foldl (fun acc lesson =>
                    if negb (isEmptyString (dl_subject lesson))
                       && negb (bool_decide (dl_subject lesson = unspecified))
                    then setAdd (dl_subject lesson) acc
                    else acc)
                 acc (dd_lessons day))
        [] rawData.

(** [LessonDiary.availableSubjects]; [sortStrings] is the default sort of
    the host. *)
Definition availableSubjects (sortStrings : list string -> list string)
    (registeredSubjects : list string) (rawData : list DiaryDay) : list string :=
  sortStrings (setOf (registeredSubjects ++ subjectsInView rawData)%list).

(** ** Annual statistics of the student dialog *)

(** [annualStats] of [StudentDetailModal]: the counters of the bimesters
    added up. *)
Definition annualStats (newDate : string -> option Z)
    (bimesters : list BimesterConfig) (attendanceRecord : AttendanceRecord) : Counts :=
  foldl (fun acc curr =>
           let c := snd (fst curr) in
           mkCounts (present acc + present c) (excused acc + excused c)
                    (absent acc + absent c) (total acc + total c))
        zeroCounts (bimesterStats newDate bimesters attendanceRecord).

(** [annualPercentage] *)
Definition annualPercentage (newDate : string -> option Z)
    (bimesters : list BimesterConfig) (attendanceRecord : AttendanceRecord) : float :=
  percentageOf (annualStats newDate bimesters attendanceRecord).


(** ** Student rows of the remote source *)

(** A student row as the remote source returns it and as [saveStudent]
    sends it.  The cells are strings; [None] is a cell that is missing. *)
Record RawStudent : Type := mkRawStudent {
  rs_id : string;
  rs_name : option string;
  rs_classId : option string;
  rs_status : option string;
  rs_situation : option string;
  rs_registration : option string
}.

(** [c ? String(c).trim() : ''] *)
Definition trimmedCell (c : option string) : string :=
  match c with
  | Some v => if isEmptyString v then "" else trim v
  | None => ""
  end.

(** [a || b] on two cells. *)
Definition cellOr (a b : option string) : option string :=
  match a with
  | Some v => if isEmptyString v then b else a
  | None => b
  end.

Section StudentRows.

(** The string values of the members of [EnrollmentStatus] in [types.ts]. *)
Variable statusValue : EnrollmentStatus -> string.

(** [Object.values(EnrollmentStatus).includes(str)], with the member that
    has the value. *)
Definition statusOfValue (str : string) : option EnrollmentStatus :=
  List.find (fun st => String.eqb (statusValue st) str)
            [ACTIVE; DROPOUT; TRANSFERRED; OTHER].

(** [normalizeStatus] of [api.ts]. *)
Definition normalizeStatus (raw : option string) : EnrollmentStatus :=
  let str := trim (jsOrStr raw "") in
  if isEmptyString str then ACTIVE
  else
    match statusOfValue str with
    | Some st => st
    | None => OTHER
    end.

(** The sanitization of one student row in [api.getData]. *)
Definition healStudent (s : RawStudent) : Student :=
  let safeClassId := trimmedCell (rs_classId s) in
  let safeStatus := normalizeStatus (cellOr (rs_status s) (rs_situation s)) in
  let registrationVal := trimmedCell (rs_registration s) in
  let safeClassId :=
    if String.prefix "c-" registrationVal then registrationVal else safeClassId in
  let healed :=
    match statusOfValue safeClassId with
    | Some st =>
        (st, if String.prefix "c-" registrationVal then registrationVal else "")
    | None => (safeStatus, safeClassId)
    end in
  mkStudent (rs_id s) (trimmedCell (rs_name s)) (fst healed) (snd healed).

(** The row that [api.saveStudent] sends, without its time stamp. *)
Definition saveStudentRow (student : Student) : RawStudent :=
  let finalStatus :=
    if isEmptyString (statusValue (st_status student)) then statusValue ACTIVE
    else statusValue (st_status student) in
  let finalClassId := st_classId student in
  mkRawStudent (st_id student) (Some (st_name student)) (Some finalClassId)
               (Some finalStatus) (Some finalStatus) (Some finalClassId).

End StudentRows.

(** ** The Date parser of ECMAScript *)

(** Days from 1970-01-01 to a day of the proleptic Gregorian calendar;
    [m] is 1 for January. *)
Definition daysFromCivil (y m d : Z) : Z :=
  let y' := if (m <=? 2)%Z then (y - 1)%Z else y in
  let era := (y' / 400)%Z in
  let yoe := (y' - era * 400)%Z in
  let mp := ((m + 9) mod 12)%Z in
  let doy := ((153 * mp + 2) / 5 + d - 1)%Z in
  let doe := (yoe * 365 + yoe / 4 - yoe / 100 + doy)%Z in
  (era * 146097 + doe - 719468)%Z.

(** The decimal field of [len] digits at position [start]. *)
Definition fieldOf (s : string) (start len : nat) : Z :=
  jsOr (parseIntStr (String.substring start len s)) 0%Z.

(** [YYYY-MM-DDTHH:mm:ss] *)
Definition dateTimePattern : list (ascii -> bool) :=
  (isoDatePattern
   ++ [fun c => bool_decide (c = "T"%char); isDigit; isDigit;
       fun c => bool_decide (c = ":"%char); isDigit; isDigit;
       fun c => bool_decide (c = ":"%char); isDigit; isDigit])%list.

(** [new Date(s).getTime()] for the two formats that the statistics build,
    as ECMAScript reads them: a date alone is a time of UTC, a date with a
    time and no offset is a local time.  [offset] is the local time minus
    UTC, in minutes; [None] is an invalid date, which is also the value of
    a field out of range. *)
Definition ecmaDate (offset : Z) (s : string) : option Z :=
  let y := fieldOf s 0 4 in
  let m := fieldOf s 5 2 in
  let d := fieldOf s 8 2 in
  let validDay :=
    ((1 <=? m) && (m <=? 12) && (1 <=? d)
     && (d <=? Z.of_nat (daysInMonth y (Z.to_nat (m - 1)))))%Z in
  let day := (daysFromCivil y m d * 86400000)%Z in
  if matchesClasses isoDatePattern s then
    if validDay then Some day else None
  else if matchesClasses dateTimePattern s then
    let hh := fieldOf s 11 2 in
    let mm := fieldOf s 14 2 in
    let ss := fieldOf s 17 2 in
    if validDay && (hh <=? 23)%Z && (mm <=? 59)%Z && (ss <=? 59)%Z
    then Some (day + hh * 3600000 + mm * 60000 + ss * 1000 - offset * 60000)%Z
    else None
  else None.

(** * Properties *)

Open Scope list_scope.

(** ** Status arrays *)

Lemma padStatuses_length (arr : list AttendanceStatus) (idx : nat) :
  idx < length (padStatuses arr idx).
Proof. unfold padStatuses. rewrite length_app, length_replicate. lia. Qed.

Lemma padStatuses_default (arr : list AttendanceStatus) (idx i : nat) :
  jsOr (padStatuses arr idx !! i) UNDEFINED = jsOr (arr !! i) UNDEFINED.
Proof.
  unfold padStatuses.
  destruct (decide (i < length arr)) as [Hlt | Hge].
  - by rewrite lookup_app_l.
  - rewrite lookup_app_r by lia.
    rewrite (lookup_ge_None_2 arr i) by lia. simpl.
    destruct (replicate _ _ !! _) as [s |] eqn:E; [| done].
    apply lookup_replicate in E as [-> _]. done.
Qed.

Lemma padStatuses_at (arr : list AttendanceStatus) (idx : nat) :
  padStatuses arr idx !! idx = Some (jsOr (arr !! idx) UNDEFINED).
Proof.
  destruct (lookup_lt_is_Some_2 _ _ (padStatuses_length arr idx)) as [s Hs].
  rewrite Hs. f_equal.
  rewrite <- (padStatuses_default arr idx idx). by rewrite Hs.
Qed.

Lemma replicate_default (n i : nat) :
  jsOr (replicate n UNDEFINED !! i) UNDEFINED = UNDEFINED.
Proof.
  destruct (replicate _ _ !! _) as [s |] eqn:E; [| done].
  apply lookup_replicate in E as [-> _]. done.
Qed.

(** The working copy of the handler shows, at every slot, what the grid
    shows for the stored array. *)
Lemma currentDailyStatuses_default cfg cls (att : ClassAttendance) sid dateStr idx i :
  jsOr (currentDailyStatuses cfg cls att sid dateStr idx !! i) UNDEFINED
  = cellStatus att sid dateStr i.
Proof.
  unfold currentDailyStatuses, cellStatus. cbv zeta.
  rewrite padStatuses_default.
  destruct (jsOr (att !! sid) ∅ !! dateStr) as [stored |]; simpl; [done |].
  apply replicate_default.
Qed.

Lemma currentDailyStatuses_at cfg cls (att : ClassAttendance) sid dateStr idx :
  currentDailyStatuses cfg cls att sid dateStr idx !! idx
  = Some (cellStatus att sid dateStr idx).
Proof.
  rewrite <- (currentDailyStatuses_default cfg cls att sid dateStr idx idx).
  unfold currentDailyStatuses. cbv zeta. by rewrite padStatuses_at.
Qed.

Lemma currentDailyStatuses_length cfg cls (att : ClassAttendance) sid dateStr idx :
  idx < length (currentDailyStatuses cfg cls att sid dateStr idx).
Proof. apply padStatuses_length. Qed.

Lemma cellStatus_write_same (prev : ClassAttendance) sid dateStr updated i :
  cellStatus (writeStatuses prev sid dateStr updated) sid dateStr i
  = jsOr (updated !! i) UNDEFINED.
Proof.
  unfold cellStatus, writeStatuses.
  rewrite lookup_insert_eq. simpl. by rewrite lookup_insert_eq.
Qed.

Lemma cellStatus_write_other (prev : ClassAttendance) sid dateStr updated sid' dateStr' i :
  (sid', dateStr') ≠ (sid, dateStr) ->
  cellStatus (writeStatuses prev sid dateStr updated) sid' dateStr' i
  = cellStatus prev sid' dateStr' i.
Proof.
  intros Hne. unfold cellStatus, writeStatuses.
  destruct (decide (sid = sid')) as [<- | Hs].
  - rewrite lookup_insert_eq. simpl.
    rewrite lookup_insert_ne by congruence. done.
  - by rewrite lookup_insert_ne.
Qed.

Lemma nextStatusOf_unforced cfg cls (att : ClassAttendance) sid dateStr idx :
  nextStatusOf None (currentDailyStatuses cfg cls att sid dateStr idx) idx
  = cycleStatus (cellStatus att sid dateStr idx).
Proof. simpl. by rewrite currentDailyStatuses_default. Qed.

Lemma cycleStatus_moves (s : AttendanceStatus) : cycleStatus s ≠ s.
Proof. by destruct s. Qed.

Lemma cycleStatus_four (s : AttendanceStatus) :
  cycleStatus (cycleStatus (cycleStatus (cycleStatus s))) = s.
Proof. by destruct s. Qed.

(** The handler either leaves the state alone or writes the new status
    into the working copy and queues it. *)
Lemma handleToggleStatus_cases cfg cls (att : ClassAttendance) st sid dateStr idx forced :
  let current := currentDailyStatuses cfg cls att sid dateStr idx in
  let nextStatus := nextStatusOf forced current idx in
  (nextStatus = cellStatus att sid dateStr idx
   ∧ handleToggleStatus cfg cls att st sid dateStr idx forced = st)
  ∨ (nextStatus ≠ cellStatus att sid dateStr idx
     ∧ handleToggleStatus cfg cls att st sid dateStr idx forced
       = mkStore
           (writeStatuses (attendance st) sid dateStr (<[idx := nextStatus]> current))
           (enqueue (pendingChanges st)
              (mkChange sid dateStr idx nextStatus
                 (jsOrStr (toggle_subjectsMap cfg cls dateStr !! idx) "")
                 (jsOrStr (toggle_topicsMap cfg cls dateStr !! idx) "")))).
Proof.
  intros current nextStatus. unfold handleToggleStatus.
  fold current. fold nextStatus.
  destruct (decide (current !! idx = Some nextStatus)) as [Heq | Hne].
  - left. split; [| done].
    unfold current in Heq. rewrite currentDailyStatuses_at in Heq. congruence.
  - right. split; [| done].
    intros Heq. apply Hne. unfold current.
    rewrite currentDailyStatuses_at. congruence.
Qed.

Lemma toggle_cell cfg cls st sid dateStr idx :
  cellStatus (attendance (toggle cfg cls st sid dateStr idx)) sid dateStr idx
  = cycleStatus (cellStatus (attendance st) sid dateStr idx).
Proof.
  unfold toggle.
  destruct (handleToggleStatus_cases cfg cls (attendance st) st sid dateStr idx None)
    as [[Heq _] | [_ ->]].
  - rewrite nextStatusOf_unforced in Heq. by apply cycleStatus_moves in Heq.
  - simpl attendance. rewrite cellStatus_write_same.
    rewrite list_lookup_insert_eq by apply currentDailyStatuses_length.
    simpl. by rewrite currentDailyStatuses_default.
Qed.

(** C2: an unforced toggle advances the cell along the cycle
    UNDEFINED, PRESENT, ABSENT, EXCUSED and back to UNDEFINED, whatever the
    student, the date, the slot and the current status, so that four
    toggles bring the cell back to the status it had. *)
Theorem toggle_follows_cycle cfg cls (st : Store) sid dateStr idx :
  let click := fun s => toggle cfg cls s sid dateStr idx in
  let shown := fun s => cellStatus (attendance s) sid dateStr idx in
  shown (click st) = cycleStatus (shown st)
  ∧ cycleStatus UNDEFINED = PRESENT
  ∧ cycleStatus PRESENT = ABSENT
  ∧ cycleStatus ABSENT = EXCUSED
  ∧ cycleStatus EXCUSED = UNDEFINED
  ∧ shown (click (click (click (click st)))) = shown st.
Proof.
  intros click shown. unfold click, shown.
  repeat split; try reflexivity.
  - apply toggle_cell.
  - rewrite !toggle_cell. apply cycleStatus_four.
Qed.

(** C8: a toggle, forced or not, whose new status is the status the cell
    already has changes nothing: the attendance store and the queue of
    pending changes stay as they were. *)
Theorem toggle_same_status_is_noop cfg cls (att : ClassAttendance) (st : Store)
    sid dateStr idx forced :
  nextStatusOf forced (currentDailyStatuses cfg cls att sid dateStr idx) idx
  = cellStatus att sid dateStr idx ->
  handleToggleStatus cfg cls att st sid dateStr idx forced = st.
Proof.
  intros Hsame.
  destruct (handleToggleStatus_cases cfg cls att st sid dateStr idx forced)
    as [[_ ->] | [Hne _]]; [done | by destruct Hne].
Qed.

(** A forced PRESENT on a cell that is already PRESENT. *)
Lemma toggle_same_status_is_noop_witness :
  let cfg := mkConfig ∅ ∅ ∅ in
  let att : ClassAttendance := {[ "s1" := {[ "2025-03-05" := [PRESENT; ABSENT] ]} ]} in
  let st := mkStore att [] in
  handleToggleStatus cfg "c1" att st "s1" "2025-03-05" 0 (Some PRESENT) = st.
Proof.
  intros cfg att st.
  apply (toggle_same_status_is_noop cfg "c1" att st "s1" "2025-03-05" 0 (Some PRESENT)).
  vm_compute. reflexivity.
Defined.

(** ** Bulk application *)

Lemma filter_filter_absorb {A : Type} (P Q : A -> bool) (l : list A) :
  (forall x, Q x = false -> P x = false) ->
  List.filter P (List.filter Q l) = List.filter P l.
Proof.
  intros HPQ. induction l as [| x l IH]; simpl; [done |].
  destruct (Q x) eqn:HQ; simpl.
  - by rewrite IH.
  - by rewrite (HPQ x HQ).
Qed.

(** Entries that a predicate does not relate to the enqueued cell are
    left as they were. *)
Lemma filter_enqueue_frame (P : PendingChange -> bool) prev change :
  P change = false ->
  (forall x, sameCell (studentId change) (date change) (lessonIndex change) x = true ->
             P x = false) ->
  List.filter P (enqueue prev change) = List.filter P prev.
Proof.
  intros Hc Hsame. unfold enqueue.
  rewrite List.filter_app. simpl. rewrite Hc, app_nil_r.
  apply filter_filter_absorb. intros x Hx.
  apply Hsame. by destruct (sameCell _ _ _ x).
Qed.

Lemma sameCell_true sid dateStr idx c :
  sameCell sid dateStr idx c = true <->
  studentId c = sid ∧ date c = dateStr ∧ lessonIndex c = idx.
Proof.
  unfold sameCell. rewrite !andb_true_iff, !bool_decide_eq_true. tauto.
Qed.

(** The status [handleBulkStatusUpdate] reads is the one the grid shows. *)
Lemma bulk_read_is_cellStatus (att : ClassAttendance) sid dateStr idx :
  jsOr (jsOr (att !! sid) ∅ !! dateStr ≫= fun arr => arr !! idx) UNDEFINED
  = cellStatus att sid dateStr idx.
Proof.
  unfold cellStatus.
  destruct (jsOr (att !! sid) ∅ !! dateStr) as [arr |]; simpl; done.
Qed.

(** One iteration of the loop: nothing, or a forced toggle of an
    undefined cell of an active student. *)
Lemma bulkStep_cases cfg cls (att : ClassAttendance) dateStr idx forced st student :
  bulkStep cfg cls att dateStr idx forced st student = st
  ∨ (st_status student = ACTIVE
     ∧ cellStatus att (st_id student) dateStr idx = UNDEFINED
     ∧ forced ≠ UNDEFINED
     ∧ bulkStep cfg cls att dateStr idx forced st student
       = mkStore
           (writeStatuses (attendance st) (st_id student) dateStr
              (<[idx := forced]>
                 (currentDailyStatuses cfg cls att (st_id student) dateStr idx)))
           (enqueue (pendingChanges st)
              (mkChange (st_id student) dateStr idx forced
                 (jsOrStr (toggle_subjectsMap cfg cls dateStr !! idx) "")
                 (jsOrStr (toggle_topicsMap cfg cls dateStr !! idx) "")))).
Proof.
  unfold bulkStep.
  destruct (decide (st_status student = ACTIVE)) as [Hact |]; [| by left].
  cbv zeta. rewrite bulk_read_is_cellStatus.
  destruct (decide (cellStatus att (st_id student) dateStr idx = UNDEFINED))
    as [Hund |]; [| by left].
  destruct (handleToggleStatus_cases cfg cls att st (st_id student) dateStr idx
              (Some forced)) as [[_ ->] | [Hne ->]]; [by left |].
  right. simpl in Hne. rewrite Hund in Hne. done.
Qed.

Lemma bulkStep_cellsInv cfg cls (att : ClassAttendance) view dateStr idx forced st student :
  student ∈ view ->
  bulkCellsInv att view dateStr idx st ->
  bulkCellsInv att view dateStr idx (bulkStep cfg cls att dateStr idx forced st student).
Proof.
  intros Hin Hinv.
  destruct (bulkStep_cases cfg cls att dateStr idx forced st student)
    as [-> | (Hact & Hund & _ & ->)]; [done |].
  intros sid d i. simpl attendance.
  destruct (decide ((sid, d) = (st_id student, dateStr))) as [[= -> ->] | Hother].
  - rewrite cellStatus_write_same.
    destruct (decide (i = idx)) as [-> | Hi].
    + intros _. repeat split; [done |]. by exists student.
    + rewrite list_lookup_insert_ne by done.
      rewrite currentDailyStatuses_default. done.
  - rewrite cellStatus_write_other by done. apply Hinv.
Qed.

Lemma bulkStep_frameInv cfg cls (att : ClassAttendance) st0 view dateStr idx forced st student :
  student ∈ view ->
  bulkFrameInv st0 view st ->
  bulkFrameInv st0 view (bulkStep cfg cls att dateStr idx forced st student).
Proof.
  intros Hin Hinv.
  destruct (bulkStep_cases cfg cls att dateStr idx forced st student)
    as [-> | (Hact & _ & _ & ->)]; [done |].
  intros sid Hsid. destruct (Hinv sid Hsid) as [Hatt Hq].
  assert (st_id student ≠ sid) as Hne by (intros Heq; by apply (Hsid student)).
  simpl. split.
  - unfold writeStatuses. by rewrite lookup_insert_ne.
  - rewrite filter_enqueue_frame; [done | |]; simpl.
    + by apply bool_decide_eq_false.
    + intros x Hx. apply sameCell_true in Hx as (Hx & _ & _).
      apply bool_decide_eq_false. congruence.
Qed.

Lemma bulk_loop_invariants cfg cls (att : ClassAttendance) st0 view dateStr idx forced
    (students : list Student) :
  forall st,
    (forall s, s ∈ students -> s ∈ view) ->
    bulkCellsInv att view dateStr idx st ->
    bulkFrameInv st0 view st ->
    let st' := foldl (bulkStep cfg cls att dateStr idx forced) st students in
    bulkCellsInv att view dateStr idx st' ∧ bulkFrameInv st0 view st'.
Proof.
  induction students as [| s rest IH]; intros st Hsub Hcells Hframe; simpl; [done |].
  apply IH.
  - intros x Hx. apply Hsub. by right.
  - apply bulkStep_cellsInv; [apply Hsub; by left | done].
  - apply bulkStep_frameInv; [apply Hsub; by left | done].
Qed.

(** C3: the bulk update changes only cells whose status is UNDEFINED, and
    only for the ACTIVE students of the view: a cell with another status
    keeps it, a cell that changes is the cell of the update for an ACTIVE
    student of the view, and a student id carried by no ACTIVE student of
    the view keeps its attendance record and its pending changes. *)
Theorem bulk_only_undefined_cells_of_active_students cfg cls
    (classStudents : list Student) (st : Store) dateStr idx forced :
  let st' := handleBulkStatusUpdate cfg cls classStudents st dateStr idx forced in
  (forall sid d i,
     cellStatus (attendance st) sid d i ≠ UNDEFINED ->
     cellStatus (attendance st') sid d i = cellStatus (attendance st) sid d i)
  ∧ (forall sid d i,
       cellStatus (attendance st') sid d i ≠ cellStatus (attendance st) sid d i ->
       d = dateStr ∧ i = idx
       ∧ ∃ s, s ∈ classStudents ∧ st_id s = sid ∧ st_status s = ACTIVE)
  ∧ (forall sid,
       (forall s, s ∈ classStudents -> st_id s = sid -> st_status s ≠ ACTIVE) ->
       attendance st' !! sid = attendance st !! sid
       ∧ List.filter (fun c => bool_decide (studentId c = sid)) (pendingChanges st')
         = List.filter (fun c => bool_decide (studentId c = sid)) (pendingChanges st)).
Proof.
  intros st'.
  destruct (bulk_loop_invariants cfg cls (attendance st) st classStudents dateStr idx
              forced classStudents st) as [Hcells Hframe].
  - done.
  - intros sid d i Hne. by destruct Hne.
  - intros sid _. done.
  - fold (handleBulkStatusUpdate cfg cls classStudents st dateStr idx forced) in Hcells, Hframe.
    fold st' in Hcells, Hframe.
    split; [| split].
    + intros sid d i Hdef.
      destruct (decide (cellStatus (attendance st') sid d i
                        = cellStatus (attendance st) sid d i)) as [| Hne]; [done |].
      destruct (Hcells sid d i Hne) as (_ & _ & Hund & _). by destruct Hdef.
    + intros sid d i Hne. destruct (Hcells sid d i Hne) as (? & ? & _ & ?). done.
    + apply Hframe.
Qed.

(** An ACTIVE student with an undefined cell, an ACTIVE student whose cell
    is set, and a transferred student. *)
Lemma bulk_only_undefined_cells_of_active_students_witness :
  let cfg := mkConfig ∅ ∅ ∅ in
  let view := [mkStudent "s1" "Ana" ACTIVE "c1"; mkStudent "s2" "Bia" ACTIVE "c1";
               mkStudent "s3" "Caio" TRANSFERRED "c1"] in
  let st := mkStore {[ "s2" := {[ "2025-03-05" := [ABSENT] ]} ]} [] in
  let st' := handleBulkStatusUpdate cfg "c1" view st "2025-03-05" 0 PRESENT in
  cellStatus (attendance st') "s2" "2025-03-05" 0
  = cellStatus (attendance st) "s2" "2025-03-05" 0
  ∧ attendance st' !! "s3" = attendance st !! "s3".
Proof.
  intros cfg view st st'.
  destruct (bulk_only_undefined_cells_of_active_students cfg "c1" view st
              "2025-03-05" 0 PRESENT) as (Hkeep & _ & Hframe).
  split.
  - apply Hkeep. vm_compute. discriminate.
  - apply Hframe. intros s Hin Hid.
    apply list_elem_of_In in Hin. simpl in Hin.
    destruct Hin as [<- | [<- | [<- | []]]]; simpl in *; discriminate.
Defined.

(** ** Pending-change queue *)














(** ** Flush *)

(** C5: the flush of an empty queue does nothing; offline it reports that
    the changes stay queued and leaves the queue as it is; otherwise it
    sends the whole queue as one batch, and the queue becomes empty when
    the request succeeds and stays exactly as it was when it fails. *)
Theorem flush_outcomes (isOnline : bool) (fetchGas : list WireRecord -> RemoteResult)
    (pending : list PendingChange) :
  let result := handleSaveChanges isOnline fetchGas pending in
  (pending = [] -> result = ([], []))
  ∧ (pending ≠ [] -> isOnline = false -> result = (pending, [AlertOffline]))
  ∧ (pending ≠ [] -> isOnline = true ->
     fetchGas (map toWire pending) = RemoteOk ->
     result = ([], [BatchRequest (map toWire pending)]))
  ∧ (pending ≠ [] -> isOnline = true ->
     fetchGas (map toWire pending) = RemoteError ->
     result = (pending, [BatchRequest (map toWire pending); AlertSyncError])).
Proof.
  intros result. unfold result, handleSaveChanges, saveAttendanceBatch.
  destruct (decide (length pending = 0)) as [Hlen | Hlen].
  - apply length_zero_iff_nil in Hlen. subst pending.
    repeat split; intros; done.
  - assert (pending ≠ []) as Hne by (intros ->; by apply Hlen).
    repeat split; intros; try done.
    + by subst isOnline.
    + subst isOnline. simpl. by rewrite H1.
    + subst isOnline. simpl. by rewrite H1.
Qed.

(** One pending change, online, and a request that fails. *)
Lemma flush_outcomes_witness :
  let pending := [mkChange "s1" "2025-03-05" 0 PRESENT "" ""] in
  handleSaveChanges true (fun _ => RemoteError) pending
  = (pending, [BatchRequest (map toWire pending); AlertSyncError]).
Proof.
  intros pending.
  destruct (flush_outcomes true (fun _ => RemoteError) pending) as (_ & _ & _ & Hfail).
  apply Hfail; [discriminate | reflexivity | reflexivity].
Defined.

(** ** Statistics *)

Lemma addCounts_zero_l (c : Counts) : addCounts zeroCounts c = c.
Proof. by destruct c. Qed.

Lemma addCounts_assoc (a b c : Counts) :
  addCounts (addCounts a b) c = addCounts a (addCounts b c).
Proof. unfold addCounts. simpl. f_equal; lia. Qed.

Lemma countsOfStatuses_app (l1 l2 : list AttendanceStatus) :
  countsOfStatuses (l1 ++ l2) = addCounts (countsOfStatuses l1) (countsOfStatuses l2).
Proof.
  unfold countsOfStatuses, addCounts. simpl.
  by rewrite !List.filter_app, !length_app.
Qed.

Lemma reports_countStep_adds (c : Counts) (s : AttendanceStatus) :
  reports_countStep c s = addCounts c (countsOfStatuses [s]).
Proof.
  destruct c, s; unfold reports_countStep, addCounts; simpl;
    repeat case_decide; try done; simpl; f_equal; lia.
Qed.

Lemma detail_countStep_adds (c : Counts) (s : AttendanceStatus) :
  detail_countStep c s = addCounts c (countsOfStatuses [s]).
Proof.
  destruct c, s; unfold detail_countStep, addCounts; simpl;
    repeat case_decide; try done; simpl; f_equal; lia.
Qed.

(** A loop over statuses whose body adds the counts of one status adds the
    counts of the list. *)
Lemma count_loop (step : Counts -> AttendanceStatus -> Counts) :
  (forall c s, step c s = addCounts c (countsOfStatuses [s])) ->
  forall l c, foldl step c l = addCounts c (countsOfStatuses l).
Proof.
  intros Hstep. induction l as [| s l IH]; intros c; simpl.
  - destruct c. unfold addCounts. simpl. f_equal; lia.
  - rewrite IH, Hstep, addCounts_assoc.
    by rewrite <- countsOfStatuses_app.
Qed.

(** The loop over the dates of a record adds the statuses of the dates
    that are kept. *)
Lemma date_loop (step : Counts -> AttendanceStatus -> Counts) (keep : string -> bool) :
  (forall c s, step c s = addCounts c (countsOfStatuses [s])) ->
  forall (entries : list (string * list AttendanceStatus)) c,
    foldl (fun acc entry =>
             if keep (fst entry) then foldl step acc (snd entry) else acc)
          c entries
    = addCounts c
        (countsOfStatuses
           (flat_map snd (List.filter (fun e => keep (fst e)) entries))).
Proof.
  intros Hstep. induction entries as [| e entries IH]; intros c; simpl.
  - destruct c. unfold addCounts. simpl. f_equal; lia.
  - rewrite IH. destruct (keep (fst e)); simpl; [| done].
    rewrite (count_loop step Hstep), addCounts_assoc.
    by rewrite <- countsOfStatuses_app.
Qed.

(** Order of binary64 numbers, from the specification of the primitive
    comparisons. *)
Lemma SFltb_not_SFleb (x y : spec_float) : SFltb x y = true -> SFleb y x = false.
Proof.
  unfold SFltb, SFleb.
  destruct x as [s | s | | s m e], y as [s' | s' | | s' m' e']; simpl;
    try discriminate; try reflexivity;
    try (destruct s; simpl; discriminate || reflexivity);
    try (destruct s'; simpl; discriminate || reflexivity);
    try (destruct s, s'; simpl; discriminate || reflexivity).
  destruct s, s'; simpl; try discriminate; try reflexivity;
    rewrite (Z.compare_antisym e e'); destruct (e ?= e')%Z; simpl;
    try discriminate; try reflexivity;
    change (PosDef.Pos.compare_cont Eq m' m) with (m' ?= m)%positive;
    change (PosDef.Pos.compare_cont Eq m m') with (m ?= m')%positive;
    rewrite (Pos.compare_antisym m m'); destruct (m ?= m')%positive; simpl;
    discriminate || reflexivity.
Qed.

Lemma SFltb_widen (x : spec_float) (m1 m2 : positive) (e : Z) :
  (m1 < m2)%positive ->
  SFltb x (S754_finite false m1 e) = true ->
  SFltb x (S754_finite false m2 e) = true.
Proof.
  intros Hm. unfold SFltb.
  destruct x as [s | s | | s m e0]; simpl; try discriminate; try (intros; assumption).
  destruct s; simpl; [reflexivity |].
  destruct (e0 ?= e)%Z; simpl; try discriminate; try reflexivity.
  change (PosDef.Pos.compare_cont Eq m m1) with (m ?= m1)%positive.
  change (PosDef.Pos.compare_cont Eq m m2) with (m ?= m2)%positive.
  destruct (m ?= m1)%positive eqn:E1; intros Hlt; try discriminate Hlt.
  assert (m < m2)%positive as H by (eapply Pos.lt_trans; eassumption).
  unfold Pos.lt in H. by rewrite H.
Qed.

Lemma Prim2SF_75 : Prim2SF 75%float = S754_finite false 5277655813324800 (-46).
Proof. vm_compute. reflexivity. Qed.

Lemma Prim2SF_90 : Prim2SF 90%float = S754_finite false 6333186975989760 (-46).
Proof. vm_compute. reflexivity. Qed.

Lemma float_lt_not_ge (p bound : float) :
  PrimFloat.ltb p bound = true -> PrimFloat.leb bound p = false.
Proof.
  rewrite FloatAxioms.ltb_spec, FloatAxioms.leb_spec. apply SFltb_not_SFleb.
Qed.

Lemma float_lt75_lt90 (p : float) :
  PrimFloat.ltb p 75%float = true -> PrimFloat.ltb p 90%float = true.
Proof.
  rewrite !FloatAxioms.ltb_spec, Prim2SF_75, Prim2SF_90. apply SFltb_widen.
  vm_compute. reflexivity.
Qed.

(** The three bands of [levelOf]. *)
Lemma levelOf_bands (p : float) :
  (PrimFloat.ltb p 75%float = true -> levelOf p = CRITICAL)
  ∧ (PrimFloat.leb 75%float p = true -> PrimFloat.ltb p 90%float = true ->
     levelOf p = REGULAR)
  ∧ (PrimFloat.leb 90%float p = true -> levelOf p = EXCELLENT).
Proof.
  unfold levelOf. split; [| split].
  - intros Hlt.
    rewrite (float_lt_not_ge p 90%float (float_lt75_lt90 p Hlt)).
    by rewrite (float_lt_not_ge p 75%float Hlt).
  - intros Hge Hlt. by rewrite (float_lt_not_ge p 90%float Hlt), Hge.
  - by intros ->.
Qed.

Section StatisticsFacts.

Variable newDate : string -> option Z.

Lemma reports_counts_spec (range : option (option Z * option Z))
    (record : AttendanceRecord) :
  reports_counts newDate range record
  = countsOfStatuses (statusesWhere (reports_keeps newDate range) record).
Proof.
  unfold reports_counts, statusesWhere.
  rewrite (date_loop reports_countStep (reports_keeps newDate range)
             reports_countStep_adds).
  apply addCounts_zero_l.
Qed.

Lemma detail_counts_spec (bimester : BimesterConfig) (record : AttendanceRecord) :
  detail_counts newDate bimester record
  = countsOfStatuses (statusesWhere (detail_keeps newDate bimester) record).
Proof.
  unfold detail_counts, statusesWhere.
  rewrite (date_loop detail_countStep (detail_keeps newDate bimester)
             detail_countStep_adds).
  apply addCounts_zero_l.
Qed.

Lemma percentageOf_formula (c : Counts) :
  percentageOf c
  = if decide (total c = 0) then 0%float
    else PrimFloat.mul
           (PrimFloat.div (toNumber (present c + excused c)) (toNumber (total c)))
           100%float.
Proof.
  unfold percentageOf.
  destruct (decide (0 < total c)), (decide (total c = 0)); try done; lia.
Qed.

(** The counters and the percentage over the dates that the filters of
    the code keep.  In the reports and in the bimester statistics of a
    student, the counters are the numbers of present, excused and absent
    statuses of the kept dates, the total is the number of statuses that are not
    UNDEFINED, and the percentage is (present + excused) / total * 100, or 0
    when the total is 0.  Three present, one absent and one excused give
    80 and the level REGULAR; below 75 is CRITICAL, from 75 to below 90 is
    REGULAR, and 90 or more is EXCELLENT. *)
Theorem percentage_formula_and_bands :
  (forall range record,
     let c := reports_counts newDate range record in
     c = countsOfStatuses (statusesWhere (reports_keeps newDate range) record)
     ∧ percentageOf c
       = if decide (total c = 0) then 0%float
         else PrimFloat.mul
                (PrimFloat.div (toNumber (present c + excused c)) (toNumber (total c)))
                100%float)
  ∧ (forall att bimesters cls stt lvl bim student c p l,
       reports_studentStats newDate att bimesters cls stt lvl bim student
       = Some (c, p, l) ->
       c = reports_counts newDate (reports_range newDate bimesters bim)
             (jsOr (att !! st_id student) ∅)
       ∧ p = percentageOf c ∧ l = levelOf p)
  ∧ (forall bimesters record bimester c p,
       In (bimester, c, p) (bimesterStats newDate bimesters record) ->
       c = countsOfStatuses (statusesWhere (detail_keeps newDate bimester) record)
       ∧ p = percentageOf c)
  ∧ (forall c,
       present c = 3 -> absent c = 1 -> excused c = 1 -> total c = 5 ->
       percentageOf c = 80%float ∧ levelOf (percentageOf c) = REGULAR)
  ∧ (forall p,
       (PrimFloat.ltb p 75%float = true -> levelOf p = CRITICAL)
       ∧ (PrimFloat.leb 75%float p = true -> PrimFloat.ltb p 90%float = true ->
          levelOf p = REGULAR)
       ∧ (PrimFloat.leb 90%float p = true -> levelOf p = EXCELLENT))
  ∧ levelOf 75%float = REGULAR ∧ levelOf 90%float = EXCELLENT.
Proof.
  split; [| split; [| split; [| split; [| split]]]].
  - intros range record c. split.
    + apply reports_counts_spec.
    + apply percentageOf_formula.
  - intros att bimesters cls stt lvl bim student c p l.
    unfold reports_studentStats.
    repeat case_decide; try discriminate.
    intros [= <- <- <-]. done.
  - intros bimesters record bimester c p Hin.
    unfold bimesterStats in Hin. apply in_map_iff in Hin as (b & [= <- <- <-] & _).
    split; [apply detail_counts_spec | done].
  - intros [p e a t]. simpl. intros -> -> -> ->. by vm_compute.
  - apply levelOf_bands.
  - by vm_compute.
Qed.

End StatisticsFacts.

(** A student with three present, one absent and one excused status, in
    the annual view of the reports. *)
Lemma percentage_formula_and_bands_witness :
  let record : AttendanceRecord :=
    {[ "2025-03-05" := [PRESENT; PRESENT; ABSENT];
       "2025-03-06" := [PRESENT; EXCUSED] ]} in
  let c := reports_counts (fun _ => None) None record in
  percentageOf c = 80%float ∧ levelOf (percentageOf c) = REGULAR.
Proof.
  intros record c.
  destruct (percentage_formula_and_bands (fun _ => None)) as (_ & _ & _ & Hex & _).
  apply Hex; vm_compute; reflexivity.
Defined.

(** C6, at the last day of a bimester, on a host three hours behind UTC
    (Brasilia).  The end of the bimester is read as midnight of UTC and the
    date of the record as noon of local time, which is later: the record of
    the last day is left out of the bimester statistics of the student and
    of the report on that bimester, whose totals and percentages are 0,
    where the statuses of the period give a total of 1 and 100 percent.  The
    record of the first day is counted, and so is the last day in the annual
    report.  A host on UTC leaves the last day out as well. *)
Lemma last_day_of_bimester_is_not_counted :
  let newDate := ecmaDate (-180) in
  let bimester := mkBimester 1 "1" "2025-02-01" "2025-04-30" in
  let lastDay : AttendanceRecord := {[ "2025-04-30" := [PRESENT] ]} in
  let firstDay : AttendanceRecord := {[ "2025-02-01" := [PRESENT] ]} in
  let ofBimester := detail_counts newDate bimester lastDay in
  let ofReport :=
    reports_counts newDate (reports_range newDate [bimester] (Some 1)) lastDay in
  ofBimester = zeroCounts ∧ percentageOf ofBimester = 0%float
  ∧ ofReport = zeroCounts ∧ percentageOf ofReport = 0%float
  ∧ countsOfStatuses [PRESENT] = mkCounts 1 0 0 1
  ∧ percentageOf (countsOfStatuses [PRESENT]) = 100%float
  ∧ detail_counts newDate bimester firstDay = mkCounts 1 0 0 1
  ∧ reports_counts newDate None lastDay = mkCounts 1 0 0 1
  ∧ detail_counts (ecmaDate 0) bimester lastDay = zeroCounts.
Proof. repeat split; vm_compute; reflexivity. Qed.

(** ** Wire conversions *)

Lemma digit_classes (c : ascii) :
  isDigit c = true ->
  isSpace c = false ∧ isDash c = false ∧ isDashOrSlash c = false.
Proof.
  destruct c as [[] [] [] [] [] [] [] []]; vm_compute; intros H;
    try discriminate H; repeat split.
Qed.

Lemma dash_is (c : ascii) : isDash c = true -> c = "-"%char.
Proof. unfold isDash. by intros ?%bool_decide_eq_true. Qed.

(** A string that matches a pattern of ten classes is ten characters, each
    of its class. *)
Ltac ten_chars d H :=
  do 10 (destruct d as [| ? d];
         [cbn [matchesClasses] in H; rewrite ?andb_false_r in H; discriminate H |]);
  destruct d as [| ? ?];
  [| cbn [matchesClasses] in H; rewrite ?andb_false_r in H; discriminate H];
  cbn [matchesClasses] in H;
  repeat (apply andb_true_iff in H as [? H]);
  repeat match goal with
         | Hd : isDigit ?c = true |- _ =>
             let Hs := fresh in
             let Hh := fresh in
             let Hq := fresh in
             destruct (digit_classes c Hd) as (Hs & Hh & Hq); revert Hd
         | Hd : isDash ?c = true |- _ => apply dash_is in Hd; subst c
         end;
  intros.

(** Evaluation of the date conversions on characters known by their
    classes. *)
Ltac eval_dates :=
  assert (isDigit "-" = false) by reflexivity;
  assert (isDash "-" = true) by reflexivity;
  assert (isDashOrSlash "-" = true) by reflexivity;
  repeat first
    [ progress cbn [toIsoDate toBrDate isEmptyString trim trimStart trimEnd
                    String.substring matchesClasses isoDatePattern brDatePattern
                    splitOn part jsOr lookup list_lookup length Nat.eqb negb
                    andb orb]
    | progress cbv [String.append]
    | match goal with
      | Hc : ?f ?c = _ |- context [?f ?c] => rewrite Hc
      end ].

Lemma toBrDate_toIsoDate (d : string) :
  matchesClasses brDashPattern d = true -> toBrDate (toIsoDate d) = d.
Proof. intros H. unfold brDashPattern in H. ten_chars d H. eval_dates. reflexivity. Qed.

Lemma toIsoDate_is_iso (d : string) :
  matchesClasses brDashPattern d = true ->
  matchesClasses isoDatePattern (toIsoDate d) = true.
Proof. intros H. unfold brDashPattern in H. ten_chars d H. eval_dates. reflexivity. Qed.

Lemma toIsoDate_toBrDate (iso : string) :
  matchesClasses isoDatePattern iso = true -> toIsoDate (toBrDate iso) = iso.
Proof. intros H. unfold isoDatePattern in H. ten_chars iso H. eval_dates. reflexivity. Qed.

Lemma iso_not_empty (iso : string) :
  matchesClasses isoDatePattern iso = true -> isEmptyString iso = false.
Proof. by destruct iso. Qed.

(** *** Ingest *)

Lemma ingestRecord_skips (att : ClassAttendance) (rec : RawRecord) :
  isEmptyString (toIsoDate (jsOr (r_date rec) "")) = true ->
  ingestRecord att rec = att.
Proof. intros H. unfold ingestRecord. cbv zeta. by rewrite H. Qed.

Lemma ingestRecord_stores (att : ClassAttendance) (rec : RawRecord) :
  isEmptyString (toIsoDate (jsOr (r_date rec) "")) = false ->
  ingestRecord att rec !! r_studentId rec
    ≫= (fun studentRecord => studentRecord !! toIsoDate (jsOr (r_date rec) ""))
  = Some (<[slotOf (r_lessonIndex rec) := r_status rec]>
            (padStatuses
               (jsOr (jsOr (att !! r_studentId rec) ∅
                        !! toIsoDate (jsOr (r_date rec) "")) [])
               (slotOf (r_lessonIndex rec)))).
Proof.
  intros H. unfold ingestRecord. cbv zeta. rewrite H.
  rewrite lookup_insert_eq. simpl. by rewrite lookup_insert_eq.
Qed.

Lemma ingestRecord_other (att : ClassAttendance) (rec : RawRecord) sid dateStr :
  (sid, dateStr) ≠ (r_studentId rec, toIsoDate (jsOr (r_date rec) "")) ->
  ingestRecord att rec !! sid ≫= (fun studentRecord => studentRecord !! dateStr)
  = att !! sid ≫= (fun studentRecord => studentRecord !! dateStr).
Proof.
  intros Hne. unfold ingestRecord. cbv zeta.
  destruct (isEmptyString _); [done |].
  destruct (decide (sid = r_studentId rec)) as [-> | Hs].
  - rewrite lookup_insert_eq. simpl.
    rewrite lookup_insert_ne by congruence.
    by destruct (att !! r_studentId rec).
  - by rewrite lookup_insert_ne.
Qed.

Lemma cellStatus_bind (att : ClassAttendance) sid dateStr i :
  cellStatus att sid dateStr i
  = jsOr (jsOr (att !! sid ≫= fun studentRecord => studentRecord !! dateStr) [] !! i)
         UNDEFINED.
Proof. unfold cellStatus. by destruct (att !! sid). Qed.

Lemma ingestRecord_cell (att : ClassAttendance) (rec : RawRecord) :
  isEmptyString (toIsoDate (jsOr (r_date rec) "")) = false ->
  cellStatus (ingestRecord att rec) (r_studentId rec)
    (toIsoDate (jsOr (r_date rec) "")) (slotOf (r_lessonIndex rec))
  = r_status rec.
Proof.
  intros H. rewrite cellStatus_bind, ingestRecord_stores by done. simpl.
  by rewrite list_lookup_insert_eq by apply padStatuses_length.
Qed.

Lemma ingestRecord_keeps_slots (att : ClassAttendance) (rec : RawRecord) sid dateStr i :
  slotExists att sid dateStr i -> slotExists (ingestRecord att rec) sid dateStr i.
Proof.
  intros (arr & Harr & Hlen). unfold slotExists.
  destruct (isEmptyString (toIsoDate (jsOr (r_date rec) ""))) eqn:Hempty.
  { rewrite ingestRecord_skips by done. eauto. }
  destruct (decide ((sid, dateStr)
                    = (r_studentId rec, toIsoDate (jsOr (r_date rec) ""))))
    as [[= -> ->] | Hother].
  - rewrite ingestRecord_stores by done. eexists. split; [done |].
    rewrite length_insert. unfold padStatuses. rewrite length_app.
    assert (jsOr (jsOr (att !! r_studentId rec) ∅
                    !! toIsoDate (jsOr (r_date rec) "")) [] = arr) as ->; [| lia].
    destruct (att !! r_studentId rec); simpl in *; [by rewrite Harr | done].
  - rewrite ingestRecord_other by done. eauto.
Qed.

Lemma ingest_run_keeps_slots (records : list RawRecord) :
  forall (att : ClassAttendance) sid dateStr i,
    slotExists att sid dateStr i ->
    slotExists (foldl ingestRecord att records) sid dateStr i.
Proof.
  induction records as [| r records IH]; intros att sid dateStr i H; simpl; [done |].
  by apply IH, ingestRecord_keeps_slots.
Qed.

Lemma rawIdxOf_range (v : JsIndex) : (1 <= rawIdxOf v <= 20)%Z.
Proof.
  unfold rawIdxOf. destruct (parseIndex v) as [n |]; repeat case_decide; lia.
Qed.

Lemma rawIdxOf_in_range (v : JsIndex) (k : Z) :
  parseIndex v = Some k -> (1 <= k <= 20)%Z -> rawIdxOf v = k.
Proof. intros Hk Hr. unfold rawIdxOf. rewrite Hk. repeat case_decide; lia. Qed.

Lemma rawIdxOf_clamped (v : JsIndex) :
  (forall k, parseIndex v = Some k -> ¬ (1 <= k <= 20)%Z) -> rawIdxOf v = 1%Z.
Proof.
  intros Hbad. unfold rawIdxOf.
  destruct (parseIndex v) as [n |] eqn:E; [| by case_decide].
  specialize (Hbad n eq_refl). repeat case_decide; lia.
Qed.

Lemma slotOf_bound (v : JsIndex) : slotOf v <= 19.
Proof. unfold slotOf. pose proof (rawIdxOf_range v). lia. Qed.

(** C7, as the code has it: for a wire record whose date is written
    DD-MM-YYYY with dashes and whose lesson index reads as an integer from 1
    to 20, the record lands in the cell of the ISO date and of the 0-based
    slot, and a change of that cell is sent with the date and the lesson
    index of the wire record; on such dates and on ISO dates the two date
    conversions are inverse of each other. *)
Theorem wire_roundtrip_of_dash_dates (att : ClassAttendance) (rec : RawRecord)
    (d : string) (k : Z) :
  r_date rec = Some d ->
  matchesClasses brDashPattern d = true ->
  parseIndex (r_lessonIndex rec) = Some k ->
  (1 <= k <= 20)%Z ->
  let iso := toIsoDate d in
  let slot := slotOf (r_lessonIndex rec) in
  matchesClasses isoDatePattern iso = true
  ∧ Z.of_nat slot = (k - 1)%Z
  ∧ cellStatus (ingestRecord att rec) (r_studentId rec) iso slot = r_status rec
  ∧ (forall c,
       cellKey c = (r_studentId rec, iso, slot) ->
       w_studentId (toWire c) = r_studentId rec
       ∧ w_date (toWire c) = d
       ∧ Z.of_nat (w_lessonIndex (toWire c)) = k)
  ∧ toIsoDate (toBrDate iso) = iso.
Proof.
  intros Hd Hbr Hk Hr iso slot.
  pose proof (toIsoDate_is_iso d Hbr) as Hiso.
  assert (Z.of_nat slot = (k - 1)%Z) as Hslot.
  { unfold slot, slotOf. rewrite (rawIdxOf_in_range _ k Hk Hr). lia. }
  split; [done |]. split; [done |]. split; [| split].
  - pose proof (ingestRecord_cell att rec) as Hcell.
    rewrite Hd in Hcell. simpl in Hcell. apply Hcell. by apply iso_not_empty.
  - intros c [= Hs Hdate Hidx]. unfold toWire. simpl.
    rewrite Hs, Hdate, Hidx. split; [done |]. split.
    + by apply toBrDate_toIsoDate.
    + lia.
  - by apply toIsoDate_toBrDate.
Qed.

(** The record of the specification: s1, 05-03-2025, first lesson,
    present. *)
Lemma wire_roundtrip_of_dash_dates_witness :
  let rec := mkRaw "s1" (Some "05-03-2025") (IdxNumber 1) PRESENT in
  let iso := toIsoDate "05-03-2025" in
  let slot := slotOf (IdxNumber 1) in
  let sent := toWire (mkChange "s1" iso slot PRESENT "" "") in
  cellStatus (ingestRecord ∅ rec) "s1" iso slot = PRESENT
  ∧ w_studentId sent = "s1"
  ∧ w_date sent = "05-03-2025"
  ∧ Z.of_nat (w_lessonIndex sent) = 1%Z.
Proof.
  intros rec iso slot sent.
  destruct (wire_roundtrip_of_dash_dates ∅ rec "05-03-2025" 1
              eq_refl eq_refl eq_refl) as (_ & _ & Hcell & Hwire & _).
  - lia.
  - split; [exact Hcell |].
    exact (Hwire (mkChange "s1" iso slot PRESENT "" "") eq_refl).
Defined.

(** C7 fails as stated: a wire date written with slashes is sent back
    with dashes. *)
Lemma wire_roundtrip_fails_for_slash_dates :
  let rec := mkRaw "s1" (Some "05/03/2025") (IdxNumber 1) PRESENT in
  let iso := toIsoDate "05/03/2025" in
  let slot := slotOf (IdxNumber 1) in
  cellStatus (ingestRecord ∅ rec) "s1" iso slot = PRESENT
  ∧ w_date (toWire (mkChange "s1" iso slot PRESENT "" "")) ≠ "05/03/2025".
Proof.
  split; [by vm_compute |].
  vm_compute. intros H. discriminate H.
Qed.

Lemma transform_snoc (before : list RawRecord) (rec : RawRecord) :
  transformAttendanceFromApi (before ++ [rec])
  = ingestRecord (transformAttendanceFromApi before) rec.
Proof. unfold transformAttendanceFromApi. by rewrite foldl_app. Qed.

(** C10, as the code has it: in a run of plain records, a raw record
    whose date normalises to a non-empty string and whose lesson index does
    not read as an integer from 1 to 20 is kept; its status is written to
    slot 0 of its student and date, the slot is still there at the end of
    the ingest, and no record of the run lands outside slots 0 to 19. *)
Theorem unreadable_index_lands_in_slot_zero (before after : list RawRecord)
    (rec : RawRecord) :
  forallb plainRecord (before ++ rec :: after) = true ->
  (forall k, parseIndex (r_lessonIndex rec) = Some k -> ¬ (1 <= k <= 20)%Z) ->
  isEmptyString (toIsoDate (jsOr (r_date rec) "")) = false ->
  let iso := toIsoDate (jsOr (r_date rec) "") in
  slotOf (r_lessonIndex rec) = 0
  ∧ cellStatus (transformAttendanceFromApi (before ++ [rec]))
      (r_studentId rec) iso 0 = r_status rec
  ∧ slotExists (transformAttendanceFromApi (before ++ rec :: after))
      (r_studentId rec) iso 0
  ∧ (forall r, In r (before ++ rec :: after) -> slotOf (r_lessonIndex r) <= 19).
Proof.
  intros _ Hbad Hdate iso.
  assert (slotOf (r_lessonIndex rec) = 0) as Hslot.
  { unfold slotOf. by rewrite rawIdxOf_clamped. }
  assert (forall att : ClassAttendance,
            cellStatus (ingestRecord att rec) (r_studentId rec) iso 0 = r_status rec)
    as Hcell.
  { intros att. rewrite <- Hslot. by apply ingestRecord_cell. }
  split; [done |]. split; [| split].
  - rewrite transform_snoc. apply Hcell.
  - unfold transformAttendanceFromApi.
    rewrite foldl_app. simpl. apply ingest_run_keeps_slots.
    unfold slotExists, iso. rewrite ingestRecord_stores by done.
    eexists. split; [done |].
    rewrite length_insert, Hslot. apply padStatuses_length.
  - intros r _. apply slotOf_bound.
Qed.

(** A record with lesson index 25 on 05-03-2025. *)
Lemma unreadable_index_lands_in_slot_zero_witness :
  let rec := mkRaw "s1" (Some "05-03-2025") (IdxNumber 25) ABSENT in
  cellStatus (transformAttendanceFromApi [rec]) "s1" "2025-03-05" 0 = ABSENT.
Proof.
  intros rec.
  destruct (unreadable_index_lands_in_slot_zero [] [] rec) as (_ & Hrun & _).
  - vm_compute. reflexivity.
  - intros k [= <-]. lia.
  - reflexivity.
  - exact Hrun.
Defined.

(** C10 fails as stated: a record whose lesson index is out of range and
    whose date is empty is dropped. *)
Lemma unreadable_index_with_empty_date_is_dropped :
  let rec := mkRaw "s1" (Some "") (IdxNumber 25) ABSENT in
  (forall k, parseIndex (r_lessonIndex rec) = Some k -> ¬ (1 <= k <= 20)%Z)
  ∧ transformAttendanceFromApi [rec] = ∅
  ∧ forall sid dateStr i, ¬ slotExists (transformAttendanceFromApi [rec]) sid dateStr i.
Proof.
  split; [| split].
  - intros k [= <-]. lia.
  - reflexivity.
  - intros sid dateStr i (arr & Harr & _).
    change (transformAttendanceFromApi _) with (∅ : ClassAttendance) in Harr.
    by rewrite lookup_empty in Harr.
Qed.

(** ** Configuration lookups *)

Lemma jsOr_resolve {V : Type} (m : gmap string V) (classId dateStr : string) (dflt : V) :
  jsOr (m !! configKey classId dateStr) (jsOr (m !! dateStr) dflt)
  = resolve m classId dateStr dflt.
Proof. unfold resolve. by destruct (m !! configKey classId dateStr), (m !! dateStr). Qed.

Lemma resolve_composite {V : Type} (m : gmap string V) (classId dateStr : string)
    (dflt v : V) :
  m !! configKey classId dateStr = Some v -> resolve m classId dateStr dflt = v.
Proof. intros H. unfold resolve. by rewrite H. Qed.

Lemma diaryDay_listed (cfg : LessonConfig) (classId dateStr : string) (v : list nat) :
  dailyLessonConfig cfg !! configKey classId dateStr = Some v ->
  v ≠ [] ->
  diaryDay cfg classId dateStr
  = Some (mkDay dateStr
            (map (fun idx =>
                    mkLesson idx
                      (jsOrStr (resolve (lessonSubjects cfg) classId dateStr ∅ !! idx)
                               unspecified)
                      (jsOrStr (resolve (lessonTopics cfg) classId dateStr ∅ !! idx) ""))
                 v)).
Proof.
  intros Hv Hne. unfold diaryDay, diary_activeIndices. rewrite Hv.
  destruct v as [| i v]; [done |].
  unfold diary_daySubjects, diary_dayTopics. by rewrite !jsOr_resolve.
Qed.

(** C1, as the code has it: the subjects and the topics of a class and a
    date are resolved by the toggle handler, the grid, the reports, the
    student detail and the diary with the composite key first, the bare
    date second and the empty map third; the active lessons are resolved
    that way, with [0] third, by the toggle handler and the grid; the diary
    takes the active lessons of a day from the composite key and lists the
    day when that list is not empty, with subjects and topics resolved as
    everywhere else, and lists nothing for a day that has no configuration
    or an empty list.  In every lookup a value under the composite key is
    the one used, whatever the bare date key holds. *)
Theorem config_lookups_resolve (cfg : LessonConfig) (classId dateStr : string) :
  (toggle_activeLessons cfg classId dateStr
     = resolve (dailyLessonConfig cfg) classId dateStr [0]
   ∧ grid_activeIndices cfg classId dateStr
     = resolve (dailyLessonConfig cfg) classId dateStr [0])
  ∧ (toggle_subjectsMap cfg classId dateStr
       = resolve (lessonSubjects cfg) classId dateStr ∅
     ∧ grid_subjects cfg classId dateStr
       = resolve (lessonSubjects cfg) classId dateStr ∅
     ∧ reports_daySubjects (lessonSubjects cfg) classId dateStr
       = resolve (lessonSubjects cfg) classId dateStr ∅
     ∧ detail_daySubjects (lessonSubjects cfg) classId dateStr
       = resolve (lessonSubjects cfg) classId dateStr ∅
     ∧ diary_daySubjects cfg classId dateStr
       = resolve (lessonSubjects cfg) classId dateStr ∅)
  ∧ (toggle_topicsMap cfg classId dateStr
       = resolve (lessonTopics cfg) classId dateStr ∅
     ∧ grid_topics cfg classId dateStr
       = resolve (lessonTopics cfg) classId dateStr ∅
     ∧ diary_dayTopics cfg classId dateStr
       = resolve (lessonTopics cfg) classId dateStr ∅)
  ∧ (forall v,
       dailyLessonConfig cfg !! configKey classId dateStr = Some v ->
       resolve (dailyLessonConfig cfg) classId dateStr [0] = v
       ∧ (v ≠ [] ->
          diary_activeIndices cfg classId dateStr = Some v
          ∧ diaryDay cfg classId dateStr
            = Some (mkDay dateStr
                      (map (fun idx =>
                              mkLesson idx
                                (jsOrStr
                                   (resolve (lessonSubjects cfg) classId dateStr ∅ !! idx)
                                   unspecified)
                                (jsOrStr
                                   (resolve (lessonTopics cfg) classId dateStr ∅ !! idx)
                                   ""))
                           v)))
       ∧ (v = [] -> diaryDay cfg classId dateStr = None))
  ∧ (forall v,
       lessonSubjects cfg !! configKey classId dateStr = Some v ->
       resolve (lessonSubjects cfg) classId dateStr ∅ = v)
  ∧ (forall v,
       lessonTopics cfg !! configKey classId dateStr = Some v ->
       resolve (lessonTopics cfg) classId dateStr ∅ = v)
  ∧ (dailyLessonConfig cfg !! configKey classId dateStr = None ->
     dailyLessonConfig cfg !! dateStr = None ->
     diaryDay cfg classId dateStr = None).
Proof.
  split; [| split; [| split; [| split; [| split; [| split]]]]].
  - split; apply jsOr_resolve.
  - repeat split; apply jsOr_resolve.
  - repeat split; apply jsOr_resolve.
  - intros v Hv. split; [by apply resolve_composite |]. split.
    + intros Hne. split; [| by apply diaryDay_listed].
      unfold diary_activeIndices. rewrite Hv. by destruct v.
    + intros ->. unfold diaryDay, diary_activeIndices. by rewrite Hv.
  - intros v. apply resolve_composite.
  - intros v. apply resolve_composite.
  - intros Hnone _. unfold diaryDay, diary_activeIndices. by rewrite Hnone.
Qed.

(** A day configured under both keys, with different lessons. *)
Lemma config_lookups_resolve_witness :
  let cfg :=
    mkConfig {[ configKey "c1" "2025-03-05" := [0; 2]; "2025-03-05" := [0; 1; 2] ]}
             ∅ ∅ in
  resolve (dailyLessonConfig cfg) "c1" "2025-03-05" [0] = [0; 2]
  ∧ diary_activeIndices cfg "c1" "2025-03-05" = Some [0; 2].
Proof.
  intros cfg.
  destruct (config_lookups_resolve cfg "c1" "2025-03-05") as (_ & _ & _ & Hcomp & _).
  destruct (Hcomp [0; 2]) as (Hres & Hdiary & _); [reflexivity |].
  split; [exact Hres |].
  destruct Hdiary as [Hactive _]; [discriminate | exact Hactive].
Defined.

(** C1 fails as stated: for a day without configuration the grid resolves
    the default [0], and the diary lists nothing. *)
Lemma diary_does_not_default_to_first_lesson :
  let cfg := mkConfig ∅ ∅ ∅ in
  resolve (dailyLessonConfig cfg) "c1" "2025-03-05" [0] = [0]
  ∧ grid_activeIndices cfg "c1" "2025-03-05" = [0]
  ∧ diary_activeIndices cfg "c1" "2025-03-05" = None
  ∧ rawMonthData cfg "c1" ["2025-03-05"] = [].
Proof. repeat split. Qed.

(** ** Delete handlers *)

Lemma delete_all_lookup (ids : list string) (att : ClassAttendance) (sid : string) :
  foldl (fun newAtt id => delete id newAtt) att ids !! sid
  = if bool_decide (sid ∈ ids) then None else att !! sid.
Proof.
  revert att. induction ids as [| id ids IH]; intros att; simpl; [done |].
  rewrite IH.
  destruct (decide (sid = id)) as [-> | Hne].
  - rewrite lookup_delete_eq.
    rewrite (bool_decide_eq_true_2 (id ∈ id :: ids)) by left.
    by case_bool_decide.
  - rewrite lookup_delete_ne by done.
    destruct (bool_decide (sid ∈ ids)) eqn:E.
    + apply bool_decide_eq_true in E.
      by rewrite (bool_decide_eq_true_2 (sid ∈ id :: ids)) by by right.
    + apply bool_decide_eq_false in E.
      rewrite (bool_decide_eq_false_2 (sid ∈ id :: ids)); [done |].
      by intros [?|?]%elem_of_cons.
Qed.

Section ReloadFacts.

Variable nameLe : string -> string -> bool.

(** C9, as the code has it: both delete handlers apply the local removal
    first.  When the remote delete of a student fails, the state is put
    back exactly as it was before the delete.  When the remote delete of a
    class fails, the handler reloads: the state becomes what [loadData]
    makes of the state after the removal, so classes, students and
    attendance are those of the payload when one is loaded, and stay as the
    removal left them when nothing can be loaded. *)
Theorem delete_is_optimistic_and_undone_on_failure :
  (forall isOnline remote id st,
     fst (handleDeleteStudent isOnline remote id st) = removeStudentLocally id st)
  ∧ (forall id st,
       let removed := removeStudentLocally id st in
       (forall s, s ∈ allStudents removed <-> s ∈ allStudents st ∧ st_id s ≠ id)
       ∧ app_attendance removed !! id = None
       ∧ (forall sid, sid ≠ id ->
            app_attendance removed !! sid = app_attendance st !! sid))
  ∧ (forall id st, snd (handleDeleteStudent true RemoteError id st) = st)
  ∧ (forall isOnline remote reload st cls,
       classToDelete st = Some cls ->
       fst (executeDeleteClass nameLe isOnline remote reload st)
       = removeClassLocally (cl_id cls) st)
  ∧ (forall id st,
       let removed := removeClassLocally id st in
       (forall c, c ∈ classes removed <-> c ∈ classes st ∧ cl_id c ≠ id)
       ∧ (forall s, s ∈ allStudents removed <-> s ∈ allStudents st ∧ st_classId s ≠ id)
       ∧ (forall s, s ∈ allStudents st -> st_classId s = id ->
            app_attendance removed !! st_id s = None)
       ∧ (forall sid,
            (forall s, s ∈ allStudents st -> st_id s = sid -> st_classId s ≠ id) ->
            app_attendance removed !! sid = app_attendance st !! sid))
  ∧ (forall reload st cls,
       classToDelete st = Some cls ->
       snd (executeDeleteClass nameLe true RemoteError reload st)
       = loadData nameLe (selectedClassId st) reload
           (removeClassLocally (cl_id cls) st))
  ∧ (forall st cls cs ss raw,
       classToDelete st = Some cls ->
       let final :=
         snd (executeDeleteClass nameLe true RemoteError
                (Loaded (mkData (Some cs) (Some ss) (Some raw))) st) in
       classes final = sortClasses nameLe cs
       ∧ allStudents final = ss
       ∧ app_attendance final = transformAttendanceFromApi raw)
  ∧ (forall st cls reload,
       classToDelete st = Some cls ->
       reload = NoCache ∨ reload = CacheCorrupted ->
       let removed := removeClassLocally (cl_id cls) st in
       let final := snd (executeDeleteClass nameLe true RemoteError reload st) in
       classes final = classes removed
       ∧ allStudents final = allStudents removed
       ∧ app_attendance final = app_attendance removed).
Proof.
  split; [| split; [| split; [| split; [| split; [| split; [| split]]]]]].
  - intros [] [] id st; reflexivity.
  - intros id st removed. unfold removed, removeStudentLocally. simpl.
    split; [| split].
    + intros s. rewrite !list_elem_of_In, List.filter_In, negb_true_iff.
      rewrite bool_decide_eq_false. tauto.
    + apply lookup_delete_eq.
    + intros sid Hne. by apply lookup_delete_ne.
  - intros id st. by destruct st.
  - intros [] [] reload st cls Hcls; unfold executeDeleteClass; by rewrite Hcls.
  - intros id st removed. unfold removed, removeClassLocally. simpl.
    split; [| split; [| split]].
    + intros c. rewrite !list_elem_of_In, List.filter_In, negb_true_iff.
      rewrite bool_decide_eq_false. tauto.
    + intros s. rewrite !list_elem_of_In, List.filter_In, negb_true_iff.
      rewrite bool_decide_eq_false. tauto.
    + intros s Hs Hcls. rewrite delete_all_lookup.
      rewrite bool_decide_eq_true_2; [done |].
      apply list_elem_of_In, in_map_iff. exists s. split; [done |].
      apply List.filter_In. split; [by apply list_elem_of_In |].
      by apply bool_decide_eq_true.
    + intros sid Hsid. rewrite delete_all_lookup.
      rewrite bool_decide_eq_false_2; [done |].
      intros Hin. apply list_elem_of_In, in_map_iff in Hin as (s & Hid & Hin).
      apply List.filter_In in Hin as [Hin Hcls].
      apply bool_decide_eq_true in Hcls.
      by apply (Hsid s); [apply list_elem_of_In | |].
  - intros reload st cls Hcls. unfold executeDeleteClass. by rewrite Hcls.
  - intros st cls cs ss raw Hcls final. unfold final, executeDeleteClass.
    rewrite Hcls. simpl. unfold initialSelection. simpl.
    destruct cs as [| c cs]; [done |].
    destruct (isEmptyString (selectedClassId st)); [| done].
    by destruct (insertClass nameLe c (sortClasses nameLe cs)).
  - intros st cls reload Hcls Hreload removed final.
    unfold final, executeDeleteClass. rewrite Hcls.
    by destruct Hreload as [-> | ->].
Qed.

End ReloadFacts.

(** The delete of a student, online, with a remote failure. *)
Lemma delete_is_optimistic_and_undone_on_failure_witness :
  let st :=
    mkApp [mkClass "c1" "1A"] [mkStudent "s1" "Ana" ACTIVE "c1"]
          {[ "s1" := {[ "2025-03-05" := [PRESENT; ABSENT] ]} ]}
          "c1" CLASS (Some (mkClass "c1" "1A")) false in
  snd (handleDeleteStudent true RemoteError "s1" st) = st
  ∧ app_attendance (snd (executeDeleteClass (fun _ _ => true) true RemoteError
                           (Loaded (mkData (Some [mkClass "c1" "1A"])
                                      (Some [mkStudent "s1" "Ana" ACTIVE "c1"])
                                      (Some []))) st))
    = transformAttendanceFromApi [].
Proof.
  intros st.
  destruct (delete_is_optimistic_and_undone_on_failure (fun _ _ => true))
    as (_ & _ & Hundo & _ & _ & _ & Hpayload & _).
  split; [apply Hundo |].
  destruct (Hpayload st (mkClass "c1" "1A") [mkClass "c1" "1A"]
              [mkStudent "s1" "Ana" ACTIVE "c1"] []) as (_ & _ & Hatt);
    [reflexivity | exact Hatt].
Defined.

(** C9 fails as stated: after a failed remote delete of a class whose
    student has attendance that is not yet on the remote source, the
    reload brings back the class and the student of the remote payload but
    not the attendance, the selection or the view of before the delete. *)
Lemma failed_class_delete_is_not_rolled_back :
  let st :=
    mkApp [mkClass "c1" "1A"] [mkStudent "s1" "Ana" ACTIVE "c1"]
          {[ "s1" := {[ "2025-03-05" := [PRESENT; ABSENT] ]} ]}
          "c1" CLASS (Some (mkClass "c1" "1A")) false in
  let remoteData :=
    mkData (Some [mkClass "c1" "1A"]) (Some [mkStudent "s1" "Ana" ACTIVE "c1"])
           (Some []) in
  let final :=
    snd (executeDeleteClass (fun _ _ => true) true RemoteError (Loaded remoteData) st) in
  app_attendance st !! "s1" = Some {[ "2025-03-05" := [PRESENT; ABSENT] ]}
  ∧ app_attendance final !! "s1" = None
  ∧ selectedClassId final = ""
  ∧ viewMode final = DASHBOARD
  ∧ final ≠ st.
Proof.
  intros st remoteData final.
  split; [reflexivity |]. split; [reflexivity |].
  split; [reflexivity |]. split; [reflexivity |].
  intros Heq. apply (f_equal viewMode) in Heq. discriminate Heq.
Qed.

(** * Further properties *)

(** ** One toggle on the rendered store *)

Lemma handleToggleStatus_cell cfg cls (st : Store) sid dateStr idx forced :
  cellStatus
    (attendance (handleToggleStatus cfg cls (attendance st) st sid dateStr idx forced))
    sid dateStr idx
  = nextStatusOf forced
      (currentDailyStatuses cfg cls (attendance st) sid dateStr idx) idx.
Proof.
  destruct (handleToggleStatus_cases cfg cls (attendance st) st sid dateStr idx forced)
    as [[Heq ->] | [_ ->]]; [done |].
  simpl attendance. rewrite cellStatus_write_same.
  by rewrite list_lookup_insert_eq by apply currentDailyStatuses_length.
Qed.

Lemma handleToggleStatus_other_cells cfg cls (st : Store) sid dateStr idx forced
    sid' dateStr' i :
  (sid', dateStr', i) ≠ (sid, dateStr, idx) ->
  cellStatus
    (attendance (handleToggleStatus cfg cls (attendance st) st sid dateStr idx forced))
    sid' dateStr' i
  = cellStatus (attendance st) sid' dateStr' i.
Proof.
  intros Hne.
  destruct (handleToggleStatus_cases cfg cls (attendance st) st sid dateStr idx forced)
    as [[_ ->] | [_ ->]]; [done |].
  simpl attendance.
  destruct (decide ((sid', dateStr') = (sid, dateStr))) as [[= -> ->] | Hother].
  - rewrite cellStatus_write_same.
    rewrite list_lookup_insert_ne by congruence.
    apply currentDailyStatuses_default.
  - by apply cellStatus_write_other.
Qed.

(** X1: a toggle called on the rendered store sets the cell to the forced
    status, or to the next status of the cycle, and leaves the status of
    every other cell, of any student, date and slot, as it was. *)
Theorem toggle_writes_one_cell cfg cls (st : Store) sid dateStr idx forced :
  let st' := handleToggleStatus cfg cls (attendance st) st sid dateStr idx forced in
  cellStatus (attendance st') sid dateStr idx
  = match forced with
    | Some s => s
    | None => cycleStatus (cellStatus (attendance st) sid dateStr idx)
    end
  ∧ (forall sid' dateStr' i,
       (sid', dateStr', i) ≠ (sid, dateStr, idx) ->
       cellStatus (attendance st') sid' dateStr' i
       = cellStatus (attendance st) sid' dateStr' i).
Proof.
  intros st'. split.
  - unfold st'. rewrite handleToggleStatus_cell.
    destruct forced; [done |]. apply nextStatusOf_unforced.
  - intros sid' dateStr' i Hne. by apply handleToggleStatus_other_cells.
Qed.

(** A cell of another student. *)
Lemma toggle_writes_one_cell_witness :
  let st := mkStore {[ "s2" := {[ "2025-03-05" := [ABSENT] ]} ]} [] in
  let st' := handleToggleStatus (mkConfig ∅ ∅ ∅) "c1" (attendance st) st
               "s1" "2025-03-05" 0 None in
  cellStatus (attendance st') "s2" "2025-03-05" 0 = ABSENT.
Proof.
  intros st st'.
  destruct (toggle_writes_one_cell (mkConfig ∅ ∅ ∅) "c1" st "s1" "2025-03-05" 0 None)
    as [_ Hframe].
  unfold st'. rewrite (Hframe "s2" "2025-03-05" 0); [reflexivity | discriminate].
Defined.

Lemma writeStatuses_stored (prev : ClassAttendance) sid dateStr updated :
  writeStatuses prev sid dateStr updated !! sid
    ≫= (fun studentRecord => studentRecord !! dateStr)
  = Some updated.
Proof.
  unfold writeStatuses. rewrite lookup_insert_eq. simpl. by rewrite lookup_insert_eq.
Qed.

Lemma writeStatuses_other (prev : ClassAttendance) sid dateStr updated sid' dateStr' :
  (sid', dateStr') ≠ (sid, dateStr) ->
  writeStatuses prev sid dateStr updated !! sid'
    ≫= (fun studentRecord => studentRecord !! dateStr')
  = prev !! sid' ≫= (fun studentRecord => studentRecord !! dateStr').
Proof.
  intros Hne. unfold writeStatuses.
  destruct (decide (sid' = sid)) as [-> | Hs].
  - rewrite lookup_insert_eq. simpl.
    rewrite lookup_insert_ne by congruence. by destruct (prev !! sid).
  - by rewrite lookup_insert_ne.
Qed.

Lemma maxIndexOf_bounds (activeLessons : list nat) (idx a : nat) :
  a ∈ activeLessons -> a <= maxIndexOf activeLessons idx.
Proof.
  unfold maxIndexOf. induction activeLessons as [| x l IH]; simpl.
  - by intros ?%not_elem_of_nil.
  - intros [-> | Hin]%elem_of_cons; [lia |]. specialize (IH Hin). lia.
Qed.

Lemma currentDailyStatuses_covers_stored cfg cls (att : ClassAttendance) sid dateStr idx arr :
  att !! sid ≫= (fun studentRecord => studentRecord !! dateStr) = Some arr ->
  length arr <= length (currentDailyStatuses cfg cls att sid dateStr idx).
Proof.
  intros Harr. unfold currentDailyStatuses. cbv zeta.
  assert (jsOr (att !! sid) ∅ !! dateStr = Some arr) as ->.
  { destruct (att !! sid); simpl in *; [done | discriminate]. }
  unfold padStatuses. rewrite length_app. lia.
Qed.

Lemma currentDailyStatuses_covers_active cfg cls (att : ClassAttendance) sid dateStr idx a :
  att !! sid ≫= (fun studentRecord => studentRecord !! dateStr) = None ->
  a ∈ toggle_activeLessons cfg cls dateStr ->
  a < length (currentDailyStatuses cfg cls att sid dateStr idx).
Proof.
  intros Hnone Ha. unfold currentDailyStatuses. cbv zeta.
  assert (jsOr (att !! sid) ∅ !! dateStr = None) as ->.
  { destruct (att !! sid); simpl in *; [done | apply lookup_empty]. }
  unfold padStatuses. rewrite length_app, length_replicate.
  pose proof (maxIndexOf_bounds _ idx a Ha). lia.
Qed.

(** X2: a click on a cell never shortens a stored array: every slot that
    existed still exists, the slot that was clicked exists afterwards, and
    when the date had no array yet the new array reaches every active
    lesson of the day. *)
Theorem toggle_grows_arrays cfg cls (st : Store) sid dateStr idx :
  let st' := toggle cfg cls st sid dateStr idx in
  (forall sid' dateStr' i,
     slotExists (attendance st) sid' dateStr' i ->
     slotExists (attendance st') sid' dateStr' i)
  ∧ slotExists (attendance st') sid dateStr idx
  ∧ (attendance st !! sid ≫= (fun studentRecord => studentRecord !! dateStr) = None ->
     forall a, a ∈ toggle_activeLessons cfg cls dateStr ->
               slotExists (attendance st') sid dateStr a).
Proof.
  intros st'. unfold st', toggle.
  destruct (handleToggleStatus_cases cfg cls (attendance st) st sid dateStr idx None)
    as [[Heq _] | [_ ->]].
  { rewrite nextStatusOf_unforced in Heq. by apply cycleStatus_moves in Heq. }
  simpl attendance. unfold slotExists. split; [| split].
  - intros sid' dateStr' i (arr & Harr & Hlen).
    destruct (decide ((sid', dateStr') = (sid, dateStr))) as [[= -> ->] | Hother].
    + rewrite writeStatuses_stored. eexists. split; [done |].
      rewrite length_insert.
      pose proof (currentDailyStatuses_covers_stored cfg cls _ _ _ idx _ Harr). lia.
    + rewrite writeStatuses_other by done. eauto.
  - rewrite writeStatuses_stored. eexists. split; [done |].
    rewrite length_insert. apply currentDailyStatuses_length.
  - intros Hnone a Ha. rewrite writeStatuses_stored. eexists. split; [done |].
    rewrite length_insert. by apply currentDailyStatuses_covers_active.
Qed.

(** A first click on slot 0 of a day with lessons 0, 1 and 3. *)
Lemma toggle_grows_arrays_witness :
  let cfg := mkConfig {[ configKey "c1" "2025-03-05" := [0; 1; 3] ]} ∅ ∅ in
  let st' := toggle cfg "c1" (mkStore ∅ []) "s1" "2025-03-05" 0 in
  slotExists (attendance st') "s1" "2025-03-05" 3.
Proof.
  intros cfg st'.
  destruct (toggle_grows_arrays cfg "c1" (mkStore ∅ []) "s1" "2025-03-05" 0)
    as (_ & _ & Hfresh).
  apply Hfresh; [reflexivity |].
  apply list_elem_of_In. vm_compute. auto.
Defined.

(** ** The queue and the store *)

Lemma enqueue_In (prev : list PendingChange) (change x : PendingChange) :
  In x (enqueue prev change) ->
  x = change
  ∨ (In x prev
     ∧ sameCell (studentId change) (date change) (lessonIndex change) x = false).
Proof.
  unfold enqueue. intros [Hin | Hin]%in_app_or.
  - apply List.filter_In in Hin as [Hin Hneg]. right. split; [done |].
    by apply negb_true_iff.
  - destruct Hin as [<- | []]. by left.
Qed.

Lemma sameCell_false sid dateStr idx c :
  sameCell sid dateStr idx c = false ->
  (studentId c, date c, lessonIndex c) ≠ (sid, dateStr, idx).
Proof.
  intros Hf [= H1 H2 H3].
  assert (sameCell sid dateStr idx c = true) by by apply sameCell_true.
  congruence.
Qed.

(** One forced or unforced toggle that closes over [att], on a state whose
    cells differ from [att] at slot [idx] of [dateStr] only. *)
Lemma handleToggleStatus_queueAgrees cfg cls (att : ClassAttendance) view st
    sid dateStr idx forced :
  bulkCellsInv att view dateStr idx st ->
  queueAgrees st ->
  queueAgrees (handleToggleStatus cfg cls att st sid dateStr idx forced).
Proof.
  intros Hcells Hq.
  destruct (handleToggleStatus_cases cfg cls att st sid dateStr idx forced)
    as [[_ ->] | [_ ->]]; [done |].
  intros x Hx. simpl in Hx. simpl attendance.
  apply enqueue_In in Hx as [-> | [Hx Hdiff]]; simpl in *.
  - rewrite cellStatus_write_same.
    by rewrite list_lookup_insert_eq by apply currentDailyStatuses_length.
  - apply sameCell_false in Hdiff. rewrite (Hq x Hx).
    destruct (decide ((studentId x, date x) = (sid, dateStr))) as [[= Hs Hd] | Hother].
    + rewrite Hs, Hd in *. rewrite cellStatus_write_same.
      rewrite list_lookup_insert_ne by congruence.
      rewrite currentDailyStatuses_default.
      destruct (decide (cellStatus (attendance st) sid dateStr (lessonIndex x)
                        = cellStatus att sid dateStr (lessonIndex x))) as [| Hne];
        [done |].
      destruct (Hcells _ _ _ Hne) as (_ & Hi & _). congruence.
    + by rewrite cellStatus_write_other.
Qed.

Lemma bulk_loop_queueAgrees cfg cls (att : ClassAttendance) view dateStr idx forced
    (students : list Student) :
  forall st,
    (forall s, s ∈ students -> s ∈ view) ->
    bulkCellsInv att view dateStr idx st ->
    queueAgrees st ->
    queueAgrees (foldl (bulkStep cfg cls att dateStr idx forced) st students).
Proof.
  induction students as [| s rest IH]; intros st Hsub Hcells Hq; simpl; [done |].
  apply IH.
  - intros x Hx. apply Hsub. by right.
  - apply bulkStep_cellsInv; [apply Hsub; by left | done].
  - unfold bulkStep. repeat case_decide; try done.
    by apply (handleToggleStatus_queueAgrees cfg cls att view).
Qed.

(** X3: the queue and the store stay in step.  When every pending change
    carries the status that the store shows for its cell, this still holds
    after a toggle of the rendered store, forced or not, and after a bulk
    update. *)
Theorem queue_agrees_with_store cfg cls (st : Store) :
  queueAgrees st ->
  (forall sid dateStr idx forced,
     queueAgrees (handleToggleStatus cfg cls (attendance st) st sid dateStr idx forced))
  ∧ (forall classStudents dateStr idx forced,
       queueAgrees (handleBulkStatusUpdate cfg cls classStudents st dateStr idx forced)).
Proof.
  intros Hq. split.
  - intros sid dateStr idx forced.
    apply (handleToggleStatus_queueAgrees cfg cls (attendance st) [] st); [| done].
    intros sid' d i Hne. by destruct Hne.
  - intros classStudents dateStr idx forced. unfold handleBulkStatusUpdate.
    apply (bulk_loop_queueAgrees cfg cls (attendance st) classStudents);
      first [done | intros sid' d i Hne; by destruct Hne].
Qed.

(** Two clicks on the same cell of an empty store. *)
Lemma queue_agrees_with_store_witness :
  let cfg := mkConfig ∅ ∅ ∅ in
  let st1 := toggle cfg "c1" (mkStore ∅ []) "s1" "2025-03-05" 0 in
  queueAgrees (handleToggleStatus cfg "c1" (attendance st1) st1 "s1" "2025-03-05" 0 None).
Proof.
  intros cfg st1.
  assert (queueAgrees st1) as Hq1.
  { destruct (queue_agrees_with_store cfg "c1" (mkStore ∅ [])) as [Hclick _].
    - intros c [].
    - exact (Hclick "s1" "2025-03-05" 0 None). }
  destruct (queue_agrees_with_store cfg "c1" st1 Hq1) as [Hclick _].
  exact (Hclick "s1" "2025-03-05" 0 None).
Defined.

Lemma isPending_enqueue_other (prev : list PendingChange) (change : PendingChange)
    sid dateStr idx :
  (sid, dateStr, idx) ≠ cellKey change ->
  isPending (enqueue prev change) sid dateStr idx = isPending prev sid dateStr idx.
Proof.
  intros Hne. unfold isPending, enqueue. rewrite existsb_app. simpl.
  assert (sameCell sid dateStr idx change = false) as ->.
  { destruct (sameCell sid dateStr idx change) eqn:E; [| done].
    apply sameCell_true in E as (? & ? & ?). destruct Hne. unfold cellKey. congruence. }
  rewrite !orb_false_r.
  induction prev as [| x prev IH]; simpl; [done |].
  destruct (sameCell (studentId change) (date change) (lessonIndex change) x) eqn:E;
    simpl; rewrite IH; [| done].
  assert (sameCell sid dateStr idx x = false) as ->; [| done].
  destruct (sameCell sid dateStr idx x) eqn:E'; [| done].
  apply sameCell_true in E as (? & ? & ?). apply sameCell_true in E' as (? & ? & ?).
  destruct Hne. unfold cellKey. congruence.
Qed.

(** X4: the grid's marker of unsaved cells.  After a click the cell is
    pending and the marker of every other cell is as before; after a flush
    that succeeds no cell is pending; after a flush that fails, or offline,
    the markers are as before. *)
Theorem pending_marker cfg cls (st : Store) sid dateStr idx :
  let st' := toggle cfg cls st sid dateStr idx in
  isPending (pendingChanges st') sid dateStr idx = true
  ∧ (forall sid' dateStr' i,
       (sid', dateStr', i) ≠ (sid, dateStr, idx) ->
       isPending (pendingChanges st') sid' dateStr' i
       = isPending (pendingChanges st) sid' dateStr' i)
  ∧ (forall fetchGas sid' dateStr' i,
       fetchGas (map toWire (pendingChanges st')) = RemoteOk ->
       isPending (fst (handleSaveChanges true fetchGas (pendingChanges st')))
         sid' dateStr' i = false)
  ∧ (forall isOnline fetchGas,
       isOnline = false ∨ fetchGas (map toWire (pendingChanges st')) = RemoteError ->
       fst (handleSaveChanges isOnline fetchGas (pendingChanges st'))
       = pendingChanges st').
Proof.
  intros st'. unfold st', toggle.
  destruct (handleToggleStatus_cases cfg cls (attendance st) st sid dateStr idx None)
    as [[Heq _] | [_ ->]].
  { rewrite nextStatusOf_unforced in Heq. by apply cycleStatus_moves in Heq. }
  simpl pendingChanges. split; [| split; [| split]].
  - unfold isPending, enqueue. rewrite existsb_app.
    apply orb_true_iff. right. cbn [existsb]. rewrite orb_false_r.
    by apply sameCell_true.
  - intros sid' dateStr' i Hne. by apply isPending_enqueue_other.
  - intros fetchGas sid' dateStr' i Hok.
    unfold handleSaveChanges, saveAttendanceBatch.
    case_decide; [| rewrite Hok; done].
    by destruct (enqueue _ _).
  - intros isOnline fetchGas Hfail.
    unfold handleSaveChanges, saveAttendanceBatch.
    case_decide; [done |].
    destruct Hfail as [-> | Herr]; [done |].
    destruct isOnline; [| done]. simpl. by rewrite Herr.
Qed.

(** A click, then a flush that succeeds. *)
Lemma pending_marker_witness :
  let st' := toggle (mkConfig ∅ ∅ ∅) "c1" (mkStore ∅ []) "s1" "2025-03-05" 0 in
  isPending (fst (handleSaveChanges true (fun _ => RemoteOk) (pendingChanges st')))
    "s1" "2025-03-05" 0 = false.
Proof.
  intros st'.
  destruct (pending_marker (mkConfig ∅ ∅ ∅) "c1" (mkStore ∅ []) "s1" "2025-03-05" 0)
    as (_ & _ & Hok & _).
  by apply Hok.
Defined.

(** ** Day configuration *)

Lemma append_cons (c : ascii) (s t : string) :
  (String c s ++ t)%string = String c (s ++ t)%string.
Proof. reflexivity. Qed.

Lemma append_nil (t : string) : ("" ++ t)%string = t.
Proof. reflexivity. Qed.

Lemma length_append (s t : string) :
  String.length (s ++ t)%string = String.length s + String.length t.
Proof.
  induction s as [| c s IH]; [done |].
  rewrite append_cons. simpl. by rewrite IH.
Qed.

(** Two concatenations with tails of the same length agree part by part. *)
Lemma append_eq_same_tail (s1 s2 t1 t2 : string) :
  String.length t1 = String.length t2 ->
  (s1 ++ t1)%string = (s2 ++ t2)%string ->
  s1 = s2 ∧ t1 = t2.
Proof.
  intros Hlen. revert s2.
  induction s1 as [| c s1 IH]; intros s2 Heq.
  - destruct s2 as [| c2 s2]; [done |].
    rewrite append_nil, append_cons in Heq.
    apply (f_equal String.length) in Heq. simpl in Heq.
    rewrite length_append in Heq. lia.
  - destruct s2 as [| c2 s2].
    + rewrite append_nil, append_cons in Heq.
      apply (f_equal String.length) in Heq. simpl in Heq.
      rewrite length_append in Heq. lia.
    + rewrite !append_cons in Heq. injection Heq as -> Heq.
      destruct (IH s2 Heq) as [-> ->]. done.
Qed.

(** Composite keys of dates of the same length identify the class and the
    date. *)
Lemma configKey_inj (cls cls' d d' : string) :
  String.length d' = String.length d ->
  configKey cls' d' = configKey cls d ->
  cls' = cls ∧ d' = d.
Proof.
  intros Hlen Heq. unfold configKey in Heq.
  destruct (append_eq_same_tail cls' cls ("_" ++ d')%string ("_" ++ d)%string)
    as [-> Htail]; [| done |].
  - rewrite !append_cons, !append_nil. simpl. by rewrite Hlen.
  - rewrite !append_cons, !append_nil in Htail. by injection Htail as ->.
Qed.

Lemma configKey_not_date (cls d d' : string) :
  String.length d' = String.length d -> d' ≠ configKey cls d.
Proof.
  intros Hlen Heq. apply (f_equal String.length) in Heq.
  unfold configKey in Heq. rewrite length_append, append_cons, append_nil in Heq.
  simpl in Heq. lia.
Qed.

(** X5: after the configuration of a day is saved for the selected class,
    the grid resolves the saved lessons, subjects and topics for that class
    and date, and the diary lists the day with exactly the saved lessons
    when there is at least one; for any other class or date (dates having
    the length of the saved one, as all ISO dates do) the grid and the
    diary show what they showed before. *)
Theorem saved_day_config_is_resolved (cfg : LessonConfig) (cls d : string)
    (activeIndices : list nat) (subjects topics : gmap nat string) :
  let cfg' := handleUpdateLessonConfig cfg cls d activeIndices subjects topics in
  (grid_activeIndices cfg' cls d = activeIndices
   ∧ grid_subjects cfg' cls d = subjects
   ∧ grid_topics cfg' cls d = topics
   ∧ diary_activeIndices cfg' cls d
     = match activeIndices with [] => None | _ => Some activeIndices end)
  ∧ (forall cls' d',
       String.length d' = String.length d ->
       (cls', d') ≠ (cls, d) ->
       grid_activeIndices cfg' cls' d' = grid_activeIndices cfg cls' d'
       ∧ grid_subjects cfg' cls' d' = grid_subjects cfg cls' d'
       ∧ grid_topics cfg' cls' d' = grid_topics cfg cls' d'
       ∧ diaryDay cfg' cls' d' = diaryDay cfg cls' d').
Proof.
  intros cfg'. split.
  - unfold cfg', handleUpdateLessonConfig, grid_activeIndices, grid_subjects,
      grid_topics, diary_activeIndices. simpl.
    rewrite !lookup_insert_eq. simpl. by destruct activeIndices.
  - intros cls' d' Hlen Hne.
    assert (configKey cls d ≠ configKey cls' d') as Hkey.
    { intros Heq. symmetry in Heq.
      destruct (configKey_inj cls cls' d d' Hlen Heq) as [-> ->]. by destruct Hne. }
    assert (configKey cls d ≠ d') as Hbare.
    { intros Heq. by apply (configKey_not_date cls d d' Hlen). }
    unfold cfg', handleUpdateLessonConfig, grid_activeIndices, grid_subjects,
      grid_topics, diaryDay, diary_activeIndices, diary_daySubjects, diary_dayTopics.
    simpl. by rewrite !lookup_insert_ne by done.
Qed.

(** The day of another class keeps its lessons. *)
Lemma saved_day_config_is_resolved_witness :
  let cfg := mkConfig {[ configKey "c2" "2025-03-05" := [0; 1] ]} ∅ ∅ in
  let cfg' := handleUpdateLessonConfig cfg "c1" "2025-03-05" [0; 2] ∅ ∅ in
  grid_activeIndices cfg' "c2" "2025-03-05" = [0; 1].
Proof.
  intros cfg cfg'.
  destruct (saved_day_config_is_resolved cfg "c1" "2025-03-05" [0; 2] ∅ ∅)
    as [_ Hframe].
  destruct (Hframe "c2" "2025-03-05") as (Hactive & _); [reflexivity | discriminate |].
  unfold cfg'. rewrite Hactive. reflexivity.
Defined.

Lemma normalize_loop (entries : list (string * RawLessonCount)) :
  NoDup (entries.*1) ->
  forall (acc : gmap string (list nat)) (key : string),
    foldl normalizeStep acc entries !! key
    = match (list_to_map entries : gmap string RawLessonCount) !! key with
      | Some val =>
          match normalizedCount val with
          | Some l => Some l
          | None => acc !! key
          end
      | None => acc !! key
      end.
Proof.
  induction entries as [| [k val] entries IH]; intros Hnd acc key; simpl.
  - by rewrite lookup_empty.
  - simpl in Hnd. apply NoDup_cons in Hnd as [Hk Hnd].
    rewrite (IH Hnd).
    destruct (decide (k = key)) as [-> | Hne].
    + rewrite lookup_insert_eq.
      rewrite (not_elem_of_list_to_map_1 entries key Hk).
      unfold normalizeStep. simpl.
      destruct val; simpl; by rewrite ?lookup_insert_eq.
    + rewrite lookup_insert_ne by done.
      destruct (list_to_map entries !! key) as [v |]; simpl.
      * destruct (normalizedCount v); [done |].
        unfold normalizeStep. simpl. destruct val; by rewrite ?lookup_insert_ne.
      * unfold normalizeStep. simpl. destruct val; by rewrite ?lookup_insert_ne.
Qed.

Lemma normalizeLessonCounts_lookup (rawConfig : gmap string RawLessonCount) (key : string) :
  normalizeLessonCounts rawConfig !! key = rawConfig !! key ≫= normalizedCount.
Proof.
  unfold normalizeLessonCounts.
  rewrite normalize_loop by apply NoDup_fst_map_to_list.
  rewrite list_to_map_to_list, lookup_empty.
  destruct (rawConfig !! key) as [val |]; simpl; [| done].
  by destruct (normalizedCount val).
Qed.

(** X6: the lesson counts loaded from the remote configuration are
    normalised key by key: a number N becomes the slots 0 to N-1 (none for a
    number that is not positive), an array is kept as it is, any other
    value and any absent key leave no entry; so a date configured in the old
    way with the number N, and no entry for the class, shows N lessons in
    the grid. *)
Theorem lesson_counts_are_normalised (rawConfig : gmap string RawLessonCount) :
  (forall key n,
     rawConfig !! key = Some (CountNumber n) ->
     normalizeLessonCounts rawConfig !! key = Some (seq 0 (Z.to_nat n)))
  ∧ (forall key l,
       rawConfig !! key = Some (CountArray l) ->
       normalizeLessonCounts rawConfig !! key = Some l)
  ∧ (forall key,
       rawConfig !! key = Some CountOther ∨ rawConfig !! key = None ->
       normalizeLessonCounts rawConfig !! key = None)
  ∧ (forall subjects topics cls d n,
       rawConfig !! d = Some (CountNumber n) ->
       rawConfig !! configKey cls d = None ->
       let shown :=
         grid_activeIndices (mkConfig (normalizeLessonCounts rawConfig) subjects topics)
           cls d in
       length shown = Z.to_nat n
       ∧ forall i, i < Z.to_nat n -> shown !! i = Some i).
Proof.
  split; [| split; [| split]].
  - intros key n H. by rewrite normalizeLessonCounts_lookup, H.
  - intros key l H. by rewrite normalizeLessonCounts_lookup, H.
  - intros key [H | H]; by rewrite normalizeLessonCounts_lookup, H.
  - intros subjects topics cls d n Hd Hc shown. unfold shown, grid_activeIndices.
    simpl. rewrite !normalizeLessonCounts_lookup, Hd, Hc. simpl.
    split; [apply length_seq |].
    intros i Hi. by rewrite lookup_seq_lt.
Qed.

(** A date configured with the number 3. *)
Lemma lesson_counts_are_normalised_witness :
  normalizeLessonCounts {[ "2025-03-05" := CountNumber 3 ]} !! "2025-03-05"
  = Some [0; 1; 2].
Proof.
  destruct (lesson_counts_are_normalised {[ "2025-03-05" := CountNumber 3 ]})
    as (Hnum & _).
  exact (Hnum "2025-03-05" 3%Z eq_refl).
Defined.

(** ** Wire dates *)

Lemma dash_or_slash_is (c : ascii) :
  isDashOrSlash c = true -> c = "-"%char ∨ c = "/"%char.
Proof.
  unfold isDashOrSlash. intros [H | H]%orb_true_iff;
    apply bool_decide_eq_true in H; auto.
Qed.

Lemma trimEnd_cons (c : ascii) (s : string) :
  isSpace c = false -> trimEnd (String c s) = String c (trimEnd s).
Proof. intros H. cbn [trimEnd]. destruct (trimEnd s); by rewrite ?H. Qed.

(** Evaluation of the date conversions when the separators may be
    slashes. *)
Ltac eval_slash_dates :=
  assert (isDigit "/" = false) by reflexivity;
  assert (isDash "/" = false) by reflexivity;
  assert (isDashOrSlash "/" = true) by reflexivity;
  eval_dates; cbn [withDashes];
  repeat match goal with
         | |- context [bool_decide (?c = "/"%char)] =>
             first [ rewrite (bool_decide_eq_true_2 (c = "/"%char)) by reflexivity
                   | rewrite (bool_decide_eq_false_2 (c = "/"%char))
                       by (intros ->; discriminate) ]
         end.

Lemma toIsoDate_of_slashed (d : string) :
  matchesClasses brDatePattern d = true ->
  matchesClasses isoDatePattern (toIsoDate d) = true
  ∧ toBrDate (toIsoDate d) = withDashes d.
Proof.
  intros H. unfold brDatePattern in H. ten_chars d H.
  repeat match goal with
         | Hs : isDashOrSlash ?c = true |- _ =>
             apply dash_or_slash_is in Hs; destruct Hs; subst c
         end;
    (split; [eval_slash_dates; reflexivity |]);
    eval_slash_dates; reflexivity.
Qed.

Lemma toIsoDate_of_timestamp (iso rest : string) :
  matchesClasses isoDatePattern iso = true ->
  toIsoDate (iso ++ rest)%string = iso.
Proof.
  intros H. unfold isoDatePattern in H. ten_chars iso H.
  cbv [String.append]. unfold toIsoDate, trim. cbn [isEmptyString trimStart].
  match goal with
  | Hs : isSpace ?c = false |- context [if isSpace ?c then _ else _] => rewrite Hs
  end.
  rewrite !trimEnd_cons by (assumption || reflexivity).
  cbn [String.substring].
  assert (String.substring 0 0 (trimEnd rest) = "") as -> by by destruct (trimEnd rest).
  eval_dates. reflexivity.
Qed.

(** X7: what [toIsoDate] accepts.  A date DD-MM-YYYY or DD/MM/YYYY becomes
    an ISO date, and [toBrDate] sends it back with dashes; an ISO date,
    alone or followed by anything (a time, a zone), becomes that ISO date;
    the empty string stays empty. *)
Theorem wire_dates_are_normalised :
  (forall d,
     matchesClasses brDatePattern d = true ->
     matchesClasses isoDatePattern (toIsoDate d) = true
     ∧ toBrDate (toIsoDate d) = withDashes d)
  ∧ (forall iso rest,
       matchesClasses isoDatePattern iso = true ->
       toIsoDate (iso ++ rest)%string = iso)
  ∧ (forall iso,
       matchesClasses isoDatePattern iso = true -> toIsoDate iso = iso)
  ∧ toIsoDate "" = "".
Proof.
  split; [apply toIsoDate_of_slashed |].
  split; [apply toIsoDate_of_timestamp |].
  split; [| done].
  intros iso H. pose proof (toIsoDate_of_timestamp iso "" H) as Hts.
  assert ((iso ++ "")%string = iso) as Hnil.
  { clear. induction iso as [| c s IH]; [done |]. by rewrite append_cons, IH. }
  by rewrite Hnil in Hts.
Qed.

(** A date with slashes and a time stamp. *)
Lemma wire_dates_are_normalised_witness :
  toBrDate (toIsoDate "05/03/2025") = "05-03-2025"
  ∧ toIsoDate "2025-03-05T03:00:00.000Z" = "2025-03-05".
Proof.
  destruct wire_dates_are_normalised as (Hbr & Hts & _).
  split.
  - destruct (Hbr "05/03/2025" eq_refl) as [_ Hback]. exact Hback.
  - exact (Hts "2025-03-05" "T03:00:00.000Z" eq_refl).
Defined.

(** ** Runs of the ingest *)

Lemma landingCell_some (rec : RawRecord) (cell : string * string * nat) :
  landingCell rec = Some cell ->
  isEmptyString (toIsoDate (jsOr (r_date rec) "")) = false
  ∧ cell = (r_studentId rec, toIsoDate (jsOr (r_date rec) ""), slotOf (r_lessonIndex rec)).
Proof.
  unfold landingCell. cbv zeta.
  destruct (isEmptyString _); [discriminate |]. by intros [= <-].
Qed.

Lemma ingestRecord_lands (att : ClassAttendance) (rec : RawRecord) sid dateStr i :
  landingCell rec = Some (sid, dateStr, i) ->
  cellStatus (ingestRecord att rec) sid dateStr i = r_status rec.
Proof.
  intros H. apply landingCell_some in H as [Hne [= -> -> ->]].
  by apply ingestRecord_cell.
Qed.

Lemma ingestRecord_elsewhere (att : ClassAttendance) (rec : RawRecord) sid dateStr i :
  landingCell rec ≠ Some (sid, dateStr, i) ->
  cellStatus (ingestRecord att rec) sid dateStr i = cellStatus att sid dateStr i.
Proof.
  intros Hne. unfold landingCell in Hne. cbv zeta in Hne.
  destruct (isEmptyString (toIsoDate (jsOr (r_date rec) ""))) eqn:Hempty.
  { by rewrite ingestRecord_skips. }
  destruct (decide ((sid, dateStr)
                    = (r_studentId rec, toIsoDate (jsOr (r_date rec) ""))))
    as [[= -> ->] | Hother].
  - rewrite cellStatus_bind, ingestRecord_stores by done. simpl.
    rewrite list_lookup_insert_ne by (intros <-; by apply Hne).
    rewrite padStatuses_default. done.
  - by rewrite !cellStatus_bind, ingestRecord_other.
Qed.

Lemma ingest_run_elsewhere (records : list RawRecord) sid dateStr i :
  (forall rec, In rec records -> landingCell rec ≠ Some (sid, dateStr, i)) ->
  forall att : ClassAttendance,
    cellStatus (foldl ingestRecord att records) sid dateStr i
    = cellStatus att sid dateStr i.
Proof.
  induction records as [| r records IH]; intros Hall att; simpl; [done |].
  rewrite IH by (intros rec Hin; apply Hall; by right).
  apply ingestRecord_elsewhere. apply Hall. by left.
Qed.

Lemma ingest_run_last (before after : list RawRecord) (rec : RawRecord) sid dateStr i :
  landingCell rec = Some (sid, dateStr, i) ->
  (forall later, In later after -> landingCell later ≠ Some (sid, dateStr, i)) ->
  cellStatus (transformAttendanceFromApi (before ++ rec :: after)) sid dateStr i
  = r_status rec.
Proof.
  intros Hland Hafter. unfold transformAttendanceFromApi.
  rewrite foldl_app. simpl.
  rewrite ingest_run_elsewhere by done. by apply ingestRecord_lands.
Qed.

(** X8: after the ingest of plain raw records, a cell shows the status of
    the last record that lands on it (records after it that land elsewhere,
    or are skipped, do not matter), and a cell on which no record lands
    shows UNDEFINED. *)
Theorem ingest_last_record_wins (records : list RawRecord) sid dateStr i :
  forallb plainRecord records = true ->
  (forall before rec after,
     records = before ++ rec :: after ->
     landingCell rec = Some (sid, dateStr, i) ->
     (forall later, In later after -> landingCell later ≠ Some (sid, dateStr, i)) ->
     cellStatus (transformAttendanceFromApi records) sid dateStr i = r_status rec)
  ∧ ((forall rec, In rec records -> landingCell rec ≠ Some (sid, dateStr, i)) ->
     cellStatus (transformAttendanceFromApi records) sid dateStr i = UNDEFINED).
Proof.
  intros _. split.
  - intros before rec after -> Hland Hafter. by apply ingest_run_last.
  - intros Hnone. unfold transformAttendanceFromApi.
    by rewrite ingest_run_elsewhere.
Qed.

(** Two records for the same cell, then a record skipped for its date. *)
Lemma ingest_last_record_wins_witness :
  let r1 := mkRaw "s1" (Some "05-03-2025") (IdxNumber 1) PRESENT in
  let r2 := mkRaw "s1" (Some "2025-03-05") (IdxString "1") ABSENT in
  let r3 := mkRaw "s1" None (IdxNumber 1) EXCUSED in
  cellStatus (transformAttendanceFromApi [r1; r2; r3]) "s1" "2025-03-05" 0 = ABSENT.
Proof.
  intros r1 r2 r3.
  destruct (ingest_last_record_wins [r1; r2; r3] "s1" "2025-03-05" 0) as [Hlast _];
    [vm_compute; reflexivity |].
  apply (Hlast [r1] r2 [r3]); [reflexivity | reflexivity |].
  intros later [<- | []]. discriminate.
Defined.

Lemma ingestRecord_shape (att : ClassAttendance) (rec : RawRecord) :
  ingestShape att -> ingestShape (ingestRecord att rec).
Proof.
  intros Hshape sid dateStr arr. unfold storedStatuses.
  destruct (isEmptyString (toIsoDate (jsOr (r_date rec) ""))) eqn:Hempty.
  { rewrite ingestRecord_skips by done. apply Hshape. }
  destruct (decide ((sid, dateStr)
                    = (r_studentId rec, toIsoDate (jsOr (r_date rec) ""))))
    as [[= -> ->] | Hother].
  - rewrite ingestRecord_stores by done. intros [= <-].
    split; [| done].
    rewrite length_insert. unfold padStatuses. rewrite length_app, length_replicate.
    pose proof (slotOf_bound (r_lessonIndex rec)) as Hslot.
    destruct (jsOr (att !! r_studentId rec) ∅
                !! toIsoDate (jsOr (r_date rec) "")) as [old |] eqn:Hold; simpl.
    + assert (1 <= length old <= 20); [| lia].
      apply (Hshape (r_studentId rec) (toIsoDate (jsOr (r_date rec) ""))).
      unfold storedStatuses.
      destruct (att !! r_studentId rec); simpl in *; [done |].
      by rewrite lookup_empty in Hold.
    + lia.
  - rewrite ingestRecord_other by done. apply Hshape.
Qed.

(** X9: for plain raw records, whatever their dates and lesson indices,
    the store that the ingest builds has no empty array, no array longer
    than twenty slots, and no entry under an empty date. *)
Theorem ingest_bounds_arrays (records : list RawRecord) sid dateStr arr :
  forallb plainRecord records = true ->
  storedStatuses (transformAttendanceFromApi records) sid dateStr = Some arr ->
  1 <= length arr <= 20 ∧ isEmptyString dateStr = false.
Proof.
  intros _.
  revert sid dateStr arr. change (ingestShape (transformAttendanceFromApi records)).
  unfold transformAttendanceFromApi.
  assert (forall att, ingestShape att -> ingestShape (foldl ingestRecord att records))
    as Hrun.
  { induction records as [| r records IH]; intros att Hatt; simpl; [done |].
    by apply IH, ingestRecord_shape. }
  apply Hrun. intros sid dateStr arr. unfold storedStatuses.
  by rewrite lookup_empty.
Qed.

(** A record with lesson index 500. *)
Lemma ingest_bounds_arrays_witness :
  let records := [mkRaw "s1" (Some "05-03-2025") (IdxNumber 500) PRESENT] in
  length (default [] (storedStatuses (transformAttendanceFromApi records)
                        "s1" "2025-03-05")) <= 20.
Proof.
  intros records.
  destruct (ingest_bounds_arrays records "s1" "2025-03-05" [PRESENT] eq_refl eq_refl)
    as [[_ Hlen] _].
  exact Hlen.
Defined.

Lemma landingCell_of_sent (c : PendingChange) :
  matchesClasses isoDatePattern (date c) = true ->
  lessonIndex c < 20 ->
  landingCell (storedAsRaw (toWire c)) = Some (cellKey c).
Proof.
  intros Hiso Hidx. unfold landingCell, storedAsRaw, toWire, cellKey. simpl.
  rewrite toIsoDate_toBrDate by done.
  rewrite iso_not_empty by done.
  unfold slotOf.
  rewrite (rawIdxOf_in_range _ (Z.of_nat (lessonIndex c + 1))) by (simpl; lia || done).
  do 2 f_equal. lia.
Qed.

Lemma iso_date_not_inherited (dateStr : string) :
  matchesClasses isoDatePattern dateStr = true -> inheritedKey dateStr = false.
Proof.
  intros Hiso. apply bool_decide_eq_false. unfold objectPrototypeKeys. intros Hin.
  repeat (apply elem_of_cons in Hin as [-> | Hin]; [by vm_compute in Hiso |]).
  by apply elem_of_nil in Hin.
Qed.

Lemma sent_record_is_plain (c : PendingChange) :
  matchesClasses isoDatePattern (date c) = true ->
  lessonIndex c < 20 ->
  inheritedKey (studentId c) = false ->
  plainRecord (storedAsRaw (toWire c)) = true.
Proof.
  intros Hiso Hidx Hsid. unfold plainRecord, storedAsRaw, toWire. simpl.
  rewrite toIsoDate_toBrDate by done.
  rewrite iso_not_empty by done.
  rewrite Hsid, (iso_date_not_inherited _ Hiso). simpl.
  apply Z.ltb_lt. rewrite Z.abs_eq by lia.
  apply Z.lt_trans with 21%Z; [lia | reflexivity].
Qed.

(** X10: what is flushed comes back.  For a queue with one entry per cell,
    ISO dates, slots below twenty and student ids that name no inherited
    property, the records that the remote source gives back for the batch
    are plain, and their ingest shows, for the cell of every pending
    change, the status of that change. *)
Theorem flushed_queue_reads_back (queue : list PendingChange) :
  NoDup (map cellKey queue) ->
  (forall c, In c queue ->
     matchesClasses isoDatePattern (date c) = true ∧ lessonIndex c < 20
     ∧ inheritedKey (studentId c) = false) ->
  forallb plainRecord (map storedAsRaw (map toWire queue)) = true
  ∧ forall c, In c queue ->
      cellStatus (transformAttendanceFromApi (map storedAsRaw (map toWire queue)))
        (studentId c) (date c) (lessonIndex c)
      = status c.
Proof.
  intros Hnd Hwf. split.
  { apply forallb_forall. intros r Hr.
    apply in_map_iff in Hr as (w & <- & Hw).
    apply in_map_iff in Hw as (c & <- & Hc).
    destruct (Hwf c Hc) as (? & ? & ?). by apply sent_record_is_plain. }
  intros c Hin.
  apply in_split in Hin as (q1 & q2 & ->).
  rewrite !map_app. simpl.
  assert (matchesClasses isoDatePattern (date c) = true ∧ lessonIndex c < 20)
    as [Hiso Hidx].
  { destruct (Hwf c) as (? & ? & _); [apply in_or_app; right; by left | done]. }
  rewrite (ingest_run_last _ _ (storedAsRaw (toWire c)) (studentId c) (date c)
             (lessonIndex c)); [done | by apply landingCell_of_sent |].
  intros later Hlater.
  apply in_map_iff in Hlater as (w & <- & Hw).
  apply in_map_iff in Hw as (c' & <- & Hc').
  destruct (Hwf c') as (Hiso' & Hidx' & _); [apply in_or_app; right; by right |].
  rewrite landingCell_of_sent by done.
  intros [= Hkey].
  rewrite map_app in Hnd. simpl in Hnd.
  apply NoDup_app in Hnd as (_ & _ & Hnd). apply NoDup_cons in Hnd as [Hnot _].
  apply Hnot, list_elem_of_In, in_map_iff. exists c'. split; [| done].
  unfold cellKey. congruence.
Qed.

(** A queue of two cells. *)
Lemma flushed_queue_reads_back_witness :
  let c1 := mkChange "s1" "2025-03-05" 0 PRESENT "" "" in
  let c2 := mkChange "s1" "2025-03-05" 2 ABSENT "" "" in
  cellStatus (transformAttendanceFromApi (map storedAsRaw (map toWire [c1; c2])))
    "s1" "2025-03-05" 2 = ABSENT.
Proof.
  intros c1 c2.
  refine (proj2 (flushed_queue_reads_back [c1; c2] _ _) c2 _).
  - apply (bool_decide_unpack _). by vm_compute.
  - intros c [<- | [<- | []]]; split; [reflexivity | split; [simpl; lia | reflexivity]
                                      | reflexivity | split; [simpl; lia | reflexivity]].
  - right. by left.
Defined.

(** ** The month summary of the grid *)

Lemma grid_countStep_adds (c : Counts) (slotStatus : option AttendanceStatus) :
  grid_countStep c slotStatus
  = addCounts c (countsOfStatuses [jsOr slotStatus UNDEFINED]).
Proof.
  destruct c, slotStatus as [[] |]; unfold grid_countStep, addCounts; simpl;
    repeat case_decide; try done; simpl; f_equal; lia.
Qed.

Lemma grid_slot_loop (statuses : list AttendanceStatus) (indices : list nat) :
  forall c,
    foldl (fun acc idx => grid_countStep acc (statuses !! idx)) c indices
    = addCounts c
        (countsOfStatuses (map (fun idx => jsOr (statuses !! idx) UNDEFINED) indices)).
Proof.
  induction indices as [| i indices IH]; intros c; simpl.
  - destruct c. unfold addCounts. simpl. f_equal; lia.
  - rewrite IH, grid_countStep_adds, addCounts_assoc.
    by rewrite <- countsOfStatuses_app.
Qed.

Lemma grid_counts_displayed cfg cls (dates : list string) (att : ClassAttendance) sid :
  grid_counts cfg cls dates att sid
  = countsOfStatuses (displayedCells cfg cls dates att sid).
Proof.
  unfold grid_counts, displayedCells. cbv zeta.
  rewrite <- (addCounts_zero_l (countsOfStatuses _)).
  generalize zeroCounts.
  induction dates as [| d dates IH]; intros c; simpl.
  - destruct c. unfold addCounts. simpl. f_equal; lia.
  - rewrite IH, grid_slot_loop, addCounts_assoc, <- countsOfStatuses_app. done.
Qed.

Lemma countsOfStatuses_total (l : list AttendanceStatus) :
  present (countsOfStatuses l) + absent (countsOfStatuses l)
  + excused (countsOfStatuses l) = total (countsOfStatuses l).
Proof.
  unfold countsOfStatuses. simpl.
  induction l as [| s l IH]; [done |].
  destruct s; simpl; lia.
Qed.

Lemma countsOfStatuses_bound (l : list AttendanceStatus) :
  total (countsOfStatuses l) <= length l.
Proof. unfold countsOfStatuses. simpl. apply List.filter_length_le. Qed.

(** X11: the month summary of the grid counts exactly the cells that the
    grid displays for the student (the active lessons of every date of the
    month, an unset slot counting as undefined): present, absent and
    excused add up to the lessons counted, which never exceed the number of
    displayed cells, and the percentage is the one the reports compute from
    the same counters, 0 when nothing is counted. *)
Theorem grid_summary_counts_displayed_cells cfg cls (dates : list string)
    (att : ClassAttendance) sid :
  let c := fst (calculateStats cfg cls dates att sid) in
  c = countsOfStatuses (displayedCells cfg cls dates att sid)
  ∧ present c + absent c + excused c = total c
  ∧ total c <= length (displayedCells cfg cls dates att sid)
  ∧ snd (calculateStats cfg cls dates att sid) = percentageOf c
  ∧ (total c = 0 -> snd (calculateStats cfg cls dates att sid) = 0%float).
Proof.
  intros c. unfold c, calculateStats. cbv zeta. simpl fst. simpl snd.
  rewrite grid_counts_displayed.
  set (cells := displayedCells cfg cls dates att sid).
  pose proof (countsOfStatuses_total cells) as Hsum.
  assert (forall k : Counts,
            present k + absent k + excused k = total k ->
            PrimFloat.mul
              (PrimFloat.div (toNumber (present k + excused k))
                 (toNumber (if decide (total k = 0) then 1 else total k)))
              100%float
            = percentageOf k) as Hpct.
  { intros k Hk. unfold percentageOf.
    destruct (decide (total k = 0)) as [Hz | Hnz].
    - assert (present k + excused k = 0) as -> by lia.
      destruct (decide (0 < total k)); [lia |]. by vm_compute.
    - destruct (decide (0 < total k)); [done | lia]. }
  split; [done |]. split; [done |]. split; [apply countsOfStatuses_bound |].
  split; [by apply Hpct |].
  intros Hz. rewrite Hpct by done. unfold percentageOf.
  destruct (decide (0 < total (countsOfStatuses cells))); [lia | done].
Qed.

(** A month with no recorded lesson. *)
Lemma grid_summary_counts_displayed_cells_witness :
  snd (calculateStats (mkConfig ∅ ∅ ∅) "c1" ["2025-03-05"; "2025-03-06"] ∅ "s1")
  = 0%float.
Proof.
  destruct (grid_summary_counts_displayed_cells (mkConfig ∅ ∅ ∅) "c1"
              ["2025-03-05"; "2025-03-06"] ∅ "s1") as (_ & _ & _ & _ & Hzero).
  apply Hzero. reflexivity.
Defined.

(** ** The dates of the displayed month *)

Lemma matchesClasses_app (p1 p2 : list (ascii -> bool)) (s1 s2 : string) :
  matchesClasses p1 s1 = true ->
  matchesClasses p2 s2 = true ->
  matchesClasses (p1 ++ p2) (s1 ++ s2)%string = true.
Proof.
  revert s1. induction p1 as [| cls p1 IH]; intros s1 H1 H2.
  - destruct s1; [done | discriminate].
  - destruct s1 as [| c s1]; [discriminate |].
    rewrite append_cons. simpl in *.
    apply andb_true_iff in H1 as [-> H1]. simpl. by apply IH.
Qed.

Lemma matchesClasses_length (p : list (ascii -> bool)) (s : string) :
  matchesClasses p s = true -> String.length s = length p.
Proof.
  revert s. induction p as [| cls p IH]; intros [| c s] H; simpl in *;
    try done.
  apply andb_true_iff in H as [_ H]. by rewrite (IH s).
Qed.

Lemma years_print_four_digits (year : Z) :
  (1000 <= year <= 9999)%Z ->
  matchesClasses [isDigit; isDigit; isDigit; isDigit] (numberToString year) = true.
Proof.
  intros Hy.
  assert (forallb
            (fun a =>
               forallb
                 (fun b => matchesClasses [isDigit; isDigit; isDigit; isDigit]
                             (numberToString (Z.of_nat (100 * a + b) + 1000)))
                 (seq 0 100))
            (seq 0 90) = true) as Hall by (vm_compute; reflexivity).
  rewrite forallb_forall in Hall.
  set (n := Z.to_nat (year - 1000)).
  assert (n < 100 * 90) as Hn by (unfold n; lia).
  specialize (Hall (n / 100)).
  rewrite forallb_forall in Hall.
  specialize (Hall ltac:(apply in_seq; split; [lia |];
                         apply Nat.Div0.div_lt_upper_bound; lia) (n mod 100)).
  rewrite <- (Nat.div_mod_eq n 100) in Hall.
  replace (Z.of_nat n + 1000)%Z with year in Hall by (unfold n; lia).
  apply Hall, in_seq.
  pose proof (Nat.mod_upper_bound n 100). lia.
Qed.

Lemma small_numbers_print_two_digits (n : nat) :
  n < 100 ->
  matchesClasses [isDigit; isDigit] (padStart2 (numberToString (Z.of_nat n))) = true.
Proof.
  intros Hn.
  assert (forallb
            (fun k => matchesClasses [isDigit; isDigit]
                        (padStart2 (numberToString (Z.of_nat k))))
            (seq 0 100) = true) as Hall by (vm_compute; reflexivity).
  rewrite forallb_forall in Hall. apply Hall, in_seq. lia.
Qed.

Lemma daysInMonth_range (year : Z) (month : nat) :
  28 <= daysInMonth year month <= 31.
Proof.
  unfold daysInMonth.
  do 11 (destruct month as [| month]; [destruct (isLeapYear year); lia |]).
  lia.
Qed.

Lemma dateOfDay_is_iso (year : Z) (month i : nat) :
  (1000 <= year <= 9999)%Z -> month <= 11 -> i < 100 ->
  matchesClasses isoDatePattern (dateOfDay year month i) = true.
Proof.
  intros Hy Hm Hi. unfold dateOfDay.
  change isoDatePattern
    with ([isDigit; isDigit; isDigit; isDigit]
          ++ [isDash] ++ [isDigit; isDigit] ++ [isDash] ++ [isDigit; isDigit]).
  apply matchesClasses_app; [by apply years_print_four_digits |].
  apply (matchesClasses_app [isDash] _ "-"); [done |].
  apply matchesClasses_app; [apply small_numbers_print_two_digits; lia |].
  apply (matchesClasses_app [isDash] _ "-"); [done |].
  by apply small_numbers_print_two_digits.
Qed.

Lemma days_print_distinct (n : nat) :
  n <= 31 ->
  NoDup (map (fun i => padStart2 (numberToString (Z.of_nat i))) (seq 1 n)).
Proof.
  intros Hn.
  assert (NoDup (map (fun i => padStart2 (numberToString (Z.of_nat i))) (seq 1 31)))
    as Hall by (apply (bool_decide_unpack _); by vm_compute).
  replace 31 with (n + (31 - n)) in Hall by lia.
  rewrite seq_app, map_app in Hall.
  by apply NoDup_app in Hall as [Hfirst _].
Qed.

(** X12: the dates of the grid.  For a year of four digits and a month from
    0 to 11, the list has one date per day of the month, between 28 and 31,
    all different; every date is an ISO date of ten characters, which
    [toIsoDate] leaves as it is and which comes back unchanged from the
    wire format. *)
Theorem grid_dates_are_iso (year : Z) (month : nat) :
  (1000 <= year <= 9999)%Z ->
  month <= 11 ->
  length (dateList year month) = daysInMonth year month
  ∧ 28 <= length (dateList year month) <= 31
  ∧ NoDup (dateList year month)
  ∧ (forall d, In d (dateList year month) ->
       matchesClasses isoDatePattern d = true
       ∧ String.length d = 10
       ∧ toIsoDate d = d
       ∧ toIsoDate (toBrDate d) = d).
Proof.
  intros Hy Hm. pose proof (daysInMonth_range year month) as Hdays.
  assert (length (dateList year month) = daysInMonth year month) as Hlen.
  { unfold dateList. by rewrite length_map, length_seq. }
  split; [done |]. split; [lia |]. split.
  - unfold dateList, dateOfDay.
    rewrite <- (map_map (fun i => padStart2 (numberToString (Z.of_nat i)))
                  (fun s => (numberToString year ++ "-"
                             ++ padStart2 (numberToString (Z.of_nat (month + 1)))
                             ++ "-" ++ s)%string)).
    apply (NoDup_fmap_2 _). apply days_print_distinct. lia.
  - intros d Hin. unfold dateList in Hin.
    apply in_map_iff in Hin as (i & <- & Hi). apply in_seq in Hi.
    assert (matchesClasses isoDatePattern (dateOfDay year month i) = true) as Hiso
      by (apply dateOfDay_is_iso; lia).
    split; [done |]. split; [by apply matchesClasses_length in Hiso |].
    split; [| by apply toIsoDate_toBrDate].
    pose proof (toIsoDate_of_timestamp _ "" Hiso) as Hts.
    assert (forall s : string, (s ++ "")%string = s) as Hnil.
    { induction s as [| c s IH]; [done |]. by rewrite append_cons, IH. }
    by rewrite Hnil in Hts.
Qed.

(** February 2024. *)
Lemma grid_dates_are_iso_witness :
  length (dateList 2024 1) = 29
  ∧ toIsoDate (toBrDate "2024-02-29") = "2024-02-29".
Proof.
  destruct (grid_dates_are_iso 2024 1) as (Hlen & _ & _ & Hiso); [lia | lia |].
  split; [exact Hlen |].
  destruct (Hiso "2024-02-29") as (_ & _ & _ & Hback); [| exact Hback].
  vm_compute. do 28 right. by left.
Defined.

(** X13: the month buttons.  From a month between 0 and 11, the previous
    and the following month are again between 0 and 11, each button undoes
    the other, and the year changes exactly when the month wraps around. *)
Theorem month_buttons_are_inverse (year : Z) (month : nat) :
  month <= 11 ->
  snd (previousMonth (year, month)) <= 11
  ∧ snd (followingMonth (year, month)) <= 11
  ∧ followingMonth (previousMonth (year, month)) = (year, month)
  ∧ previousMonth (followingMonth (year, month)) = (year, month)
  ∧ (fst (previousMonth (year, month)) ≠ year <-> month = 0)
  ∧ (fst (followingMonth (year, month)) ≠ year <-> month = 11).
Proof.
  intros Hm. unfold previousMonth, followingMonth.
  do 12 (destruct month as [| month];
         [simpl; repeat split; try lia; try (intros; lia);
          try (f_equal; lia); try (intros H; exfalso; lia) |]).
  lia.
Qed.

(** January. *)
Lemma month_buttons_are_inverse_witness :
  followingMonth (previousMonth (2025%Z, 0)) = (2025%Z, 0).
Proof.
  destruct (month_buttons_are_inverse 2025 0) as (_ & _ & Hback & _); [lia |].
  exact Hback.
Defined.

(** ** The lesson diary *)

Lemma diaryDay_some cfg cls dateStr (day : DiaryDay) :
  diaryDay cfg cls dateStr = Some day ->
  dd_date day = dateStr
  ∧ dd_lessons day ≠ []
  ∧ Some (map dl_index (dd_lessons day))
    = dailyLessonConfig cfg !! configKey cls dateStr.
Proof.
  unfold diaryDay, diary_activeIndices.
  destruct (dailyLessonConfig cfg !! configKey cls dateStr) as [[| i l] |];
    try discriminate.
  intros [= <-]. simpl. split; [done |]. split; [done |].
  f_equal. f_equal. rewrite map_map. simpl. by rewrite map_id.
Qed.

Lemma rawMonthData_dates cfg cls (monthDates : list string) :
  isEmptyString cls = false ->
  map dd_date (rawMonthData cfg cls monthDates)
  = List.filter (fun d => bool_decide (is_Some (diaryDay cfg cls d))) monthDates.
Proof.
  intros Hcls. unfold rawMonthData. rewrite Hcls.
  induction monthDates as [| d dates IH]; simpl; [done |].
  destruct (diaryDay cfg cls d) as [day |] eqn:Hday; simpl.
  - apply diaryDay_some in Hday as [-> _]. f_equal. apply IH.
  - apply IH.
Qed.

Lemma rawMonthData_In cfg cls (monthDates : list string) (day : DiaryDay) :
  In day (rawMonthData cfg cls monthDates) ->
  In (dd_date day) monthDates ∧ diaryDay cfg cls (dd_date day) = Some day.
Proof.
  unfold rawMonthData. destruct (isEmptyString cls); [done |].
  intros Hin. apply list_elem_of_In, list_elem_of_omap in Hin as (d & Hd & Hday).
  pose proof (diaryDay_some _ _ _ _ Hday) as [<- _].
  split; [by apply list_elem_of_In | done].
Qed.

Lemma filteredDiaryData_all (rawData : list DiaryDay) :
  (forall day, In day rawData -> dd_lessons day ≠ []) ->
  filteredDiaryData rawData "ALL" "" = rawData.
Proof.
  unfold filteredDiaryData. induction rawData as [| day rest IH]; intros Hne;
    simpl; [done |].
  assert (List.filter (diaryKeeps "ALL" "") (dd_lessons day) = dd_lessons day) as ->.
  { clear. induction (dd_lessons day) as [| l ls IHl]; simpl; [done |].
    by rewrite IHl. }
  destruct (dd_lessons day) as [| l ls] eqn:Hls.
  { exfalso. apply (Hne day); [by left | done]. }
  simpl. rewrite IH by (intros d Hd; apply Hne; by right).
  f_equal. destruct day. simpl in *. by subst.
Qed.

(** X14: the lesson diary.  For a selected class, the days listed are the
    dates of the month, in their order, that have a non-empty list of
    lessons under the composite key of the class; a date that has none is
    not listed, whatever the configuration holds under the bare date; each
    listed day has exactly the lessons of the composite entry.  With the
    subject filter on ALL and no search term the diary
    shows all of them; with any filter, every day shown has at least one
    lesson, its lessons are lessons of that day in the unfiltered diary, and
    with a subject selected they all have that subject. *)
Theorem diary_lists_configured_days cfg cls (monthDates : list string)
    (selectedSubject searchTerm : string) :
  isEmptyString cls = false ->
  let rawData := rawMonthData cfg cls monthDates in
  map dd_date rawData
  = List.filter (hasCompositeLessons cfg cls) monthDates
  ∧ (forall d, dailyLessonConfig cfg !! configKey cls d = None ->
       ¬ In d (map dd_date rawData))
  ∧ (forall day, In day rawData ->
       dd_lessons day ≠ []
       ∧ Some (map dl_index (dd_lessons day))
         = dailyLessonConfig cfg !! configKey cls (dd_date day))
  ∧ filteredDiaryData rawData "ALL" "" = rawData
  ∧ (forall shown, In shown (filteredDiaryData rawData selectedSubject searchTerm) ->
       dd_lessons shown ≠ []
       ∧ ∃ day, In day rawData
                ∧ dd_date day = dd_date shown
                ∧ (forall l, In l (dd_lessons shown) ->
                     In l (dd_lessons day)
                     ∧ (selectedSubject ≠ "ALL" -> dl_subject l = selectedSubject))).
Proof.
  intros Hcls rawData.
  assert (forall day, In day rawData ->
            dd_lessons day ≠ []
            ∧ Some (map dl_index (dd_lessons day))
              = dailyLessonConfig cfg !! configKey cls (dd_date day)) as Hdays.
  { intros day Hin. apply rawMonthData_In in Hin as [_ Hday].
    by apply diaryDay_some in Hday as (_ & ? & ?). }
  assert (map dd_date rawData = List.filter (hasCompositeLessons cfg cls) monthDates)
    as Hdates.
  { unfold rawData. rewrite rawMonthData_dates by done.
    apply List.filter_ext. intros d.
    unfold diaryDay, diary_activeIndices, hasCompositeLessons.
    by destruct (dailyLessonConfig cfg !! configKey cls d) as [[| i l] |]. }
  split; [done |]. split.
  { intros d Hnone Hin. rewrite Hdates in Hin.
    apply List.filter_In in Hin as [_ Hhas].
    unfold hasCompositeLessons in Hhas. by rewrite Hnone in Hhas. }
  split; [done |].
  split; [apply filteredDiaryData_all; intros day Hin; by apply Hdays |].
  intros shown Hin. unfold filteredDiaryData in Hin.
  apply List.filter_In in Hin as [Hin Hlen].
  apply in_map_iff in Hin as (day & <- & Hday). simpl in *.
  split.
  - intros Hnil. rewrite Hnil in Hlen. discriminate.
  - exists day. split; [done |]. split; [done |].
    intros l Hl. apply List.filter_In in Hl as [Hl Hkeep]. split; [done |].
    intros Hsel. unfold diaryKeeps in Hkeep.
    rewrite (bool_decide_eq_false_2 (selectedSubject = "ALL")) in Hkeep by done.
    simpl in Hkeep. by case_bool_decide.
Qed.

(** A month with one day configured under the composite key and one
    under the bare date only. *)
Lemma diary_lists_configured_days_witness :
  let cfg :=
    mkConfig {[ configKey "c1" "2025-03-05" := [0; 1]; "2025-03-06" := [0] ]}
             {[ configKey "c1" "2025-03-05" := {[ 0 := "Math" ]} ]} ∅ in
  let rawData := rawMonthData cfg "c1" ["2025-03-06"; "2025-03-05"] in
  map dd_date rawData = ["2025-03-05"]
  ∧ filteredDiaryData rawData "ALL" "" = rawData.
Proof.
  intros cfg rawData.
  destruct (diary_lists_configured_days cfg "c1" ["2025-03-06"; "2025-03-05"] "Math" "")
    as (Hdates & _ & _ & Hall & _); [reflexivity |].
  split; [| exact Hall].
  unfold rawData. rewrite Hdates. reflexivity.
Defined.

(** ** Subject statistics of the reports *)









(** ** The roster and the class view *)

Lemma handleUpdateStudentStatus_statuses rendered sid newStatus (prev : list Student) :
  incl prev rendered ->
  forall s, s ∈ handleUpdateStudentStatus rendered sid newStatus prev ->
            st_id s = sid -> st_status s = newStatus.
Proof.
  intros Hincl s Hs Hid. unfold handleUpdateStudentStatus in Hs.
  destruct (List.find _ rendered) as [student |] eqn:Hfind.
  - apply List.find_some in Hfind as [_ Hsid]. apply bool_decide_eq_true in Hsid.
    unfold handleUpdateStudent in Hs. apply list_elem_of_fmap in Hs as (x & -> & _).
    simpl in *. case_decide as Hx; [done |]. congruence.
  - exfalso. apply list_elem_of_In, Hincl in Hs.
    pose proof (List.find_none _ _ Hfind s Hs) as Hnone. simpl in Hnone.
    apply bool_decide_eq_false in Hnone. done.
Qed.

Lemma handleUpdateStudentStatus_ids rendered sid newStatus (prev : list Student) :
  map st_id (handleUpdateStudentStatus rendered sid newStatus prev) = map st_id prev.
Proof.
  unfold handleUpdateStudentStatus.
  destruct (List.find _ rendered) as [student |]; [| done].
  unfold handleUpdateStudent. rewrite List.map_map. apply List.map_ext.
  intros s. simpl. by case_decide.
Qed.

Lemma classStudents_listed sortByName classes cls (allStudents : list Student) statusFilter :
  (forall l, sortByName l ≡ₚ l) ->
  forall s, s ∈ classStudents sortByName classes cls allStudents statusFilter ->
            s ∈ allStudents.
Proof.
  intros Hsort s. unfold classStudents.
  destruct (List.find _ classes) as [currentClass |]; [| by intros ?%elem_of_nil].
  cbv zeta. rewrite Hsort. intros Hs.
  destruct statusFilter as [wanted |].
  - apply list_elem_of_In, List.filter_In in Hs as [Hs _].
    apply List.filter_In in Hs as [Hs _]. by apply list_elem_of_In.
  - apply list_elem_of_In, List.filter_In in Hs as [Hs _]. by apply list_elem_of_In.
Qed.

(** X16: a student whose enrollment status was set to a value other than
    active is left alone by a later bulk update of the class view.  The
    status change keeps the ids of the roster in place, and the bulk update
    over the view of the new roster changes neither the attendance record
    nor the pending changes of that student. *)
Theorem bulk_update_skips_student_set_inactive
    (sortByName : list Student -> list Student)
    (cfg : LessonConfig) (classes : list ClassGroup) (selectedClassId : string)
    (allStudents : list Student) (statusFilter : option EnrollmentStatus)
    (st : Store) (sid : string) (newStatus : EnrollmentStatus)
    (dateStr : string) (idx : nat) (forced : AttendanceStatus) :
  (forall l, sortByName l ≡ₚ l) ->
  newStatus ≠ ACTIVE ->
  let roster := handleUpdateStudentStatus allStudents sid newStatus allStudents in
  let view := classStudents sortByName classes selectedClassId roster statusFilter in
  let st' := handleBulkStatusUpdate cfg selectedClassId view st dateStr idx forced in
  map st_id roster = map st_id allStudents
  ∧ attendance st' !! sid = attendance st !! sid
  ∧ List.filter (fun c => bool_decide (studentId c = sid)) (pendingChanges st')
    = List.filter (fun c => bool_decide (studentId c = sid)) (pendingChanges st).
Proof.
  intros Hsort Hinactive roster view st'.
  split; [apply handleUpdateStudentStatus_ids |].
  destruct (bulk_loop_invariants cfg selectedClassId (attendance st) st view dateStr idx
              forced view st) as [_ Hframe].
  - done.
  - intros s d i Hne. done.
  - intros s _. done.
  - apply Hframe. intros s Hs Hid.
    apply (classStudents_listed _ _ _ _ _ Hsort) in Hs.
    rewrite (handleUpdateStudentStatus_statuses allStudents sid newStatus allStudents
               (fun x H => H) s Hs Hid).
    done.
Qed.

(** Bia is marked as transferred; the bulk update then fills the cell of
    Ana only. *)
Lemma bulk_update_skips_student_set_inactive_witness :
  let cfg := mkConfig ∅ ∅ ∅ in
  let roster0 := [mkStudent "s1" "Ana" ACTIVE "c1"; mkStudent "s2" "Bia" ACTIVE "c1"] in
  let roster := handleUpdateStudentStatus roster0 "s2" TRANSFERRED roster0 in
  let view := classStudents (fun l => l) [mkClass "c1" "1A"] "c1" roster None in
  let st' :=
    handleBulkStatusUpdate cfg "c1" view (mkStore ∅ []) "2025-03-05" 0 PRESENT in
  attendance st' !! "s2" = None
  ∧ cellStatus (attendance st') "s1" "2025-03-05" 0 = PRESENT.
Proof.
  intros cfg roster0 roster view st'.
  split; [| vm_compute; reflexivity].
  destruct (bulk_update_skips_student_set_inactive (fun l => l) cfg [mkClass "c1" "1A"]
              "c1" roster0 None (mkStore ∅ []) "s2" TRANSFERRED "2025-03-05" 0 PRESENT)
    as (_ & Hatt & _).
  - intros l. reflexivity.
  - discriminate.
  - exact Hatt.
Defined.

(** ** The global dashboard *)

Lemma dashboard_countStep_adds (c : Counts) (s : AttendanceStatus) :
  dashboard_countStep c s = addCounts c (countsOfStatuses [s]).
Proof.
  destruct c, s; unfold dashboard_countStep, addCounts; simpl;
    repeat case_decide; try done; simpl; f_equal; lia.
Qed.

Lemma dashboard_counts_spec (record : AttendanceRecord) :
  dashboard_counts record = countsOfStatuses (flat_map snd (map_to_list record)).
Proof.
  unfold dashboard_counts.
  assert (forall (entries : list (string * list AttendanceStatus)) c,
            foldl (fun acc statuses => foldl dashboard_countStep acc statuses)
                  c (map snd entries)
            = addCounts c (countsOfStatuses (flat_map snd entries))) as Hloop.
  { induction entries as [| e entries IH]; intros c; cbn [map foldl flat_map].
    - destruct c. unfold addCounts. simpl. f_equal; lia.
    - rewrite IH, (count_loop dashboard_countStep dashboard_countStep_adds),
        addCounts_assoc.
      by rewrite <- countsOfStatuses_app. }
  rewrite Hloop. apply addCounts_zero_l.
Qed.

Lemma dashboard_counts_annual (newDate : string -> option Z) (record : AttendanceRecord) :
  reports_counts newDate None record = dashboard_counts record.
Proof.
  rewrite reports_counts_spec, dashboard_counts_spec. unfold statusesWhere.
  f_equal. f_equal. simpl.
  induction (map_to_list record) as [| e l IH]; simpl; [done |]. by rewrite IH.
Qed.

Lemma reports_studentStats_unfiltered (newDate : string -> option Z)
    (att : ClassAttendance) (bimesters : list BimesterConfig) (student : Student) :
  reports_studentStats newDate att bimesters None None None None student
  = let c := dashboard_counts (jsOr (att !! st_id student) ∅) in
    Some (c, percentageOf c, levelOf (percentageOf c)).
Proof.
  unfold reports_studentStats.
  destruct (decide (is_Some None ∧ None ≠ Some (st_classId student)))
    as [[[? [=]] _] | _].
  destruct (decide (is_Some None ∧ None ≠ Some (st_status student)))
    as [[[? [=]] _] | _].
  cbv zeta. unfold reports_range. rewrite dashboard_counts_annual.
  by destruct (decide (is_Some None ∧ _)) as [[[? [=]] _] | _].
Qed.

(** X17: every student that the dashboard lists as at risk is an active
    student of the roster with at least one counted lesson, and the
    unfiltered annual report gives the same percentage, the same absences
    and total, and the level critical.  A roster student without a counted
    lesson is critical in the report, yet never listed as at risk. *)
Theorem at_risk_students_are_critical_in_annual_report
    (newDate : string -> option Z)
    (sortByPercentage : list RiskEntry -> list RiskEntry)
    (att : ClassAttendance) (bimesters : list BimesterConfig)
    (classFilter : option string) (students : list Student) :
  (forall l, sortByPercentage l ≡ₚ l) ->
  let atRisk :=
    studentsAtRisk sortByPercentage att
      (dashboard_filteredStudents classFilter students) in
  let annual := reports_studentStats newDate att bimesters None None None None in
  (forall e, e ∈ atRisk ->
     risk_student e ∈ students
     ∧ st_status (risk_student e) = ACTIVE
     ∧ 0 < risk_total e
     ∧ ∃ c, annual (risk_student e) = Some (c, risk_percentage e, CRITICAL)
            ∧ absent c = risk_absent e ∧ total c = risk_total e)
  ∧ (forall s c p level,
       annual s = Some (c, p, level) -> total c = 0 ->
       level = CRITICAL ∧ forall e, e ∈ atRisk -> risk_student e = s -> False).
Proof.
  intros Hsort atRisk annual.
  assert (forall e, e ∈ atRisk ->
            ∃ s, e = riskEntryOf att s
                 ∧ s ∈ students
                 ∧ PrimFloat.ltb (risk_percentage e) 75%float = true
                 ∧ 0 < risk_total e
                 ∧ st_status s = ACTIVE) as Hlisted.
  { intros e He. unfold atRisk, studentsAtRisk in He. rewrite Hsort in He.
    apply list_elem_of_In, List.filter_In in He as [He Hkeep].
    apply andb_true_iff in Hkeep as [Hkeep Hactive].
    apply andb_true_iff in Hkeep as [Hlow Htotal].
    apply bool_decide_eq_true in Hactive, Htotal.
    apply List.in_map_iff in He as (s & <- & Hs). simpl in *.
    exists s. split; [done |]. split; [| done].
    apply list_elem_of_In. unfold dashboard_filteredStudents in Hs.
    destruct classFilter; [| done]. by apply List.filter_In in Hs as [Hs _]. }
  split.
  - intros e He. destruct (Hlisted e He) as (s & -> & Hin & Hlow & Htotal & Hactive).
    unfold riskEntryOf in *. cbv zeta in *. simpl in *.
    split; [done |]. split; [done |]. split; [done |].
    exists (dashboard_counts (jsOr (att !! st_id s) ∅)).
    unfold annual. rewrite reports_studentStats_unfiltered. cbv zeta.
    assert (percentageOf (dashboard_counts (jsOr (att !! st_id s) ∅))
            = dashboard_percentage (dashboard_counts (jsOr (att !! st_id s) ∅)))
      as Hpct.
    { unfold percentageOf, dashboard_percentage.
      destruct (decide (0 < total _)); [done | lia]. }
    rewrite Hpct. split; [| done].
    f_equal. f_equal. by apply levelOf_bands.
  - intros s c p level Hannual Hzero. unfold annual in Hannual.
    rewrite reports_studentStats_unfiltered in Hannual. cbv zeta in Hannual.
    injection Hannual as <- <- <-. split.
    + unfold percentageOf. destruct (decide (0 < total _)); [lia |]. reflexivity.
    + intros e He Hs. destruct (Hlisted e He) as (s' & -> & _ & _ & Htotal & _).
      unfold riskEntryOf in *. cbv zeta in *. simpl in *. subst s'. lia.
Qed.

(** Ana was present once and absent three times. *)
Lemma at_risk_students_are_critical_in_annual_report_witness :
  let att : ClassAttendance :=
    {[ "s1" := {[ "2025-03-05" := [PRESENT; ABSENT; ABSENT; ABSENT] ]} ]} in
  let ana := mkStudent "s1" "Ana" ACTIVE "c1" in
  let e := riskEntryOf att ana in
  e ∈ studentsAtRisk (fun l => l) att (dashboard_filteredStudents None [ana])
  ∧ st_status (risk_student e) = ACTIVE ∧ 0 < risk_total e.
Proof.
  intros att ana e.
  assert (e ∈ studentsAtRisk (fun l => l) att (dashboard_filteredStudents None [ana]))
    as He.
  { apply list_elem_of_In. unfold studentsAtRisk, dashboard_filteredStudents.
    apply List.filter_In. split; [by left |]. vm_compute. reflexivity. }
  split; [exact He |].
  destruct (at_risk_students_are_critical_in_annual_report (fun _ => None) (fun l => l)
              att [] None [ana] (fun l => reflexivity l)) as [Hrisk _].
  destruct (Hrisk e He) as (_ & Hactive & Htotal & _).
  split; [exact Hactive | exact Htotal].
Defined.

(** ** The school configuration dialog *)

Lemma isEmptyString_false (s : string) : isEmptyString s = false -> s ≠ "".
Proof. by destruct s. Qed.

Lemma NoDup_map_filter {A B : Type} (f : A -> B) (keep : A -> bool) (l : list A) :
  NoDup (map f l) -> NoDup (map f (List.filter keep l)).
Proof.
  induction l as [| x l IH]; simpl; [done |].
  intros [Hx Hl]%NoDup_cons. destruct (keep x); simpl; [| by apply IH].
  apply NoDup_cons. split; [| by apply IH].
  intros Hin. apply Hx. apply list_elem_of_In, List.in_map_iff in Hin as (y & Hy & Hin).
  apply List.filter_In in Hin as [Hin _].
  apply list_elem_of_In, List.in_map_iff. by exists y.
Qed.

Lemma NoDup_List_filter {A : Type} (keep : A -> bool) (l : list A) :
  NoDup l -> NoDup (List.filter keep l).
Proof.
  intros Hl. rewrite <- (List.map_id (List.filter keep l)).
  apply NoDup_map_filter. by rewrite List.map_id.
Qed.

Lemma dates_without (l : list Holiday) (d x : string) :
  x ∈ map h_date (List.filter (fun h => negb (bool_decide (h_date h = d))) l)
  <-> x ∈ map h_date l ∧ x ≠ d.
Proof.
  rewrite !list_elem_of_In, !List.in_map_iff. split.
  - intros (h & <- & Hin). apply List.filter_In in Hin as [Hin Hne].
    apply negb_true_iff, bool_decide_eq_false in Hne. split; [by exists h | done].
  - intros [(h & <- & Hin) Hne]. exists h. split; [done |].
    apply List.filter_In. split; [done |].
    by apply negb_true_iff, bool_decide_eq_false.
Qed.

(** X18: saving a holiday keeps the dates of the list unique when a
    holiday is added, and when the holiday in edit keeps its date or moves
    to a free date; the saved entry carries the trimmed, non-empty name.
    When the holiday in edit moves to the date of another holiday, the list
    holds that date twice. *)
Theorem saved_holiday_dates
    (sortByDate : list Holiday -> list Holiday)
    (localHolidays : list Holiday) (holidayDate holidayName : string)
    (editingHolidayOriginalDate : option string) (updated : list Holiday) :
  (forall l, sortByDate l ≡ₚ l) ->
  NoDup (map h_date localHolidays) ->
  handleSaveHoliday sortByDate localHolidays holidayDate holidayName
    editingHolidayOriginalDate = Some updated ->
  mkHoliday holidayDate (trim holidayName) ∈ updated
  ∧ trim holidayName ≠ ""
  ∧ (editedDate editingHolidayOriginalDate = None
     ∨ editedDate editingHolidayOriginalDate = Some holidayDate
     ∨ holidayDate ∉ map h_date localHolidays ->
     NoDup (map h_date updated))
  ∧ (forall original,
       editedDate editingHolidayOriginalDate = Some original ->
       original ≠ holidayDate ->
       holidayDate ∈ map h_date localHolidays ->
       ¬ NoDup (map h_date updated)).
Proof.
  intros Hsort Hnodup Hsave. unfold handleSaveHoliday in Hsave.
  destruct (negb (isEmptyString holidayDate) && negb (isEmptyString (trim holidayName)))
    eqn:Hguard; [| done].
  apply andb_true_iff in Hguard as [_ Hname]. apply negb_true_iff in Hname.
  cbv zeta in Hsave. injection Hsave as <-.
  set (new := mkHoliday holidayDate (trim holidayName)).
  assert (forall kept,
            map h_date (sortByDate (kept ++ [new]))
            ≡ₚ map h_date kept ++ [holidayDate]) as Hdates.
  { intros kept. rewrite Hsort. by rewrite map_app. }
  split; [| split; [by apply isEmptyString_false | split]].
  - rewrite Hsort. apply elem_of_app. right. by left.
  - intros Hcase. rewrite Hdates. apply NoDup_app.
    unfold editedDate in Hcase.
    destruct editingHolidayOriginalDate as [original |];
      [destruct (isEmptyString original) eqn:Hempty |].
    + split; [by apply NoDup_map_filter |]. split; [| apply NoDup_singleton].
      intros x Hx [-> | []%elem_of_nil]%elem_of_cons.
      apply dates_without in Hx as [_ Hne]. done.
    + split; [by apply NoDup_map_filter |]. split; [| apply NoDup_singleton].
      intros x Hx [-> | []%elem_of_nil]%elem_of_cons.
      apply dates_without in Hx as [Hin Hne].
      destruct Hcase as [[=] | [[= ->] | Hfree]]; done.
    + split; [by apply NoDup_map_filter |]. split; [| apply NoDup_singleton].
      intros x Hx [-> | []%elem_of_nil]%elem_of_cons.
      apply dates_without in Hx as [_ Hne]. done.
  - intros original Hedit Hmoved Htaken. unfold editedDate in Hedit.
    destruct editingHolidayOriginalDate as [original' |]; [| done].
    destruct (isEmptyString original'); [done |]. injection Hedit as ->.
    rewrite Hdates. intros (_ & Hdisjoint & _)%NoDup_app.
    apply (Hdisjoint holidayDate); [| by left].
    apply dates_without. split; [done | congruence].
Qed.

(** A holiday is added to a list of one; then it is edited onto the date
    of the other one. *)
Lemma saved_holiday_dates_witness :
  let before := [mkHoliday "2025-04-21" "Tiradentes"] in
  let after := before ++ [mkHoliday "2025-05-01" "Dia do Trabalho"] in
  handleSaveHoliday (fun l => l) before "2025-05-01" " Dia do Trabalho " None
  = Some after
  ∧ NoDup (map h_date after).
Proof.
  intros before after.
  assert (handleSaveHoliday (fun l => l) before "2025-05-01" " Dia do Trabalho " None
          = Some after) as Hsave by (vm_compute; reflexivity).
  split; [exact Hsave |].
  destruct (saved_holiday_dates (fun l => l) before "2025-05-01" " Dia do Trabalho "
              None after) as (_ & _ & Hunique & _).
  - intros l. reflexivity.
  - apply (bool_decide_unpack _). vm_compute. reflexivity.
  - exact Hsave.
  - apply Hunique. left. reflexivity.
Defined.

(** X19: the subject list stays free of duplicates.  A subject that is
    added is stored trimmed; adding it once more, also with surrounding
    white space, does nothing, and removing it gives back the subjects the
    list had before. *)
Theorem subject_list_stays_duplicate_free
    (sortStrings : list string -> list string)
    (localSubjects : list string) (newSubject : string) (updated : list string) :
  (forall l, sortStrings l ≡ₚ l) ->
  NoDup localSubjects ->
  handleAddSubject sortStrings localSubjects newSubject = Some updated ->
  NoDup updated
  ∧ trim newSubject ∈ updated
  ∧ trim newSubject ≠ ""
  ∧ (forall again, trim again = trim newSubject ->
       handleAddSubject sortStrings updated again = None)
  ∧ handleRemoveSubject updated (trim newSubject) ≡ₚ localSubjects.
Proof.
  intros Hsort Hnodup Hadd. unfold handleAddSubject in Hadd.
  destruct (negb (isEmptyString (trim newSubject))
            && negb (bool_decide (trim newSubject ∈ localSubjects))) eqn:Hguard;
    [| done].
  injection Hadd as <-.
  apply andb_true_iff in Hguard as [Hname Hnew].
  apply negb_true_iff in Hname.
  apply negb_true_iff, bool_decide_eq_false in Hnew.
  assert (trim newSubject ∈ sortStrings (localSubjects ++ [trim newSubject])) as Hin.
  { rewrite Hsort. apply elem_of_app. right. by left. }
  assert (NoDup (sortStrings (localSubjects ++ [trim newSubject]))) as Hnodup'.
  { rewrite Hsort. apply NoDup_app. split; [done |]. split; [| apply NoDup_singleton].
    by intros x Hx [-> | []%elem_of_nil]%elem_of_cons. }
  split; [done |]. split; [done |]. split; [by apply isEmptyString_false |]. split.
  - intros again Hagain. unfold handleAddSubject. rewrite Hagain.
    rewrite (bool_decide_eq_true_2 _ Hin). by rewrite andb_false_r.
  - apply NoDup_Permutation; [| done |].
    + unfold handleRemoveSubject. by apply NoDup_List_filter.
    + intros x. unfold handleRemoveSubject.
      rewrite list_elem_of_In, List.filter_In, <- list_elem_of_In, Hsort.
      rewrite negb_true_iff, bool_decide_eq_false, elem_of_app, list_elem_of_singleton.
      split; [intros [[? | ?] ?]; done | intros ?; split; [by left | congruence]].
Qed.

(** Math is added, with white space around it, to a list of one
    subject. *)
Lemma subject_list_stays_duplicate_free_witness :
  let updated := ["Art"; "Math"] in
  handleAddSubject (fun l => l) ["Art"] " Math " = Some updated
  ∧ NoDup updated
  ∧ handleAddSubject (fun l => l) updated "Math" = None.
Proof.
  intros updated.
  assert (handleAddSubject (fun l => l) ["Art"] " Math " = Some updated) as Hadd
    by (vm_compute; reflexivity).
  split; [exact Hadd |].
  destruct (subject_list_stays_duplicate_free (fun l => l) ["Art"] " Math " updated)
    as (Hnodup & _ & _ & Hagain & _).
  - intros l. reflexivity.
  - apply NoDup_singleton.
  - exact Hadd.
  - split; [exact Hnodup | apply Hagain; reflexivity].
Defined.

(** ** Adding students in a batch *)









(** ** The subject filter of the diary *)

Lemma setAdd_spec (x : string) (s : list string) :
  (forall y, y ∈ setAdd x s <-> y = x ∨ y ∈ s) ∧ (NoDup s -> NoDup (setAdd x s)).
Proof.
  unfold setAdd. destruct (bool_decide (x ∈ s)) eqn:Hx.
  - apply bool_decide_eq_true in Hx. split; [| done].
    intros y. split; [by right | by intros [-> | ?]].
  - apply bool_decide_eq_false in Hx. split.
    + intros y. rewrite elem_of_app, list_elem_of_singleton. tauto.
    + intros Hs. apply NoDup_app. split; [done |]. split; [| apply NoDup_singleton].
      by intros y Hy ->%list_elem_of_singleton.
Qed.

Lemma setOf_loop (l : list string) :
  forall acc,
    (forall y, y ∈ foldl (fun acc x => setAdd x acc) acc l <-> y ∈ acc ∨ y ∈ l)
    ∧ (NoDup acc -> NoDup (foldl (fun acc x => setAdd x acc) acc l)).
Proof.
  induction l as [| x l IH]; intros acc; cbn [foldl].
  - split; [| done]. intros y. rewrite elem_of_nil. tauto.
  - destruct (IH (setAdd x acc)) as [Hin Hnodup].
    destruct (setAdd_spec x acc) as [Hadd Hadd_nodup]. split.
    + intros y. rewrite Hin, Hadd, elem_of_cons. tauto.
    + auto.
Qed.

Lemma subjectsInView_lessons (rawData : list DiaryDay) :
  forall acc y,
    y ∈ foldl (fun acc day =>
                 foldl (fun acc lesson =>
                          if negb (isEmptyString (dl_subject lesson))
                             && negb (bool_decide (dl_subject lesson = unspecified))
                          then setAdd (dl_subject lesson) acc
                          else acc)
                       acc (dd_lessons day))
              acc rawData ->
    y ∈ acc
    ∨ (y ≠ "" ∧ y ≠ unspecified
       ∧ ∃ day lesson, day ∈ rawData ∧ lesson ∈ dd_lessons day ∧ dl_subject lesson = y).
Proof.
  induction rawData as [| day rawData IH]; intros acc y; cbn [foldl]; [by left |].
  intros Hy. apply IH in Hy as [Hy | (? & ? & d & l & Hd & Hl & Hs)].
  - assert (forall lessons acc0,
              y ∈ foldl (fun acc lesson =>
                           if negb (isEmptyString (dl_subject lesson))
                              && negb (bool_decide (dl_subject lesson = unspecified))
                           then setAdd (dl_subject lesson) acc
                           else acc)
                        acc0 lessons ->
              y ∈ acc0
              ∨ (y ≠ "" ∧ y ≠ unspecified
                 ∧ ∃ lesson, lesson ∈ lessons ∧ dl_subject lesson = y)) as Hinner.
    { induction lessons as [| l lessons IHl]; intros acc0; cbn [foldl]; [by left |].
      intros Hin. apply IHl in Hin as [Hin | (? & ? & l' & Hl' & Hs)].
      - destruct (negb (isEmptyString (dl_subject l))
                  && negb (bool_decide (dl_subject l = unspecified))) eqn:Hguard;
          [| by left].
        apply (setAdd_spec (dl_subject l) acc0) in Hin as [-> | Hin]; [| by left].
        apply andb_true_iff in Hguard as [Hne Hun].
        apply negb_true_iff in Hne, Hun. apply bool_decide_eq_false in Hun.
        right. split; [by apply isEmptyString_false |]. split; [done |].
        exists l. split; [by left | done].
      - right. split; [done |]. split; [done |]. exists l'. split; [by right | done]. }
    apply Hinner in Hy as [Hy | (? & ? & l & Hl & Hs)]; [by left |].
    right. split; [done |]. split; [done |]. exists day, l. split; [by left | done].
  - right. split; [done |]. split; [done |]. exists d, l. split; [by right | done].
Qed.

(** X21: the subject filter of the diary.  The list of subjects on offer
    has no duplicates and holds every registered subject; a subject on
    offer that is not registered is neither empty nor the sentinel, and
    selecting it with an empty search gives a diary that is not empty.
    With a subject other than [ALL] selected, every lesson shown has that
    subject. *)
Theorem diary_subject_filter
    (sortStrings : list string -> list string)
    (registeredSubjects : list string) (rawData : list DiaryDay) :
  (forall l, sortStrings l ≡ₚ l) ->
  let available := availableSubjects sortStrings registeredSubjects rawData in
  NoDup available
  ∧ (forall s, s ∈ registeredSubjects -> s ∈ available)
  ∧ (forall s, s ∈ available -> s ∉ registeredSubjects ->
       s ≠ "" ∧ s ≠ unspecified ∧ filteredDiaryData rawData s "" ≠ [])
  ∧ (forall s searchTerm day lesson,
       s ≠ "ALL" ->
       day ∈ filteredDiaryData rawData s searchTerm ->
       lesson ∈ dd_lessons day ->
       dl_subject lesson = s).
Proof.
  intros Hsort available. unfold available, availableSubjects, setOf.
  destruct (setOf_loop (registeredSubjects ++ subjectsInView rawData) [])
    as [Hin Hnodup].
  split; [| split; [| split]].
  - rewrite Hsort. apply Hnodup, NoDup_nil_2.
  - intros s Hs. rewrite Hsort. apply Hin. right. apply elem_of_app. by left.
  - intros s Hs Hnew. rewrite Hsort in Hs.
    apply Hin in Hs as [[]%elem_of_nil | Hs].
    apply elem_of_app in Hs as [Hs | Hs]; [done |].
    apply subjectsInView_lessons in Hs
      as [[]%elem_of_nil | (Hne & Hun & day & lesson & Hday & Hlesson & Hsubject)].
    split; [done |]. split; [done |].
    assert (mkDay (dd_date day) (List.filter (diaryKeeps s "") (dd_lessons day))
            ∈ filteredDiaryData rawData s "") as Hshown.
    { unfold filteredDiaryData. apply list_elem_of_In, List.filter_In. split.
      - apply List.in_map_iff. exists day. split; [done | by apply list_elem_of_In].
      - cbn [dd_lessons]. apply Nat.ltb_lt.
        assert (lesson ∈ List.filter (diaryKeeps s "") (dd_lessons day)) as Hkept.
        { apply list_elem_of_In, List.filter_In. split; [by apply list_elem_of_In |].
          unfold diaryKeeps. rewrite Hsubject, (bool_decide_eq_true_2 (s = s) eq_refl).
          by rewrite andb_false_r. }
        destruct (List.filter _ _); [by apply elem_of_nil in Hkept | simpl; lia]. }
    intros Hnone. rewrite Hnone in Hshown. by apply elem_of_nil in Hshown.
  - intros s searchTerm day lesson Hall Hday Hlesson.
    unfold filteredDiaryData in Hday.
    apply list_elem_of_In, List.filter_In in Hday as [Hday _].
    apply List.in_map_iff in Hday as (raw & <- & _). cbn [dd_lessons] in Hlesson.
    apply list_elem_of_In, List.filter_In in Hlesson as [_ Hkeep].
    unfold diaryKeeps in Hkeep.
    rewrite (bool_decide_eq_false_2 (s = "ALL") Hall) in Hkeep. simpl in Hkeep.
    destruct (bool_decide (dl_subject lesson = s)) eqn:Hsame; [| done].
    by apply bool_decide_eq_true in Hsame.
Qed.

(** One day with a Math lesson and a lesson without subject; Art is
    registered. *)
Lemma diary_subject_filter_witness :
  let rawData :=
    [mkDay "2025-03-05" [mkLesson 0 "Math" "Fractions"; mkLesson 1 unspecified ""]] in
  availableSubjects (fun l => l) ["Art"] rawData = ["Art"; "Math"]
  ∧ NoDup (availableSubjects (fun l => l) ["Art"] rawData).
Proof.
  intros rawData.
  split; [vm_compute; reflexivity |].
  destruct (diary_subject_filter (fun l => l) ["Art"] rawData (fun l => reflexivity l))
    as (Hnodup & _).
  exact Hnodup.
Defined.

(** ** Annual statistics of the student dialog *)







(** ** Student rows of the remote source *)

Section StudentRowsFacts.

Variable statusValue : EnrollmentStatus -> string.

(** No member has an empty value or a value that starts like a class id,
    the values are trimmed, and two members have different values. *)
Hypothesis values_not_empty : forall st, statusValue st ≠ "".
Hypothesis values_not_class_ids : forall st, String.prefix "c-" (statusValue st) = false.
Hypothesis values_trimmed : forall st, trim (statusValue st) = statusValue st.
Hypothesis values_distinct : forall st st', statusValue st = statusValue st' -> st = st'.

Lemma statusOfValue_some (str : string) (st : EnrollmentStatus) :
  statusOfValue statusValue str = Some st -> statusValue st = str.
Proof.
  unfold statusOfValue. intros Hfind. apply List.find_some in Hfind as [_ Heq].
  by apply String.eqb_eq in Heq.
Qed.

Lemma statusOfValue_value (st : EnrollmentStatus) :
  statusOfValue statusValue (statusValue st) = Some st.
Proof.
  destruct (statusOfValue statusValue (statusValue st)) as [st' |] eqn:Hfind.
  - apply statusOfValue_some in Hfind. f_equal. by apply values_distinct.
  - unfold statusOfValue in Hfind.
    pose proof (List.find_none _ _ Hfind st) as Hnone. simpl in Hnone.
    rewrite String.eqb_refl in Hnone.
    assert (false = true -> False) as Hne by done. exfalso. apply Hne. symmetry.
    apply Hnone. destruct st; tauto.
Qed.

Lemma statusOfValue_empty : statusOfValue statusValue "" = None.
Proof.
  destruct (statusOfValue statusValue "") as [st |] eqn:Hfind; [| done].
  apply statusOfValue_some in Hfind. by apply values_not_empty in Hfind.
Qed.

Lemma statusOfValue_class_id (str : string) :
  String.prefix "c-" str = true -> statusOfValue statusValue str = None.
Proof.
  intros Hprefix.
  destruct (statusOfValue statusValue str) as [st |] eqn:Hfind; [| done].
  apply statusOfValue_some in Hfind. rewrite <- Hfind, values_not_class_ids in Hprefix.
  done.
Qed.

Lemma trimmedCell_trimmed (v : string) : trim v = v -> trimmedCell (Some v) = v.
Proof. intros Hv. unfold trimmedCell. by destruct v. Qed.

(** X23: the sanitization of the student rows that are read.  The class
    id of a sanitized row is never the value of an enrollment status; a row
    whose class cell holds a status value, and whose registration cell holds
    no class id, gets that status and no class; and a student that
    [saveStudent] sends reads back as it was, when its name and class id
    are trimmed and its class id is no status value. *)
Theorem student_rows_are_healed :
  (forall s, statusOfValue statusValue (st_classId (healStudent statusValue s)) = None)
  ∧ (forall s st,
       statusOfValue statusValue (trimmedCell (rs_classId s)) = Some st ->
       String.prefix "c-" (trimmedCell (rs_registration s)) = false ->
       st_status (healStudent statusValue s) = st
       ∧ st_classId (healStudent statusValue s) = "")
  ∧ (forall student,
       trim (st_name student) = st_name student ->
       trim (st_classId student) = st_classId student ->
       statusOfValue statusValue (st_classId student) = None ->
       healStudent statusValue (saveStudentRow statusValue student) = student).
Proof.
  split; [| split].
  - intros s. unfold healStudent. cbv zeta.
    destruct (String.prefix "c-" (trimmedCell (rs_registration s))) eqn:Hreg.
    + rewrite (statusOfValue_class_id _ Hreg). simpl.
      by apply statusOfValue_class_id.
    + destruct (statusOfValue statusValue (trimmedCell (rs_classId s))) eqn:Hcls;
        simpl; [apply statusOfValue_empty | done].
  - intros s st Hshifted Hreg. unfold healStudent. cbv zeta.
    by rewrite Hreg, Hshifted.
  - intros [id name status classId] Hname Hclass Hnostatus. simpl in *.
    unfold healStudent, saveStudentRow. cbv zeta.
    cbn [rs_id rs_name rs_classId rs_status rs_situation rs_registration
         st_id st_name st_status st_classId].
    rewrite (trimmedCell_trimmed classId Hclass), (trimmedCell_trimmed name Hname).
    assert ((if String.prefix "c-" classId then classId else classId) = classId)
      as -> by (by destruct (String.prefix "c-" classId)).
    rewrite Hnostatus. simpl. f_equal.
    destruct (isEmptyString (statusValue status)) eqn:Hempty.
    { exfalso. apply (values_not_empty status). by destruct (statusValue status). }
    unfold normalizeStatus, cellOr, jsOrStr. rewrite Hempty. cbv zeta.
    rewrite Hempty, values_trimmed, Hempty. by rewrite statusOfValue_value.
Qed.

End StudentRowsFacts.

(** A row whose columns are shifted: the class cell holds the status. *)
Lemma student_rows_are_healed_witness :
  let statusValue := fun st =>
    match st with
    | ACTIVE => "Cursando"
    | DROPOUT => "Evadido"
    | TRANSFERRED => "Transferido"
    | OTHER => "Outro"
    end in
  let row := mkRawStudent "7" (Some "Ana ") (Some "Transferido") None None None in
  st_status (healStudent statusValue row) = TRANSFERRED
  ∧ st_classId (healStudent statusValue row) = "".
Proof.
  intros statusValue row.
  assert (forall st, statusValue st ≠ "") as H1 by (by intros []).
  assert (forall st, String.prefix "c-" (statusValue st) = false) as H2 by (by intros []).
  assert (forall st, trim (statusValue st) = statusValue st) as H3
    by (intros []; vm_compute; reflexivity).
  assert (forall st st', statusValue st = statusValue st' -> st = st') as H4
    by (intros [] []; simpl; congruence).
  destruct (student_rows_are_healed statusValue H1 H2 H3 H4) as (_ & Hshift & _).
  apply (Hshift row TRANSFERRED); vm_compute; reflexivity.
Defined.
